(** * jquery.scrollable: the position and option normalizer

    A shallow embedding of the normalization module of jquery.scrollable
    (the [norm] namespace: [normalizePosition], [normalizeOptions],
    [normalizeAxisName] and their private helpers), of its earlier version
    and of [toPercent] of the demo page, and the properties the specification
    states about the normalizer.

    Conventions of the embedding

    - A JavaScript number is a [JS.number]: a rational, or one of NaN,
      +Infinity, -Infinity; the sign of zero is not modelled. The arithmetic
      of [JS] is exact. The arithmetic of [binary64] is that of the
      language: every result is rounded to the nearest IEEE double.
    - The normalizer is embedded over both. [norm] computes exactly; the
      properties stated of it are those of names, options, the queue, errors
      and clamping, those of whole numbers of pixels, on which doubles
      compute exactly, and the equations between two resolutions that go
      through the same operations. [binary64] computes in double precision;
      the properties that depend on how a sum, a product or a quotient is
      rounded are stated of it, and so are those of [toPercent].
    - A primitive JavaScript value is a [JS.value]; [VObject] stands for any
      value that is not a primitive (arrays, functions, nested objects).
    - A plain object supplied by the caller is the ordered list of its own
      properties; an object built by the code is a [gmap string value].
    - [throw new Error (...)] is the [Err] case of [JS.result]; the error
      carries the throw site it comes from. *)

From Stdlib Require Import ZArith QArith Qround Qpower Qabs Qreduction.
From Stdlib Require Import String Ascii List Bool Lia Lqa.
From stdpp Require Import base strings gmap.
Import ListNotations.

Local Open Scope string_scope.
Local Open Scope Z_scope.

(** ** JavaScript values and built-ins *)

Module JS.

(** *** Numbers *)

Inductive number : Type :=
| NaN
| PosInf
| NegInf
| Fin (q : Q).

Definition ofZ (z : Z) : number := Fin (inject_Z z).

Definition isNaN (n : number) : bool :=
  match n with NaN => true | _ => false end.

(** Sign of a finite number: [Lt], [Eq] or [Gt] as it compares with zero. *)
Definition Qsign (q : Q) : comparison := (q ?= 0)%Q.

Definition neg (a : number) : number :=
  match a with
  | NaN => NaN
  | PosInf => NegInf
  | NegInf => PosInf
  | Fin q => Fin (- q)%Q
  end.

(** [a + b] *)
Definition add (a b : number) : number :=
  match a, b with
  | NaN, _ | _, NaN => NaN
  | PosInf, NegInf | NegInf, PosInf => NaN
  | PosInf, _ | _, PosInf => PosInf
  | NegInf, _ | _, NegInf => NegInf
  | Fin p, Fin q => Fin (p + q)%Q
  end.

(** [a - b] *)
Definition sub (a b : number) : number := add a (neg b).

Definition infOfSign (s : comparison) : number :=
  match s with Lt => NegInf | Eq => NaN | Gt => PosInf end.

(** [a * b] *)
Definition mul (a b : number) : number :=
  match a, b with
  | NaN, _ | _, NaN => NaN
  | PosInf, PosInf | NegInf, NegInf => PosInf
  | PosInf, NegInf | NegInf, PosInf => NegInf
  | PosInf, Fin q | Fin q, PosInf => infOfSign (Qsign q)
  | NegInf, Fin q | Fin q, NegInf => infOfSign (CompOpp (Qsign q))
  | Fin p, Fin q => Fin (p * q)%Q
  end.

(** [a / b]; a zero divisor counts as +0. *)
Definition div (a b : number) : number :=
  match a, b with
  | NaN, _ | _, NaN => NaN
  | (PosInf | NegInf), (PosInf | NegInf) => NaN
  | PosInf, Fin q => match Qsign q with Lt => NegInf | _ => PosInf end
  | NegInf, Fin q => match Qsign q with Lt => PosInf | _ => NegInf end
  | Fin _, (PosInf | NegInf) => Fin 0
  | Fin p, Fin q =>
      match Qsign q with
      | Eq => infOfSign (Qsign p)
      | _ => Fin (p / q)%Q
      end
  end.

(** [a <= b] *)
Definition leb (a b : number) : bool :=
  match a, b with
  | NaN, _ | _, NaN => false
  | NegInf, _ | _, PosInf => true
  | PosInf, _ | _, NegInf => false
  | Fin p, Fin q => Qle_bool p q
  end.

(** [a === b] on numbers *)
Definition eqb (a b : number) : bool :=
  match a, b with
  | PosInf, PosInf | NegInf, NegInf => true
  | Fin p, Fin q => Qeq_bool p q
  | _, _ => false
  end.

(** Nearest integer, ties towards +Infinity. *)
Definition round (q : Q) : Z := Qfloor (q + (1 # 2))%Q.

(** [Math.round] *)
Definition Math_round (a : number) : number :=
  match a with
  | Fin q => ofZ (round q)
  | _ => a
  end.

(** [Math.min (a, b)] *)
Definition Math_min (a b : number) : number :=
  match a, b with
  | NaN, _ | _, NaN => NaN
  | _, _ => if leb a b then a else b
  end.

(** [Math.max (a, b)] *)
Definition Math_max (a b : number) : number :=
  match a, b with
  | NaN, _ | _, NaN => NaN
  | _, _ => if leb a b then b else a
  end.

(** *** Strings *)

Definition lowerChar (c : ascii) : ascii :=
  let n := nat_of_ascii c in
  if ((65 <=? n) && (n <=? 90))%nat then ascii_of_nat (n + 32) else c.

(** [s.toLowerCase ()] *)
Fixpoint toLowerCase (s : string) : string :=
  match s with
  | EmptyString => EmptyString
  | String c r => String (lowerChar c) (toLowerCase r)
  end.

(** An index argument of [slice], resolved against the length: a negative
    index counts from the end, and the result is kept within [0, len]. *)
Definition sliceIndex (len i : Z) : Z :=
  if (i <? 0)%Z then Z.max (len + i) 0 else Z.min i len.

(** [s.slice (start, stop)]; [stop = None] is the one-argument call. *)
Definition slice (start : Z) (stop : option Z) (s : string) : string :=
  let len := Z.of_nat (String.length s) in
  let from := sliceIndex len start in
  let to := match stop with Some e => sliceIndex len e | None => len end in
  String.substring (Z.to_nat from) (Z.to_nat (to - from)) s.

Definition isWhiteSpace (c : ascii) : bool :=
  let n := nat_of_ascii c in
  ((n =? 32) || ((9 <=? n) && (n <=? 13)))%nat.

Fixpoint trimLeft (s : string) : string :=
  match s with
  | String c r => if isWhiteSpace c then trimLeft r else s
  | EmptyString => s
  end.

Fixpoint allWhiteSpace (s : string) : bool :=
  match s with
  | String c r => isWhiteSpace c && allWhiteSpace r
  | EmptyString => true
  end.

Definition digitOf (c : ascii) : option Z :=
  let n := nat_of_ascii c in
  if ((48 <=? n) && (n <=? 57))%nat then Some (Z.of_nat (n - 48)) else None.

Definition hexDigitOf (c : ascii) : option Z :=
  let n := nat_of_ascii c in
  if ((48 <=? n) && (n <=? 57))%nat then Some (Z.of_nat (n - 48))
  else if ((97 <=? n) && (n <=? 102))%nat then Some (Z.of_nat (n - 87))
  else if ((65 <=? n) && (n <=? 70))%nat then Some (Z.of_nat (n - 55))
  else None.

(** The longest run of digits at the head of [s], read in base [base]:
    its value (continuing from [acc]), its length, and what follows it. *)
Fixpoint digits (digit : ascii -> option Z) (base : Z) (s : string)
    (acc : Z) (count : nat) : Z * nat * string :=
  match s with
  | String c r =>
      match digit c with
      | Some d => digits digit base r (base * acc + d) (S count)
      | None => (acc, count, s)
      end
  | EmptyString => (acc, count, s)
  end.

(** An optional sign: whether it is a minus, and what follows it. *)
Definition signOf (s : string) : bool * string :=
  match s with
  | String "+" r => (false, r)
  | String "-" r => (true, r)
  | _ => (false, s)
  end.

(** An optional exponent part [e[+-]ddd]: its value and what follows it.
    An [e] that no digit follows is not an exponent. *)
Definition exponentOf (s : string) : Z * string :=
  match s with
  | String ("e" | "E") r =>
      let '(minus, r1) := signOf r in
      let '(e, n, r2) := digits digitOf 10 r1 0 0%nat in
      match n with
      | O => (0, s)
      | _ => (if minus then - e else e, r2)
      end
  | _ => (0, s)
  end.

(** The longest prefix of [s] that is a signed decimal literal
    ([StrDecimalLiteral]: digits, fraction, exponent, or [Infinity]), with
    the rest of the string; [NaN] if [s] does not start with one. *)
Definition decimalPrefix (s : string) : number * string :=
  let '(minus, s1) := signOf s in
  if String.prefix "Infinity" s1 then
    (if minus then NegInf else PosInf, String.substring 8 (String.length s1 - 8) s1)
  else
    let '(ip, n1, s2) := digits digitOf 10 s1 0 0%nat in
    let '(fp, n2, s3) :=
      match s2 with
      | String "." r => digits digitOf 10 r 0 0%nat
      | _ => (0, O, s2)
      end in
    match (n1 + n2)%nat with
    | O => (NaN, s)
    | _ =>
        let '(e, s4) := exponentOf s3 in
        let mantissa := (inject_Z ip + inject_Z fp / inject_Z (10 ^ Z.of_nat n2))%Q in
        let magnitude := (mantissa * Qpower (inject_Z 10) e)%Q in
        (Fin (if minus then - magnitude else magnitude)%Q, s4)
    end.

(** [parseFloat (s)] *)
Definition parseFloat (s : string) : number :=
  fst (decimalPrefix (trimLeft s)).

(** [Number (s)], the conversion [s - 0] applies to a string: the whole
    string, white space at both ends apart, must be a decimal or a
    hexadecimal literal; the empty string is 0. *)
Definition stringToNumber (s : string) : number :=
  let t := trimLeft s in
  match t with
  | EmptyString => ofZ 0
  | String "0" (String ("x" | "X") r) =>
      let '(h, n, rest) := digits hexDigitOf 16 r 0 0%nat in
      match n with
      | O => NaN
      | _ => if allWhiteSpace rest then ofZ h else NaN
      end
  | _ =>
      let '(v, rest) := decimalPrefix t in
      if allWhiteSpace rest then v else NaN
  end.

(** [$.isNumeric (s)] for a string [s], as jQuery 1.x and 2.x compute it:
    [(s - parseFloat (s) + 1) >= 0]. *)
Definition isNumeric (s : string) : bool :=
  leb (ofZ 0) (add (sub (stringToNumber s) (parseFloat s)) (ofZ 1)).

(** *** Values *)

Inductive value : Type :=
| VUndefined
| VNull
| VBool (b : bool)
| VNum (n : number)
| VStr (s : string)
| VObject.

(** [a === b]; two objects are never taken to be the same object. *)
Definition strict_eq (a b : value) : bool :=
  match a, b with
  | VUndefined, VUndefined | VNull, VNull => true
  | VBool x, VBool y => Bool.eqb x y
  | VNum x, VNum y => eqb x y
  | VStr x, VStr y => String.eqb x y
  | _, _ => false
  end.

(** Truthiness, as tested by [x ? _ : _] and [if (x)]. *)
Definition truthy (v : value) : bool :=
  match v with
  | VUndefined | VNull => false
  | VBool b => b
  | VNum NaN => false
  | VNum (Fin q) => negb (Qeq_bool q 0)
  | VNum _ => true
  | VStr s => negb (String.eqb s "")
  | VObject => true
  end.

(** The conversion to a number that the arithmetic operators apply to an
    operand ([ToNumber]); an object is taken to convert to NaN. *)
Definition toNumber (v : value) : number :=
  match v with
  | VUndefined => NaN
  | VNull => ofZ 0
  | VBool b => if b then ofZ 1 else ofZ 0
  | VNum n => n
  | VStr s => stringToNumber s
  | VObject => NaN
  end.

(** *** Objects *)

(** [obj[key]]: reading a property that is not there gives [undefined]. *)
Definition prop (obj : gmap string value) (key : string) : value :=
  default VUndefined (obj !! key).

Definition isDefined (v : value) : bool :=
  match v with VUndefined => false | _ => true end.

(** One source of [$.extend (target, src)]: every property of [src] whose
    value is not [undefined] is written to [target]. *)
Definition extend1 (target src : gmap string value) : gmap string value :=
  filter (fun kv => Is_true (isDefined kv.2)) src ∪ target.

(** [$.extend ({}, src1, ..., srcN)] *)
Definition extend (srcs : list (gmap string value)) : gmap string value :=
  fold_left extend1 srcs ∅.

(** *** Exceptions *)

(** The four [throw] statements of the module. *)
Inductive error : Type :=
| AmbiguousAxis          (* "Axis option not defined, or not defined unambiguously" *)
| AxisKeywordMismatch    (* "Desired position ... is inconsistent with axis option" *)
| InvalidPositionValue   (* "Invalid position argument" *)
| InvalidAxisName.       (* "Invalid axis name" *)

Inductive result (A : Type) : Type :=
| Ok (a : A)
| Err (e : error).
Arguments Ok {A} a.
Arguments Err {A} e.

#[global] Instance result_bind : MBind result :=
  fun A B (k : A -> result B) (r : result A) =>
    match r with
    | Ok a => k a
    | Err e => Err e
    end.

#[global] Instance result_ret : MRet result := fun A (a : A) => Ok a.

End JS.

Export JS.

(** ** The collaborators of the normalizer *)

(** A single scroll axis: what an [axis] variable holds once it is known to
    be [norm.HORIZONTAL] ("horizontal") or [norm.VERTICAL] ("vertical"). *)
Inductive Axis : Type :=
| Horizontal
| Vertical.

(** The scroll container as the normalizer sees it: the answers of
    [$container.scrollLeft ()] and [$container.scrollTop ()], and the
    maximum scroll offset on each axis. All four are integers. *)
Record Container : Type := {
  scrollLeft : Z;
  scrollTop : Z;
  scrollMaxHorizontal : Z;
  scrollMaxVertical : Z
}.

(** A position argument: a plain object ([$.isPlainObject]) with its own
    properties in enumeration order, or any other value. *)
Inductive Position : Type :=
| Primitive (v : value)
| Hash (h : list (string * value)).

Module lib.

(** Modelled from the spec: [lib.isString] (the [lib] namespace is not among
    the sources). The value is a string. *)
Definition isString (v : value) : bool :=
  match v with VStr _ => true | _ => false end.

(** Modelled from the spec: [lib.isNumber] (the [lib] namespace is not among
    the sources). The value is numeric; an unparseable number (NaN) is not,
    it ends as an invalid position value. *)
Definition isNumber (v : value) : bool :=
  match v with VNum n => negb (isNaN n) | _ => false end.

(** Modelled from the spec: [lib.isInArray] (the [lib] namespace is not among
    the sources). The value is one of the recognized names of the table. *)
Definition isInArray (v : value) (names : list string) : bool :=
  existsb (fun name => strict_eq v (VStr name)) names.

(** Modelled from the spec: [lib.getScrollMaximum] (the [lib] namespace is not
    among the sources). [RangeProbe.maxPosition (container, axis)]: the
    maximum scrollable offset of the container on the axis. *)
Definition getScrollMaximum (c : Container) (axis : Axis) : number :=
  match axis with
  | Horizontal => ofZ (scrollMaxHorizontal c)
  | Vertical => ofZ (scrollMaxVertical c)
  end.

End lib.

Module queue.

(** The target position an entry of the queue was submitted with; an axis
    the entry does not mention is [undefined] ([None]). *)
Record Target : Type := {
  horizontal : option number;
  vertical : option number
}.

(** An info entry of the queue; [position] may be missing. *)
Record Info : Type := {
  position : option Target
}.

(** The element whose queues are consulted: for every queue name, the info
    entries of its pending scroll animations, oldest first. *)
Definition Scrollable : Type := value -> list Info.

(** Modelled from the spec: [queue.QueueWrapper] (the [queue] namespace is not
    among the sources). [QueueView.snapshot (queueId)]: a read-only, ordered
    view of the pending target positions of one queue. *)
Record QueueWrapper : Type := {
  getInfo : list Info
}.

Definition newQueueWrapper (scrollable : Scrollable) (queueName : value) : QueueWrapper :=
  {| getInfo := scrollable queueName |}.

End queue.

(** ** The normalizer *)

Module norm.

(** non-canonical but recognized names for the vertical axis *)
Definition altAxisNamesV : list string := ["v"; "y"; "top"].

(** non-canonical but recognized names for the horizontal axis *)
Definition altAxisNamesH : list string := ["h"; "x"; "left"].

(** non-canonical but recognized names for both axes *)
Definition altAxisNamesBoth : list string := ["vh"; "hv"; "xy"; "yx"; "all"].

(** all non-canonical but recognized names for one or both axes *)
Definition altAxisNames : list string :=
  altAxisNamesV ++ altAxisNamesH ++ altAxisNamesBoth.

Definition VERTICAL : string := "vertical".
Definition HORIZONTAL : string := "horizontal".
Definition BOTH_AXES : string := "both".

(** scroll position value signalling that the axis should not be scrolled *)
Definition IGNORE_AXIS : number := ofZ (-999).

(** default scroll options *)
Definition defaults : gmap string value :=
  <["axis" := VStr VERTICAL]> (<["queue" := VStr "internal.jquery.scrollable"]> ∅).

(** The mode flags [norm.MODE_REPLACE], [norm.MODE_APPEND], [norm.MODE_MERGE]. *)
Inductive ScrollMode : Type :=
| MODE_REPLACE
| MODE_APPEND
| MODE_MERGE.

(** The result type [Coordinates]. *)
Record Coordinates : Type := {
  horizontal : number;
  vertical : number
}.

(** [coords[axis]] *)
Definition coordinate (axis : Axis) (coords : Coordinates) : number :=
  match axis with
  | Horizontal => horizontal coords
  | Vertical => vertical coords
  end.

(** [normalized[axis] = x; normalized[otherAxis] = y] on an empty object *)
Definition coordinates (axis : Axis) (x y : number) : Coordinates :=
  match axis with
  | Horizontal => {| horizontal := x; vertical := y |}
  | Vertical => {| horizontal := y; vertical := x |}
  end.

(** The test [axis === norm.HORIZONTAL || axis === norm.VERTICAL], with the
    axis it establishes. *)
Definition singleAxis (axis : value) : option Axis :=
  if strict_eq axis (VStr HORIZONTAL) then Some Horizontal
  else if strict_eq axis (VStr VERTICAL) then Some Vertical
  else None.

(** [isUndefinedPositionValue] *)
Definition isUndefinedPositionValue (positionValue : value) : bool :=
  strict_eq positionValue VUndefined || strict_eq positionValue VNull
  || strict_eq positionValue (VBool false) || strict_eq positionValue (VStr "").

(** [getScrollMode] *)
Definition getScrollMode (animationOptions : gmap string value) : ScrollMode :=
  if truthy (prop animationOptions "append") then MODE_APPEND
  else if truthy (prop animationOptions "merge") then MODE_MERGE
  else MODE_REPLACE.

(** [norm.normalizeAxisName]. The name it returns is one of the three
    canonical strings, so the result is typed as a string. *)
Definition normalizeAxisName (name : value) : result string :=
  let name :=
    if lib.isInArray name altAxisNamesV then VStr VERTICAL
    else if lib.isInArray name altAxisNamesH then VStr HORIZONTAL
    else if lib.isInArray name altAxisNamesBoth then VStr BOTH_AXES
    else name in
  if negb (strict_eq name (VStr VERTICAL) || strict_eq name (VStr HORIZONTAL)
           || strict_eq name (VStr BOTH_AXES))
  then Err InvalidAxisName
  else match name with
       | VStr s => Ok s
       | _ => Err InvalidAxisName
       end.

(** The [$.each] loop of [normalizeAxisProperty], over the properties that
    are still to be visited. The hash is iterated as an object, property by
    property, which is what [$.each] does with a hash that has no property
    named [length]. *)
Fixpoint normalizeAxisProperties (props : list (string * value))
    (normalized : gmap string value) : result (gmap string value) :=
  match props with
  | [] => Ok normalized
  | (key, v) :: rest =>
      if lib.isInArray (VStr key) altAxisNames then
        name ← normalizeAxisName (VStr key);
        normalizeAxisProperties rest (<[name := v]> normalized)
      else
        normalizeAxisProperties rest (<[key := v]> normalized)
  end.

(** [normalizeAxisProperty] *)
Definition normalizeAxisProperty (inputHash : list (string * value))
    : result (gmap string value) :=
  normalizeAxisProperties inputHash ∅.

(** [limitToScrollRange] *)
Definition limitToScrollRange (position : number) (c : Container) (axis : Axis) : number :=
  let position := Math_min position (lib.getScrollMaximum c axis) in
  let position := Math_max position (ofZ 0) in
  position.

(** [getCurrentScrollPosition] *)
Definition getCurrentScrollPosition (c : Container) (axis : Axis) : number :=
  match axis with
  | Horizontal => ofZ (scrollLeft c)
  | Vertical => ofZ (scrollTop c)
  end.

(** The callback of the [$.each] loop of [getLastPositionInfo]: one info
    entry updates the running [last] values. *)
Definition retrieve (last : Coordinates) (info : queue.Info) : Coordinates :=
  match queue.position info with
  | Some target =>
      let retrievedX := queue.horizontal target in
      let retrievedY := queue.vertical target in
      let last :=
        match retrievedX with
        | Some x =>
            if negb (eqb x IGNORE_AXIS)
            then {| horizontal := x; vertical := vertical last |}
            else last
        | None => last
        end in
      match retrievedY with
      | Some y =>
          if negb (eqb y IGNORE_AXIS)
          then {| horizontal := horizontal last; vertical := y |}
          else last
      | None => last
      end
  | None => last
  end.

(** [getLastPositionInfo] for both axes ([axis] omitted or "both"): the
    [last] hash after the loop. *)
Definition lastPositionInfo (queueWrapper : queue.QueueWrapper) : Coordinates :=
  fold_left retrieve (queue.getInfo queueWrapper)
    {| horizontal := IGNORE_AXIS; vertical := IGNORE_AXIS |}.

(** [getLastPositionInfo] for a single axis, which is how this module calls
    it: [last[axis]]. *)
Definition getLastPositionInfo (queueWrapper : queue.QueueWrapper) (axis : Axis) : number :=
  coordinate axis (lastPositionInfo queueWrapper).

(** [getStartScrollPosition]; [position] stays [undefined] ([None]) in
    replace mode. *)
Definition getStartScrollPosition (c : Container) (queueWrapper : queue.QueueWrapper)
    (axis : Axis) (scrollMode : ScrollMode) : number :=
  let position :=
    match scrollMode with
    | MODE_APPEND | MODE_MERGE => Some (getLastPositionInfo queueWrapper axis)
    | MODE_REPLACE => None
    end in
  match position with
  | None => getCurrentScrollPosition c axis
  | Some p => if eqb p IGNORE_AXIS then getCurrentScrollPosition c axis else p
  end.

(** [normalizePositionForAxis], "Deal with +=, -= relative position
    prefixes": the position without its prefix, the sign and the base
    position. *)
Definition relativePrefix (position : string) (c : Container)
    (queueWrapper : queue.QueueWrapper) (axis : Axis) (scrollMode : ScrollMode)
    : string * number * number :=
  let prefix := slice 0 (Some 2) position in
  if (prefix =? "+=")%string || (prefix =? "-=")%string then
    (slice 2 None position,
     (if (prefix =? "+=")%string then ofZ 1 else ofZ (-1)),
     getStartScrollPosition c queueWrapper axis scrollMode)
  else
    (position, ofZ 1, ofZ 0).

(** [normalizePositionForAxis], "Resolve px, % units" and "Resolve position
    strings": the new value of [position]. *)
Definition resolveUnits (position : string) (c : Container) (axis : Axis) : result value :=
  if (slice (-2) None position =? "px")%string then
    Ok (VNum (parseFloat (slice 0 (Some (-2)) position)))
  else if (slice (-1) None position =? "%")%string then
    Ok (VNum (div (mul (parseFloat (slice 0 (Some (-1)) position))
                       (lib.getScrollMaximum c axis))
                  (ofZ 100)))
  else
    match axis with
    | Horizontal =>
        let position := VStr position in
        let position :=
          if strict_eq position (VStr "left") then VNum (ofZ 0) else position in
        let position :=
          if strict_eq position (VStr "right")
          then VNum (lib.getScrollMaximum c axis) else position in
        if strict_eq position (VStr "top") || strict_eq position (VStr "bottom")
        then Err AxisKeywordMismatch
        else Ok position
    | Vertical =>
        let position := VStr position in
        let position :=
          if strict_eq position (VStr "top") then VNum (ofZ 0) else position in
        let position :=
          if strict_eq position (VStr "bottom")
          then VNum (lib.getScrollMaximum c axis) else position in
        if strict_eq position (VStr "left") || strict_eq position (VStr "right")
        then Err AxisKeywordMismatch
        else Ok position
    end.

(** [normalizePositionForAxis], "Convert any remaining numeric string (e.g.
    "100") to a number". *)
Definition numericString (position : value) : value :=
  match position with
  | VStr s => if isNumeric s then VNum (parseFloat s) else position
  | _ => position
  end.

(** [normalizePositionForAxis] *)
Definition normalizePositionForAxis (position : value) (c : Container)
    (options : gmap string value) (queueWrapper : queue.QueueWrapper)
    : result Coordinates :=
  let scrollMode := getScrollMode options in
  match singleAxis (prop options "axis") with
  | None => Err AmbiguousAxis
  | Some axis =>
      '(position, sign, basePosition) ←
        match position with
        | VStr s =>
            let '(s, sign, basePosition) :=
              relativePrefix (toLowerCase s) c queueWrapper axis scrollMode in
            position ← resolveUnits s c axis;
            Ok (numericString position, sign, basePosition)
        | _ => Ok (position, ofZ 1, ofZ 0)
        end;
      x ←
        (if lib.isNumber position then
           let position :=
             Math_round (add basePosition (mul sign (toNumber position))) in
           Ok (limitToScrollRange position c axis)
         else if isUndefinedPositionValue position then
           Ok (match scrollMode with
               | MODE_MERGE => getLastPositionInfo queueWrapper axis
               | _ => IGNORE_AXIS
               end)
         else Err InvalidPositionValue);
      Ok (coordinates axis x IGNORE_AXIS)
  end.

(** [normalizePositionForHash] *)
Definition normalizePositionForHash (position : list (string * value)) (c : Container)
    (options : gmap string value) (queueWrapper : queue.QueueWrapper)
    : result Coordinates :=
  let axis := prop options "axis" in
  pos ← normalizeAxisProperty position;
  let posX := prop pos HORIZONTAL in
  let posY := prop pos VERTICAL in
  let ignoreX := strict_eq axis (VStr VERTICAL) in
  let ignoreY := strict_eq axis (VStr HORIZONTAL) in
  let optionsX := extend [options; {["axis" := VStr HORIZONTAL]}] in
  let optionsY := extend [options; {["axis" := VStr VERTICAL]}] in
  x ←
    (if ignoreX then
       Ok (if truthy (prop options "merge")
           then getLastPositionInfo queueWrapper Horizontal
           else IGNORE_AXIS)
     else
       normalized ← normalizePositionForAxis posX c optionsX queueWrapper;
       Ok (horizontal normalized));
  y ←
    (if ignoreY then
       Ok (if truthy (prop options "merge")
           then getLastPositionInfo queueWrapper Vertical
           else IGNORE_AXIS)
     else
       normalized ← normalizePositionForAxis posY c optionsY queueWrapper;
       Ok (vertical normalized));
  Ok {| horizontal := x; vertical := y |}.

(** [norm.normalizePosition] *)
Definition normalizePosition (position : Position) (c : Container)
    (scrollable : queue.Scrollable) (options : gmap string value)
    : result Coordinates :=
  let queueWrapper := queue.newQueueWrapper scrollable (prop options "queue") in
  match position with
  | Hash h => normalizePositionForHash h c options queueWrapper
  | Primitive v => normalizePositionForAxis v c options queueWrapper
  end.

(** A position property counts for the axis default: it is neither
    undefined-like nor [norm.IGNORE_AXIS]. *)
Definition hasAxis (position : gmap string value) (name : string) : bool :=
  negb (isUndefinedPositionValue (prop position name))
  && negb (strict_eq (prop position name) (VNum IGNORE_AXIS)).

(** [norm.normalizeOptions]; [options = None] is a call without options. *)
Definition normalizeOptions (options : option (list (string * value)))
    (position : Position) : result (gmap string value) :=
  let axisDefault := prop defaults "axis" in
  options ←
    match options with
    | Some o => normalizeAxisProperty o
    | None => Ok ∅
    end;
  axisDefault ←
    match position with
    | Hash h =>
        position ← normalizeAxisProperty h;
        let hasX := hasAxis position HORIZONTAL in
        let hasY := hasAxis position VERTICAL in
        Ok (if hasX && hasY then VStr BOTH_AXES
            else if hasX then VStr HORIZONTAL else VStr VERTICAL)
    | Primitive (VStr s) =>
        let position := toLowerCase s in
        if (position =? "top")%string || (position =? "bottom")%string then
          Ok (VStr VERTICAL)
        else if (position =? "left")%string || (position =? "right")%string then
          Ok (VStr HORIZONTAL)
        else Ok axisDefault
    | Primitive _ => Ok axisDefault
    end;
  Ok (extend [defaults; {["axis" := axisDefault]}; options]).

End norm.

Export norm.

(** ** The vocabulary of the specification *)

Module Spec.

(** The canonical name of a single axis. *)
Definition axisName (a : Axis) : string :=
  match a with
  | Horizontal => HORIZONTAL
  | Vertical => VERTICAL
  end.

Definition otherAxis (a : Axis) : Axis :=
  match a with
  | Horizontal => Vertical
  | Vertical => Horizontal
  end.

(** [RangeProbe.maxPosition (container, axis)], an integer. *)
Definition maxPosition (c : Container) (a : Axis) : Z :=
  match a with
  | Horizontal => scrollMaxHorizontal c
  | Vertical => scrollMaxVertical c
  end.

(** [RangeProbe.currentPosition (container, axis)], an integer. *)
Definition currentPosition (c : Container) (a : Axis) : Z :=
  match a with
  | Horizontal => scrollLeft c
  | Vertical => scrollTop c
  end.

(** [clamp (z, 0, max)] on integers. *)
Definition clamp (z max : Z) : Z := Z.max (Z.min z max) 0.

(** [clamp (round (n), 0, max)] for a number: +Infinity is above every
    maximum and -Infinity below 0. *)
Definition clampRound (n : number) (max : Z) : number :=
  match n with
  | Fin q => ofZ (clamp (round q) max)
  | PosInf => ofZ (clamp max max)
  | NegInf => ofZ 0
  | NaN => NaN
  end.

(** The positional keywords that belong to an axis. *)
Definition keywords (a : Axis) : list string :=
  match a with
  | Horizontal => ["left"; "right"]
  | Vertical => ["top"; "bottom"]
  end.

(** The target an entry of the queue snapshot specifies for an axis, if it
    specifies one. *)
Definition specifiedTarget (a : Axis) (info : queue.Info) : option number :=
  match queue.position info with
  | Some target =>
      match a with
      | Horizontal => queue.horizontal target
      | Vertical => queue.vertical target
      end
  | None => None
  end.

(** One step of the scan of the snapshot for an axis: the running value is
    overwritten exactly when the entry specifies a target for the axis that
    is neither undefined nor IgnoreAxis. *)
Definition overwrite (a : Axis) (running : number) (info : queue.Info) : number :=
  match specifiedTarget a info with
  | Some target => if eqb target IGNORE_AXIS then running else target
  | None => running
  end.

(** [lastQueuedTarget], as the specification words it: the fold of the
    snapshot from oldest to newest, starting from IgnoreAxis. *)
Definition lastQueuedTarget (snapshot : list queue.Info) (a : Axis) : number :=
  fold_left (overwrite a) snapshot IGNORE_AXIS.

(** The base of a relative position, as the specification words it: the
    live position in replace mode; in append and merge mode the last queued
    target of the axis if the queue defines one, the live position
    otherwise. *)
Definition basePosition (mode : ScrollMode) (c : Container)
    (snapshot : list queue.Info) (a : Axis) : number :=
  match mode with
  | MODE_REPLACE => ofZ (currentPosition c a)
  | MODE_APPEND | MODE_MERGE =>
      if eqb (lastQueuedTarget snapshot a) IGNORE_AXIS
      then ofZ (currentPosition c a)
      else lastQueuedTarget snapshot a
  end.

(** The unit rules applied to a string without a relative prefix: the px
    and % suffixes, the keywords of the axis, and plain numeric strings. *)
Definition unitRules (s : string) (c : Container) (a : Axis) : result value :=
  position ← resolveUnits s c a;
  Ok (numericString position).

(** The two relative prefixes and the sign each stands for. *)
Definition relativeMark (plus : bool) : string := if plus then "+=" else "-=".

Definition relativeSign (plus : bool) : Q := if plus then 1%Q else (-1)%Q.

(** The snapshot a call consults: that of the queue named by the options. *)
Definition snapshot (scrollable : queue.Scrollable) (options : gmap string value)
    : list queue.Info :=
  queue.getInfo (queue.newQueueWrapper scrollable (prop options "queue")).

(** A slot of [ResolvedCoordinates]: IgnoreAxis, or an integer pixel offset
    within [0, maxPosition]. *)
Definition validSlot (c : Container) (a : Axis) (n : number) : Prop :=
  n = IGNORE_AXIS \/ exists z : Z, n = ofZ z /\ 0 <= z <= maxPosition c a.

(** Every target of the snapshot is itself a slot of [ResolvedCoordinates]
    for the container. *)
Definition resolvedSnapshot (c : Container) (snapshot : list queue.Info) : Prop :=
  forall (info : queue.Info) (a : Axis) (n : number),
    In info snapshot -> specifiedTarget a info = Some n -> validSlot c a n.

(** The value of a property of a caller's hash, once its keys are
    canonical. *)
Definition property (h : list (string * value)) (key : string) : value :=
  match normalizeAxisProperty h with
  | Ok pos => prop pos key
  | Err _ => VUndefined
  end.

(** The entry of a position hash for an axis. *)
Definition entry (h : list (string * value)) (a : Axis) : value :=
  property h (axisName a).

(** An axis is present in a position hash and not ignorable: its entry is
    not undefined, null, false, the empty string or IgnoreAxis. *)
Definition present (h : list (string * value)) (a : Axis) : bool :=
  match entry h a with
  | VUndefined | VNull | VBool false | VStr "" => false
  | VNum n => negb (eqb n IGNORE_AXIS)
  | _ => true
  end.

(** The default axis, derived from the position in priority order: both for
    a hash with both axes present, the single axis of a hash with exactly
    one, the axis of a positional keyword, vertical otherwise. *)
Definition derivedAxis (position : Position) : string :=
  match position with
  | Hash h =>
      if present h Horizontal && present h Vertical then BOTH_AXES
      else if present h Horizontal then HORIZONTAL
      else if present h Vertical then VERTICAL
      else VERTICAL
  | Primitive (VStr s) =>
      let word := toLowerCase s in
      if (word =? "top")%string || (word =? "bottom")%string then VERTICAL
      else if (word =? "left")%string || (word =? "right")%string then HORIZONTAL
      else VERTICAL
  | Primitive _ => VERTICAL
  end.

End Spec.

Export Spec.

(** ** The normalizer in double precision *)

(** The numbers of the language are IEEE 754 doubles (binary64): the result
    of an arithmetic operation, and of reading a number from a string, is the
    exact result rounded to the nearest double, a tie going to the even
    mantissa, and an overflow to an infinity. Here every such result is
    rounded; comparisons, [Math.min], [Math.max] and [Math.round] are exact on
    doubles and are those of [JS]. The functions of the normalizer that
    compute with numbers are embedded once more on top of this arithmetic,
    each with the text it has in [norm]; the others are shared. As in [JS],
    the sign of zero is not modelled, and a string holds ASCII characters. *)

Module binary64.

Definition pow2 (e : Z) : Q := Qpower (inject_Z 2) e.

(** The binade of a number other than 0: [floor (log2 |q|)]. *)
Definition binade (q : Q) : Z :=
  let l := Z.log2 (Z.abs (Qnum q)) - Z.log2 (Zpos (Qden q)) in
  if Qle_bool (pow2 l) (Qabs q) then l else l - 1.

(** Nearest integer, a tie going to the even one. *)
Definition roundHalfEven (q : Q) : Z :=
  let f := Qfloor q in
  match (q - inject_Z f ?= 1 # 2)%Q with
  | Lt => f
  | Gt => f + 1
  | Eq => if Z.even f then f else f + 1
  end.

(** The double nearest to [q]: 53 bits of mantissa, of which a subnormal
    number (below [2 ^ -1022]) has fewer, the smallest unit being
    [2 ^ -1074]; a result of magnitude [2 ^ 1024] or more is an infinity. *)
Definition double (q : Q) : number :=
  match Qsign q with
  | Eq => Fin 0
  | s =>
      let e := Z.max (binade q - 52) (-1074) in
      let r := (inject_Z (roundHalfEven (q / pow2 e)) * pow2 e)%Q in
      if Qle_bool (pow2 1024) (Qabs r) then infOfSign s else Fin (Qred r)
  end.

Definition rounded (n : number) : number :=
  match n with
  | Fin q => double q
  | _ => n
  end.

(** [a + b] *)
Definition add (a b : number) : number := rounded (JS.add a b).

(** [a - b] *)
Definition sub (a b : number) : number := rounded (JS.sub a b).

(** [a * b] *)
Definition mul (a b : number) : number := rounded (JS.mul a b).

(** [a / b] *)
Definition div (a b : number) : number := rounded (JS.div a b).

(** [Math.pow (10, n)] for an integer [n]: the double nearest to [10 ^ n].
    For [0 <= n <= 22], where [10 ^ n] is itself a double, that is what
    every implementation returns; elsewhere an implementation may be off by
    one unit in the last place. *)
Definition pow10 (n : Z) : number := double (Qpower (inject_Z 10) n).

(** [parseFloat (s)] *)
Definition parseFloat (s : string) : number := rounded (JS.parseFloat s).

Definition binaryDigitOf (c : ascii) : option Z :=
  let n := nat_of_ascii c in
  if ((48 <=? n) && (n <=? 49))%nat then Some (Z.of_nat (n - 48)) else None.

Definition octalDigitOf (c : ascii) : option Z :=
  let n := nat_of_ascii c in
  if ((48 <=? n) && (n <=? 55))%nat then Some (Z.of_nat (n - 48)) else None.

(** What follows the prefix of a binary or octal literal, up to the end of
    the string. *)
Definition literal (digit : ascii -> option Z) (base : Z) (s : string) : number :=
  let '(h, n, rest) := digits digit base s 0 0%nat in
  match n with
  | O => NaN
  | _ => if allWhiteSpace rest then double (inject_Z h) else NaN
  end.

(** [Number (s)]: a decimal, hexadecimal, binary or octal literal. *)
Definition stringToNumber (s : string) : number :=
  match trimLeft s with
  | String "0" (String ("b" | "B") r) => literal binaryDigitOf 2 r
  | String "0" (String ("o" | "O") r) => literal octalDigitOf 8 r
  | _ => rounded (JS.stringToNumber s)
  end.

(** [$.isNumeric (s)] for a string [s]: [(s - parseFloat (s) + 1) >= 0]. *)
Definition isNumeric (s : string) : bool :=
  leb (ofZ 0) (add (sub (stringToNumber s) (parseFloat s)) (ofZ 1)).

(** [ToNumber] *)
Definition toNumber (v : value) : number :=
  match v with
  | VStr s => stringToNumber s
  | _ => JS.toNumber v
  end.

(** [normalizePositionForAxis], "Resolve px, % units" and "Resolve position
    strings": the new value of [position]. *)
Definition resolveUnits (position : string) (c : Container) (axis : Axis) : result value :=
  if (slice (-2) None position =? "px")%string then
    Ok (VNum (parseFloat (slice 0 (Some (-2)) position)))
  else if (slice (-1) None position =? "%")%string then
    Ok (VNum (div (mul (parseFloat (slice 0 (Some (-1)) position))
                       (lib.getScrollMaximum c axis))
                  (ofZ 100)))
  else
    match axis with
    | Horizontal =>
        let position := VStr position in
        let position :=
          if strict_eq position (VStr "left") then VNum (ofZ 0) else position in
        let position :=
          if strict_eq position (VStr "right")
          then VNum (lib.getScrollMaximum c axis) else position in
        if strict_eq position (VStr "top") || strict_eq position (VStr "bottom")
        then Err AxisKeywordMismatch
        else Ok position
    | Vertical =>
        let position := VStr position in
        let position :=
          if strict_eq position (VStr "top") then VNum (ofZ 0) else position in
        let position :=
          if strict_eq position (VStr "bottom")
          then VNum (lib.getScrollMaximum c axis) else position in
        if strict_eq position (VStr "left") || strict_eq position (VStr "right")
        then Err AxisKeywordMismatch
        else Ok position
    end.

(** [normalizePositionForAxis], "Convert any remaining numeric string (e.g.
    "100") to a number". *)
Definition numericString (position : value) : value :=
  match position with
  | VStr s => if isNumeric s then VNum (parseFloat s) else position
  | _ => position
  end.

(** [normalizePositionForAxis] *)
Definition normalizePositionForAxis (position : value) (c : Container)
    (options : gmap string value) (queueWrapper : queue.QueueWrapper)
    : result Coordinates :=
  let scrollMode := getScrollMode options in
  match singleAxis (prop options "axis") with
  | None => Err AmbiguousAxis
  | Some axis =>
      '(position, sign, basePosition) ←
        match position with
        | VStr s =>
            let '(s, sign, basePosition) :=
              relativePrefix (toLowerCase s) c queueWrapper axis scrollMode in
            position ← resolveUnits s c axis;
            Ok (numericString position, sign, basePosition)
        | _ => Ok (position, ofZ 1, ofZ 0)
        end;
      x ←
        (if lib.isNumber position then
           let position :=
             Math_round (add basePosition (mul sign (toNumber position))) in
           Ok (limitToScrollRange position c axis)
         else if isUndefinedPositionValue position then
           Ok (match scrollMode with
               | MODE_MERGE => getLastPositionInfo queueWrapper axis
               | _ => IGNORE_AXIS
               end)
         else Err InvalidPositionValue);
      Ok (coordinates axis x IGNORE_AXIS)
  end.

(** [normalizePositionForHash] *)
Definition normalizePositionForHash (position : list (string * value)) (c : Container)
    (options : gmap string value) (queueWrapper : queue.QueueWrapper)
    : result Coordinates :=
  let axis := prop options "axis" in
  pos ← normalizeAxisProperty position;
  let posX := prop pos HORIZONTAL in
  let posY := prop pos VERTICAL in
  let ignoreX := strict_eq axis (VStr VERTICAL) in
  let ignoreY := strict_eq axis (VStr HORIZONTAL) in
  let optionsX := extend [options; {["axis" := VStr HORIZONTAL]}] in
  let optionsY := extend [options; {["axis" := VStr VERTICAL]}] in
  x ←
    (if ignoreX then
       Ok (if truthy (prop options "merge")
           then getLastPositionInfo queueWrapper Horizontal
           else IGNORE_AXIS)
     else
       normalized ← normalizePositionForAxis posX c optionsX queueWrapper;
       Ok (horizontal normalized));
  y ←
    (if ignoreY then
       Ok (if truthy (prop options "merge")
           then getLastPositionInfo queueWrapper Vertical
           else IGNORE_AXIS)
     else
       normalized ← normalizePositionForAxis posY c optionsY queueWrapper;
       Ok (vertical normalized));
  Ok {| horizontal := x; vertical := y |}.

(** [norm.normalizePosition] *)
Definition normalizePosition (position : Position) (c : Container)
    (scrollable : queue.Scrollable) (options : gmap string value)
    : result Coordinates :=
  let queueWrapper := queue.newQueueWrapper scrollable (prop options "queue") in
  match position with
  | Hash h => normalizePositionForHash h c options queueWrapper
  | Primitive v => normalizePositionForAxis v c options queueWrapper
  end.

(** The unit rules applied to a string without a relative prefix, as in
    [Spec.unitRules]. *)
Definition unitRules (s : string) (c : Container) (a : Axis) : result value :=
  position ← resolveUnits s c a;
  Ok (numericString position).

(** A number that is a double and not negative: [m * 2 ^ e] with a mantissa
    [m] of at most 53 bits and an exponent [e] a double can have. *)
Definition representable (q : Q) (m e : Z) : Prop :=
  0 <= m < 2 ^ 53 /\ -1074 <= e <= 971 /\ (q == inject_Z m * pow2 e)%Q.

End binary64.

(** ** The earlier version of the normalizer *)

(** The earlier version has no queue and no scroll modes, and resolves a
    position with a single recursive function, [lib.normalizePosition]. Its
    constants and its helpers [normalizeAxisName], [limitToScrollRange],
    [getCurrentScrollPosition] and [isUndefinedPositionValue] are, word for
    word, those of the later version, and so are the parts of the function
    that resolve units and numeric strings; they are shared here. *)
Module legacy.

(** A position argument: a plain object maps property names to position
    arguments, which may be plain objects again. *)
#[warnings="-register-all"]
Inductive Nested : Type :=
| Leaf (v : value)
| Node (h : list (string * Nested)).

(** The [$.each] loop of [normalizeAxisProperty]. *)
Fixpoint normalizeAxisProperties (props : list (string * Nested))
    (normalized : gmap string Nested) : result (gmap string Nested) :=
  match props with
  | [] => Ok normalized
  | (key, v) :: rest =>
      if lib.isInArray (VStr key) altAxisNames then
        name ← normalizeAxisName (VStr key);
        normalizeAxisProperties rest (<[name := v]> normalized)
      else
        normalizeAxisProperties rest (<[key := v]> normalized)
  end.

(** [normalizeAxisProperty] *)
Definition normalizeAxisProperty (inputHash : list (string * Nested))
    : result (gmap string Nested) :=
  normalizeAxisProperties inputHash ∅.

(** [position[name]] *)
Definition at_ (position : gmap string Nested) (name : string) : Nested :=
  default (Leaf VUndefined) (position !! name).

(** The branch of [lib.normalizePosition] for a position that is not a plain
    object. *)
Definition normalizeValue (position : value) (c : Container)
    (options : gmap string value) : result Coordinates :=
  match singleAxis (prop options "axis") with
  | None => Err AmbiguousAxis
  | Some axis =>
      '(position, sign, basePosition) ←
        match position with
        | VStr s =>
            let s := toLowerCase s in
            let prefix := slice 0 (Some 2) s in
            let '(s, sign, basePosition) :=
              if (prefix =? "+=")%string || (prefix =? "-=")%string then
                (slice 2 None s,
                 (if (prefix =? "+=")%string then ofZ 1 else ofZ (-1)),
                 getCurrentScrollPosition c axis)
              else (s, ofZ 1, ofZ 0) in
            position ← resolveUnits s c axis;
            Ok (numericString position, sign, basePosition)
        | _ => Ok (position, ofZ 1, ofZ 0)
        end;
      x ←
        (if lib.isNumber position then
           let position :=
             Math_round (add basePosition (mul sign (toNumber position))) in
           Ok (limitToScrollRange position c axis)
         else if isUndefinedPositionValue position then Ok IGNORE_AXIS
         else Err InvalidPositionValue);
      Ok (coordinates axis x IGNORE_AXIS)
  end.

(** [lib.normalizePosition]. The recursion follows the nesting of plain
    objects; [fuel] bounds its depth, and [None] is a recursion cut short. *)
Fixpoint normalizePosition (fuel : nat) (position : Nested) (c : Container)
    (options : gmap string value) : option (result Coordinates) :=
  match fuel with
  | O => None
  | S fuel =>
      match position with
      | Leaf v => Some (normalizeValue v c options)
      | Node h =>
          let axis := prop options "axis" in
          match normalizeAxisProperty h with
          | Err e => Some (Err e)
          | Ok position =>
              let x :=
                if strict_eq axis (VStr VERTICAL) then Some (Ok IGNORE_AXIS)
                else
                  match normalizePosition fuel (at_ position HORIZONTAL) c
                          {["axis" := VStr HORIZONTAL]} with
                  | Some (Ok r) => Some (Ok (horizontal r))
                  | Some (Err e) => Some (Err e)
                  | None => None
                  end in
              match x with
              | Some (Ok x) =>
                  let y :=
                    if strict_eq axis (VStr HORIZONTAL) then Some (Ok IGNORE_AXIS)
                    else
                      match normalizePosition fuel (at_ position VERTICAL) c
                              {["axis" := VStr VERTICAL]} with
                      | Some (Ok r) => Some (Ok (vertical r))
                      | Some (Err e) => Some (Err e)
                      | None => None
                      end in
                  match y with
                  | Some (Ok y) => Some (Ok {| horizontal := x; vertical := y |})
                  | Some (Err e) => Some (Err e)
                  | None => None
                  end
              | Some (Err e) => Some (Err e)
              | None => None
              end
          end
      end
  end.

(** How deep plain objects are nested in a position argument. *)
Fixpoint depth (position : Nested) : nat :=
  match position with
  | Leaf _ => 0
  | Node h => S (list_max (map (fun kv => depth (snd kv)) h))
  end.

(** A position argument of the later version as one of the earlier. *)
Definition ofPosition (position : Position) : Nested :=
  match position with
  | Primitive v => Leaf v
  | Hash h => Node (map (fun kv => (kv.1, Leaf kv.2)) h)
  end.

End legacy.

(** ** The page script of the demo *)

Module demo.

(** [toPercent], in double precision. The number of decimals is an
    integer, or is left out ([None]); [decimals || 0] is 0 in that case, and
    for 0 itself. *)
Definition toPercent (pos scrollRange : number) (decimals : option Z) : number :=
  let percentage := binary64.div (binary64.mul pos (ofZ 100)) scrollRange in
  let shift :=
    binary64.pow10 match decimals with
                   | Some d => if d =? 0 then 0 else d
                   | None => 0
                   end in
  binary64.div (Math_round (binary64.mul percentage shift)) shift.

End demo.

(** ** Further vocabulary *)

Module Derived.

(** A lower-cased position string is relative: it starts with "+=" or
    "-=". *)
Definition isRelative (s : string) : bool :=
  String.prefix "+=" s || String.prefix "-=" s.

(** The options of the per-axis calls of [normalizePositionForHash]:
    [$.extend ({}, options, { axis: ... })]. *)
Definition pinned (options : gmap string value) (a : Axis) : gmap string value :=
  extend [options; {["axis" := VStr (axisName a)]}].

(** The canonical form of a property name: an alias of an axis becomes the
    name of the axis, any other name stays. *)
Definition canonicalKey (key : string) : string :=
  if existsb (String.eqb key) ["v"; "y"; "top"] then "vertical"
  else if existsb (String.eqb key) ["h"; "x"; "left"] then "horizontal"
  else if existsb (String.eqb key) ["vh"; "hv"; "xy"; "yx"; "all"] then "both"
  else key.

(** The properties of a hash under their canonical names, the last one
    first. *)
Definition canonicalProperties (h : list (string * value)) : list (string * value) :=
  rev (map (fun kv => (canonicalKey kv.1, kv.2)) h).

(** Two containers have the same scroll range. *)
Definition sameRange (c c' : Container) : Prop :=
  scrollMaxHorizontal c = scrollMaxHorizontal c'
  /\ scrollMaxVertical c = scrollMaxVertical c'.

(** No entry of the list specifies a target for the axis that would
    overwrite the running value. *)
Definition silentOn (a : Axis) (entries : list queue.Info) : Prop :=
  forall info : queue.Info, In info entries ->
    match specifiedTarget a info with
    | Some target => eqb target IGNORE_AXIS = true
    | None => True
    end.

End Derived.

Export Derived.

(** ** Sample inputs *)

Module Sample.

(** A container scrolled to (20, 100) that can scroll to (500, 1000). *)
Definition container : Container :=
  {| scrollLeft := 20; scrollTop := 100;
     scrollMaxHorizontal := 500; scrollMaxVertical := 1000 |}.

(** A container that can scroll to (500, 100) only. *)
Definition shortContainer : Container :=
  {| scrollLeft := 0; scrollTop := 0;
     scrollMaxHorizontal := 500; scrollMaxVertical := 100 |}.

(** A container scrolled to 30 on the vertical axis, of 375 at most. *)
Definition scrolledBy30 : Container :=
  {| scrollLeft := 0; scrollTop := 30;
     scrollMaxHorizontal := 0; scrollMaxVertical := 375 |}.

(** A container whose vertical maximum is 360287970189641. *)
Definition hugeContainer : Container :=
  {| scrollLeft := 0; scrollTop := 0;
     scrollMaxHorizontal := 0; scrollMaxVertical := 360287970189641 |}.

Definition onlyVertical (y : Z) : queue.Target :=
  {| queue.horizontal := None; queue.vertical := Some (ofZ y) |}.

Definition onlyHorizontal (x : Z) : queue.Target :=
  {| queue.horizontal := Some (ofZ x); queue.vertical := None |}.

(** An element every queue of which holds the given targets, oldest first. *)
Definition queued (targets : list queue.Target) : queue.Scrollable :=
  fun _ => map (fun target => {| queue.position := Some target |}) targets.

(** The options [{ axis: axis }] and the same with a flag set to [true]. *)
Definition axisOptions (axis : string) : gmap string value :=
  <["axis" := VStr axis]> ∅.

Definition withFlag (flag : string) (options : gmap string value)
    : gmap string value :=
  <[flag := VBool true]> options.

End Sample.

(** ** Facts about the built-ins *)

Lemma bind_Ok_inv {A B : Type} (m : result A) (k : A -> result B) (b : B) :
  m ≫= k = Ok b -> exists a : A, m = Ok a /\ k a = Ok b.
Proof. destruct m as [a|e]; [eauto | discriminate]. Qed.

Section Numbers.

Lemma leb_ofZ (a b : Z) : leb (ofZ a) (ofZ b) = (a <=? b).
Proof.
  unfold ofZ, leb.
  destruct (Z.leb_spec a b) as [Hle | Hlt].
  - apply Qle_bool_iff. now rewrite <- Zle_Qle.
  - destruct (Qle_bool (inject_Z a) (inject_Z b)) eqn:E; [|reflexivity].
    apply Qle_bool_iff in E. rewrite <- Zle_Qle in E. lia.
Qed.

Lemma Math_min_ofZ (a b : Z) : Math_min (ofZ a) (ofZ b) = ofZ (Z.min a b).
Proof.
  unfold Math_min. change (Fin (inject_Z a)) with (ofZ a).
  change (Fin (inject_Z b)) with (ofZ b). cbn match. rewrite leb_ofZ.
  destruct (Z.leb_spec a b); f_equal; lia.
Qed.

Lemma Math_max_ofZ (a b : Z) : Math_max (ofZ a) (ofZ b) = ofZ (Z.max a b).
Proof.
  unfold Math_max. change (Fin (inject_Z a)) with (ofZ a).
  change (Fin (inject_Z b)) with (ofZ b). cbn match. rewrite leb_ofZ.
  destruct (Z.leb_spec a b); f_equal; lia.
Qed.

Lemma round_comp (p q : Q) : (p == q)%Q -> round p = round q.
Proof. intros E. unfold round. apply Qfloor_comp. now rewrite E. Qed.

Lemma round_inject_Z (z : Z) : round (inject_Z z) = z.
Proof.
  unfold round.
  assert (Hlo : (inject_Z z <= inject_Z z + (1 # 2))%Q).
  { rewrite <- (Qplus_0_r (inject_Z z)) at 1. apply Qplus_le_r. discriminate. }
  assert (Hhi : (inject_Z z + (1 # 2) < inject_Z (z + 1))%Q).
  { rewrite inject_Z_plus. apply Qplus_lt_r. reflexivity. }
  pose proof (Qfloor_le (inject_Z z + (1 # 2))) as Hfl.
  pose proof (Qlt_floor (inject_Z z + (1 # 2))) as Hfu.
  assert (H1 : (inject_Z z < inject_Z (Qfloor (inject_Z z + (1 # 2)) + 1))%Q)
    by (eapply Qle_lt_trans; eassumption).
  assert (H2 : (inject_Z (Qfloor (inject_Z z + (1 # 2))) < inject_Z (z + 1))%Q)
    by (eapply Qle_lt_trans; eassumption).
  rewrite <- Zlt_Qlt in H1, H2. lia.
Qed.

Lemma div_Fin (p q : Q) : ~ (q == 0)%Q -> div (Fin p) (Fin q) = Fin (p / q).
Proof.
  intros Hq. unfold div, Qsign.
  destruct (q ?= 0)%Q eqn:E; try reflexivity.
  apply Qeq_alt in E. contradiction.
Qed.

Lemma Qsign_positive (q : Q) : (0 < q)%Q -> Qsign q = Gt.
Proof. intros Hq. unfold Qsign. now apply Qgt_alt. Qed.

Lemma round_monotone (p q : Q) : (p <= q)%Q -> round p <= round q.
Proof. intros H. unfold round. apply Qfloor_resp_le. lra. Qed.

Lemma isNaN_false_cases (n : number) :
  isNaN n = false -> n = PosInf \/ n = NegInf \/ exists q, n = Fin q.
Proof. destruct n; intros H; try discriminate; eauto. Qed.

End Numbers.

Section Clamping.

Variable c : Container.
Variable a : Axis.

Lemma getScrollMaximum_ofZ : lib.getScrollMaximum c a = ofZ (maxPosition c a).
Proof. now destruct a. Qed.

Lemma getCurrentScrollPosition_ofZ :
  getCurrentScrollPosition c a = ofZ (currentPosition c a).
Proof. now destruct a. Qed.

Lemma limitToScrollRange_ofZ (z : Z) :
  limitToScrollRange (ofZ z) c a = ofZ (clamp z (maxPosition c a)).
Proof.
  unfold limitToScrollRange, clamp.
  now rewrite getScrollMaximum_ofZ, Math_min_ofZ, Math_max_ofZ.
Qed.

Lemma limitToScrollRange_PosInf :
  0 <= maxPosition c a ->
  limitToScrollRange PosInf c a = ofZ (maxPosition c a).
Proof.
  intros Hmax. unfold limitToScrollRange. rewrite getScrollMaximum_ofZ.
  change (Math_min PosInf (ofZ (maxPosition c a))) with (ofZ (maxPosition c a)).
  rewrite Math_max_ofZ. f_equal. lia.
Qed.

Lemma limitToScrollRange_NegInf : limitToScrollRange NegInf c a = ofZ 0.
Proof.
  unfold limitToScrollRange. rewrite getScrollMaximum_ofZ. reflexivity.
Qed.

End Clamping.

(** ** Facts about doubles *)

Lemma two_not_0 : ~ (inject_Z 2 == 0)%Q.
Proof. intros H. discriminate H. Qed.

Lemma pow2_positive (e : Z) : (0 < binary64.pow2 e)%Q.
Proof. apply Qpower_0_lt. reflexivity. Qed.

Lemma pow2_plus (a b : Z) :
  (binary64.pow2 (a + b) == binary64.pow2 a * binary64.pow2 b)%Q.
Proof. apply Qpower_plus, two_not_0. Qed.

Lemma pow2_le (a b : Z) : a <= b -> (binary64.pow2 a <= binary64.pow2 b)%Q.
Proof. intros H. apply Qpower_le_compat_l; [assumption | discriminate]. Qed.

Lemma pow2_inject (n : Z) : 0 <= n -> (binary64.pow2 n == inject_Z (2 ^ n))%Q.
Proof. intros H. symmetry. now apply Zpower_Qpower. Qed.

(** A power of two with a larger exponent is a whole multiple. *)
Lemma pow2_multiple (a b : Z) :
  a <= b -> (binary64.pow2 b == inject_Z (2 ^ (b - a)) * binary64.pow2 a)%Q.
Proof.
  intros H. rewrite <- pow2_inject by lia. rewrite <- pow2_plus.
  now replace (b - a + a) with b by lia.
Qed.

Lemma roundHalfEven_le (q : Q) (n : Z) :
  (q <= inject_Z n)%Q -> binary64.roundHalfEven q <= n.
Proof.
  intros H. unfold binary64.roundHalfEven.
  pose proof (Qfloor_le q) as Hf.
  assert (Hdown : Qfloor q <= n).
  { rewrite Zle_Qle. now apply Qle_trans with q. }
  assert (Hup : (1 # 2 <= q - inject_Z (Qfloor q))%Q -> Qfloor q + 1 <= n).
  { intros Hhalf. assert (Hlt : (inject_Z (Qfloor q) < inject_Z n)%Q) by lra.
    rewrite <- Zlt_Qlt in Hlt. lia. }
  destruct (Qcompare_spec (q - inject_Z (Qfloor q)) (1 # 2)) as [E | E | E].
  - destruct (Z.even (Qfloor q)); [assumption|]. apply Hup. lra.
  - assumption.
  - apply Hup. lra.
Qed.

Lemma roundHalfEven_ge (q : Q) (n : Z) :
  (inject_Z n <= q)%Q -> n <= binary64.roundHalfEven q.
Proof.
  intros H. unfold binary64.roundHalfEven.
  pose proof (Qlt_floor q) as Hf.
  assert (Hdown : n <= Qfloor q).
  { assert (Hlt : (inject_Z n < inject_Z (Qfloor q + 1))%Q) by lra.
    rewrite <- Zlt_Qlt in Hlt. lia. }
  destruct (q - inject_Z (Qfloor q) ?= 1 # 2)%Q;
    [destruct (Z.even (Qfloor q))|..]; lia.
Qed.

Lemma inject_Z_positive (b : Z) : 0 < b -> (0 < inject_Z b)%Q.
Proof. intros H. change (inject_Z 0 < inject_Z b)%Q. now rewrite <- Zlt_Qlt. Qed.

Lemma inject_Z_nonneg (b : Z) : 0 <= b -> (0 <= inject_Z b)%Q.
Proof. intros H. change (inject_Z 0 <= inject_Z b)%Q. now rewrite <- Zle_Qle. Qed.

Lemma Qmake_lt_div (n : Z) (d : positive) (a b : Z) :
  0 < b -> n * b < a * Zpos d -> (n # d < inject_Z a / inject_Z b)%Q.
Proof.
  intros Hb H. apply Qlt_shift_div_l.
  - now apply inject_Z_positive.
  - unfold Qlt. cbn. lia.
Qed.

Lemma Qmake_ge_div (n : Z) (d : positive) (a b : Z) :
  0 < b -> a * Zpos d <= n * b -> (inject_Z a / inject_Z b <= n # d)%Q.
Proof.
  intros Hb H. apply Qle_shift_div_r.
  - now apply inject_Z_positive.
  - unfold Qle. cbn. lia.
Qed.

(** The binade of a positive number holds it. *)
Lemma binade_spec (q : Q) :
  (0 < q)%Q ->
  (binary64.pow2 (binary64.binade q) <= q < binary64.pow2 (binary64.binade q + 1))%Q.
Proof.
  intros Hq. destruct q as [n d].
  assert (Hn : 0 < n) by (unfold Qlt in Hq; cbn in Hq; lia).
  unfold binary64.binade. cbn [Qnum Qden].
  rewrite (Z.abs_eq n) by lia.
  pose proof (Z.log2_spec n Hn) as [Hn1 Hn2].
  pose proof (Z.log2_spec (Zpos d) (Pos2Z.is_pos d)) as [Hd1 Hd2].
  pose proof (Z.log2_nonneg n) as Hln.
  pose proof (Z.log2_nonneg (Zpos d)) as Hld.
  set (ln := Z.log2 n) in *. set (ld := Z.log2 (Zpos d)) in *.
  assert (Hp : forall k : Z, 0 <= k -> 0 < 2 ^ k) by (intros k Hk; now apply Z.pow_pos_nonneg).
  rewrite (Qabs_pos (n # d)) by now apply Qlt_le_weak.
  destruct (Qle_bool (binary64.pow2 (ln - ld)) (n # d)) eqn:E.
  - apply Qle_bool_iff in E. split; [assumption|].
    replace (ln - ld + 1) with (Z.succ ln - ld) by lia.
    unfold binary64.pow2. rewrite Qpower_minus by apply two_not_0.
    rewrite <- !Zpower_Qpower by lia.
    apply Qmake_lt_div; [apply Hp; lia|].
    pose proof (Hp ld Hld). nia.
  - assert (Hlt : (n # d < binary64.pow2 (ln - ld))%Q).
    { apply Qnot_le_lt. intros H. apply Qle_bool_iff in H. congruence. }
    split.
    + replace (ln - ld - 1) with (ln - Z.succ ld) by lia.
      unfold binary64.pow2. rewrite Qpower_minus by apply two_not_0.
      rewrite <- !Zpower_Qpower by lia.
      apply Qmake_ge_div; [apply Hp; lia|].
      pose proof (Hp ln Hln). nia.
    + now replace (ln - ld - 1 + 1) with (ln - ld) by lia.
Qed.

Lemma representable_nonneg (q : Q) (m e : Z) :
  binary64.representable q m e -> (0 <= q)%Q.
Proof.
  intros (Hm & _ & ->). apply Qmult_le_0_compat.
  - apply inject_Z_nonneg. lia.
  - apply Qlt_le_weak, pow2_positive.
Qed.

Lemma representable_below (q : Q) (m e e' : Z) :
  binary64.representable q m e -> e < e' -> (q < binary64.pow2 (52 + e'))%Q.
Proof.
  intros (Hm & _ & ->) He.
  apply Qlt_le_trans with (binary64.pow2 53 * binary64.pow2 e)%Q.
  - apply Qmult_lt_compat_r; [apply pow2_positive|].
    rewrite pow2_inject by lia. rewrite <- Zlt_Qlt. lia.
  - rewrite <- pow2_plus. apply pow2_le. lia.
Qed.

Lemma representable_finite (q : Q) (m e : Z) :
  binary64.representable q m e -> (q < binary64.pow2 1024)%Q.
Proof.
  intros H. pose proof H as (_ & He & _).
  apply Qlt_le_trans with (binary64.pow2 (52 + (e + 1))).
  - apply (representable_below q m e); [assumption | lia].
  - apply pow2_le. lia.
Qed.

Lemma representable_integer (z : Z) :
  0 <= z < 2 ^ 53 -> binary64.representable (inject_Z z) z 0.
Proof.
  intros H. split; [assumption|]. split; [lia|].
  unfold binary64.pow2. cbn [Qpower]. now rewrite Qmult_1_r.
Qed.

Section Rounding.

Variable q : Q.
Hypothesis positive : (0 < q)%Q.

Let e : Z := Z.max (binary64.binade q - 52) (-1074).
Let r : Q := (inject_Z (binary64.roundHalfEven (q / binary64.pow2 e)) * binary64.pow2 e)%Q.

Lemma rounding_nonneg : (0 <= r)%Q.
Proof using positive.
  apply Qmult_le_0_compat; [|apply Qlt_le_weak, pow2_positive].
  apply inject_Z_nonneg, roundHalfEven_ge.
  apply Qle_shift_div_l; [apply pow2_positive|].
  rewrite Qmult_0_l. now apply Qlt_le_weak.
Qed.

(** Rounding does not cross a double. *)
Lemma rounding_le (hi : Q) (m eh : Z) :
  binary64.representable hi m eh -> (q <= hi)%Q -> (r <= hi)%Q.
Proof using positive.
  intros Hhi Hle. destruct (Z.le_gt_cases e eh) as [He | He].
  - pose proof Hhi as (_ & _ & Hval).
    assert (Hmul : (hi == inject_Z (m * 2 ^ (eh - e)) * binary64.pow2 e)%Q).
    { rewrite Hval, (pow2_multiple e eh He), inject_Z_mult. ring. }
    rewrite Hmul. apply Qmult_le_compat_r; [|apply Qlt_le_weak, pow2_positive].
    rewrite <- Zle_Qle. apply roundHalfEven_le.
    apply Qle_shift_div_r; [apply pow2_positive|]. now rewrite <- Hmul.
  - exfalso.
    pose proof Hhi as (_ & Heh & _).
    pose proof (representable_below hi m eh e Hhi He) as Hbelow.
    pose proof (binade_spec q positive) as [Hlow _].
    replace (52 + e) with (binary64.binade q) in Hbelow by (subst e; lia).
    lra.
Qed.

Lemma rounding_ge (lo : Q) (m el : Z) :
  binary64.representable lo m el -> (lo <= q)%Q -> (lo <= r)%Q.
Proof using positive.
  intros Hlo Hle. destruct (Z.le_gt_cases e el) as [He | He].
  - pose proof Hlo as (_ & _ & Hval).
    assert (Hmul : (lo == inject_Z (m * 2 ^ (el - e)) * binary64.pow2 e)%Q).
    { rewrite Hval, (pow2_multiple e el He), inject_Z_mult. ring. }
    rewrite Hmul. apply Qmult_le_compat_r; [|apply Qlt_le_weak, pow2_positive].
    rewrite <- Zle_Qle. apply roundHalfEven_ge.
    apply Qle_shift_div_l; [apply pow2_positive|]. now rewrite <- Hmul.
  - pose proof Hlo as (_ & Hel & _).
    pose proof (representable_below lo m el e Hlo He) as Hbelow.
    pose proof (binade_spec q positive) as [Hlow _].
    assert (Hbinade : binary64.binade q = 52 + e) by (subst e; lia).
    apply Qlt_le_weak, Qlt_le_trans with (binary64.pow2 (52 + e)); [assumption|].
    rewrite pow2_plus, (pow2_inject 52) by lia.
    apply Qmult_le_compat_r; [|apply Qlt_le_weak, pow2_positive].
    rewrite <- Zle_Qle. apply roundHalfEven_ge.
    apply Qle_shift_div_l; [apply pow2_positive|].
    rewrite <- (pow2_inject 52), <- pow2_plus by lia. now rewrite <- Hbinade.
Qed.

Lemma double_positive :
  binary64.double q
  = if Qle_bool (binary64.pow2 1024) (Qabs r) then PosInf else Fin (Qred r).
Proof using positive.
  unfold binary64.double, Qsign.
  apply Qgt_alt in positive. now rewrite positive.
Qed.

End Rounding.

(** The double nearest to a number that is not above a double is not above
    that double. *)
Lemma double_le_representable (q hi : Q) (m e : Z) :
  (0 <= q)%Q -> binary64.representable hi m e -> (q <= hi)%Q ->
  exists x : Q, binary64.double q = Fin x /\ (0 <= x <= hi)%Q.
Proof.
  intros Hq Hhi Hle. destruct (Qlt_le_dec 0 q) as [Hpos | Hzero].
  - rewrite (double_positive q Hpos).
    pose proof (rounding_nonneg q Hpos) as H0.
    pose proof (rounding_le q Hpos hi m e Hhi Hle) as H1.
    pose proof (representable_finite hi m e Hhi) as H2.
    destruct (Qle_bool _ _) eqn:E.
    + apply Qle_bool_iff in E. rewrite Qabs_pos in E by assumption. lra.
    + eexists. split; [reflexivity|]. rewrite Qred_correct. lra.
  - exists 0%Q. split; [|lra].
    unfold binary64.double, Qsign.
    assert (H : (q == 0)%Q) by lra. apply Qeq_alt in H. now rewrite H.
Qed.

(** The double nearest to a number that is not below a double is not below
    that double. *)
Lemma double_ge_representable (q lo : Q) (m e : Z) :
  binary64.representable lo m e -> (lo <= q)%Q ->
  binary64.double q = PosInf
  \/ exists x : Q, binary64.double q = Fin x /\ (lo <= x)%Q.
Proof.
  intros Hlo Hle. pose proof (representable_nonneg lo m e Hlo) as H0.
  destruct (Qlt_le_dec 0 q) as [Hpos | Hzero].
  - rewrite (double_positive q Hpos).
    pose proof (rounding_ge q Hpos lo m e Hlo Hle) as H1.
    destruct (Qle_bool _ _); [now left | right].
    eexists. split; [reflexivity|]. now rewrite Qred_correct.
  - right. exists 0%Q. split; [|lra].
    unfold binary64.double, Qsign.
    assert (H : (q == 0)%Q) by lra. apply Qeq_alt in H. now rewrite H.
Qed.

(** A double is its own nearest double. *)
Lemma double_exact (q : Q) (m e : Z) :
  binary64.representable q m e -> binary64.double q = Fin (Qred q).
Proof.
  intros H. pose proof (representable_nonneg q m e H) as H0.
  destruct (Qlt_le_dec 0 q) as [Hpos | Hzero].
  - rewrite (double_positive q Hpos).
    pose proof (rounding_nonneg q Hpos) as Hr.
    pose proof (rounding_le q Hpos q m e H (Qle_refl q)) as Hle.
    pose proof (rounding_ge q Hpos q m e H (Qle_refl q)) as Hge.
    pose proof (representable_finite q m e H) as Hfinite.
    destruct (Qle_bool _ _) eqn:E.
    + apply Qle_bool_iff in E. rewrite Qabs_pos in E by assumption. lra.
    + f_equal. apply Qred_complete. lra.
  - assert (Hq : (q == 0)%Q) by lra.
    unfold binary64.double, Qsign.
    pose proof Hq as Hc. apply Qeq_alt in Hc. rewrite Hc.
    now rewrite (Qred_complete q 0 Hq).
Qed.

Lemma Qred_inject_Z (z : Z) : Qred (inject_Z z) = inject_Z z.
Proof.
  unfold Qred, inject_Z.
  pose proof (Z.ggcd_gcd z 1) as Hg. pose proof (Z.ggcd_correct_divisors z 1) as Hd.
  destruct (Z.ggcd z 1) as [g [a b]]. cbn in Hg, Hd.
  rewrite Z.gcd_1_r in Hg. subst g. destruct Hd as [-> Hb].
  rewrite !Z.mul_1_l in *. subst b. reflexivity.
Qed.

(** ** Resolving a position on a single axis *)

Lemma singleAxis_axisName (a : Axis) : singleAxis (VStr (axisName a)) = Some a.
Proof. now destruct a. Qed.

Lemma coordinate_coordinates (a : Axis) (x y : number) :
  coordinate a (coordinates a x y) = x
  /\ coordinate (otherAxis a) (coordinates a x y) = y.
Proof. now destruct a. Qed.

Section SingleAxis.

Variable c : Container.
Variable scrollable : queue.Scrollable.
Variable options : gmap string value.
Variable a : Axis.
Hypothesis options_axis : prop options "axis" = VStr (axisName a).

(** A number that is not NaN is rounded, added to nothing and clamped. *)
Lemma normalizePosition_number (n : number) :
  isNaN n = false ->
  normalizePosition (Primitive (VNum n)) c scrollable options =
    Ok (coordinates a
          (limitToScrollRange (Math_round (add (ofZ 0) (mul (ofZ 1) n))) c a)
          IGNORE_AXIS).
Proof.
  intros Hn. unfold normalizePosition, normalizePositionForAxis.
  rewrite options_axis, singleAxis_axisName. cbn.
  now rewrite Hn.
Qed.

Lemma normalizePosition_finite (q : Q) :
  normalizePosition (Primitive (VNum (Fin q))) c scrollable options =
    Ok (coordinates a (ofZ (clamp (round q) (maxPosition c a))) IGNORE_AXIS).
Proof.
  rewrite normalizePosition_number by reflexivity.
  cbn [ofZ add mul Math_round].
  rewrite (round_comp _ q) by ring.
  now rewrite limitToScrollRange_ofZ.
Qed.

(** A string resolves in three steps: the relative prefix, the unit rules,
    and the arithmetic on the number they give. *)
Lemma normalizePosition_string (s rest : string) (sign base v : number) :
  relativePrefix (toLowerCase s) c
    (queue.newQueueWrapper scrollable (prop options "queue")) a
    (getScrollMode options) = (rest, sign, base) ->
  unitRules rest c a = Ok (VNum v) ->
  isNaN v = false ->
  normalizePosition (Primitive (VStr s)) c scrollable options =
    Ok (coordinates a
          (limitToScrollRange (Math_round (add base (mul sign v))) c a)
          IGNORE_AXIS).
Proof.
  intros Hprefix Hunits Hv.
  unfold normalizePosition, normalizePositionForAxis.
  rewrite options_axis, singleAxis_axisName, Hprefix.
  unfold unitRules in Hunits.
  destruct (resolveUnits rest c a) as [p|e]; cbn in Hunits; [|discriminate].
  injection Hunits as Hp. cbn. rewrite Hp. cbn. now rewrite Hv.
Qed.

End SingleAxis.

(** C1. For every finite number [n], every container whose maximum on the
    axis is a non-negative integer and every single axis [a], resolving [n]
    with the axis option [a] in replace mode raises no error and returns the
    pair whose slot for [a] is [max (min (round n, max), 0)] and whose other
    slot is IgnoreAxis. *)
Theorem numeric_position_is_rounded_and_clamped :
  forall (n : Q) (c : Container) (scrollable : queue.Scrollable)
         (options : gmap string value) (a : Axis),
    0 <= maxPosition c a ->
    prop options "axis" = VStr (axisName a) ->
    getScrollMode options = MODE_REPLACE ->
    exists r : Coordinates,
      normalizePosition (Primitive (VNum (Fin n))) c scrollable options = Ok r
      /\ coordinate a r = ofZ (Z.max (Z.min (round n) (maxPosition c a)) 0)
      /\ coordinate (otherAxis a) r = IGNORE_AXIS.
Proof.
  intros n c scrollable options a _ Haxis _.
  eexists. split.
  - exact (normalizePosition_finite c scrollable options a Haxis n).
  - apply coordinate_coordinates.
Qed.

Lemma numeric_position_example :
  exists r : Coordinates,
    normalizePosition (Primitive (VNum (Fin (7 # 2)))) Sample.container
      (Sample.queued []) (Sample.axisOptions VERTICAL) = Ok r
    /\ coordinate Vertical r = ofZ 4
    /\ coordinate Horizontal r = IGNORE_AXIS.
Proof.
  apply (numeric_position_is_rounded_and_clamped (7 # 2) Sample.container
           (Sample.queued []) (Sample.axisOptions VERTICAL) Vertical).
  - vm_compute. discriminate.
  - reflexivity.
  - reflexivity.
Defined.

(** ** The last queued target *)

Lemma coordinate_retrieve (a : Axis) (last : Coordinates) (info : queue.Info) :
  coordinate a (retrieve last info) = overwrite a (coordinate a last) info.
Proof.
  unfold retrieve, overwrite, specifiedTarget.
  destruct (queue.position info) as [[[x|] [y|]]|]; destruct a; cbn;
    repeat (match goal with
            | |- context [eqb ?n IGNORE_AXIS] => destruct (eqb n IGNORE_AXIS)
            end; cbn);
    reflexivity.
Qed.

Lemma coordinate_fold_retrieve (a : Axis) (entries : list queue.Info) :
  forall last : Coordinates,
    coordinate a (fold_left retrieve entries last)
    = fold_left (overwrite a) entries (coordinate a last).
Proof.
  induction entries as [|info entries IH]; intros last; cbn [fold_left].
  - reflexivity.
  - now rewrite IH, coordinate_retrieve.
Qed.

Lemma getLastPositionInfo_fold (queueWrapper : queue.QueueWrapper) (a : Axis) :
  getLastPositionInfo queueWrapper a
  = lastQueuedTarget (queue.getInfo queueWrapper) a.
Proof.
  unfold getLastPositionInfo, lastPositionInfo, lastQueuedTarget.
  rewrite coordinate_fold_retrieve. now destruct a.
Qed.

Lemma getStartScrollPosition_base (c : Container) (queueWrapper : queue.QueueWrapper)
    (a : Axis) (mode : ScrollMode) :
  getStartScrollPosition c queueWrapper a mode
  = basePosition mode c (queue.getInfo queueWrapper) a.
Proof.
  unfold getStartScrollPosition, basePosition.
  rewrite getCurrentScrollPosition_ofZ.
  destruct mode; rewrite ?getLastPositionInfo_fold; reflexivity.
Qed.

(** ** Strings with a relative prefix *)

Lemma substring_whole (s : string) : String.substring 0 (String.length s) s = s.
Proof. induction s as [|ch s IH]; cbn; [reflexivity | now rewrite IH]. Qed.

Lemma substring_none (s : string) : String.substring 0 0 s = "".
Proof. now destruct s. Qed.

Lemma slice_first_two (c1 c2 : ascii) (s : string) :
  slice 0 (Some 2) (String c1 (String c2 s)) = String c1 (String c2 "").
Proof.
  unfold slice, sliceIndex. cbn [String.length].
  replace (Z.min 2 (Z.of_nat (S (S (String.length s))))) with 2 by lia.
  replace (Z.min 0 (Z.of_nat (S (S (String.length s))))) with 0 by lia.
  replace (Z.to_nat (if 0 <? 0 then _ else 0)) with 0%nat by reflexivity.
  replace (Z.to_nat (_ - _)) with 2%nat by reflexivity.
  cbn. now rewrite substring_none.
Qed.

Lemma slice_after_two (c1 c2 : ascii) (s : string) :
  slice 2 None (String c1 (String c2 s)) = s.
Proof.
  unfold slice, sliceIndex. cbn [String.length].
  replace (Z.min 2 (Z.of_nat (S (S (String.length s))))) with 2 by lia.
  replace (Z.to_nat (if 2 <? 0 then _ else 2)) with 2%nat by reflexivity.
  replace (Z.to_nat (_ - _)) with (String.length s) by (cbn [Z.ltb Z.compare]; lia).
  apply substring_whole.
Qed.

Section Relative.

Variable c : Container.
Variable scrollable : queue.Scrollable.
Variable options : gmap string value.
Variable a : Axis.
Hypothesis options_axis : prop options "axis" = VStr (axisName a).

Lemma toLowerCase_mark (plus : bool) (s : string) :
  toLowerCase (relativeMark plus +:+ s) = relativeMark plus +:+ toLowerCase s.
Proof. now destruct plus. Qed.

Lemma relativePrefix_mark (plus : bool) (s : string)
    (queueWrapper : queue.QueueWrapper) (mode : ScrollMode) :
  relativePrefix (relativeMark plus +:+ s) c queueWrapper a mode
  = (s, Fin (relativeSign plus), getStartScrollPosition c queueWrapper a mode).
Proof.
  unfold relativePrefix.
  destruct plus;
    [ change (relativeMark true +:+ s) with (String "+" (String "=" s))
    | change (relativeMark false +:+ s) with (String "-" (String "=" s)) ];
    rewrite slice_first_two, slice_after_two; reflexivity.
Qed.

End Relative.

Section SingleAxisInDoubles.

Variable c : Container.
Variable scrollable : queue.Scrollable.
Variable options : gmap string value.
Variable a : Axis.
Hypothesis options_axis : prop options "axis" = VStr (axisName a).

Lemma binary64_normalizePosition_number (n : number) :
  isNaN n = false ->
  binary64.normalizePosition (Primitive (VNum n)) c scrollable options =
    Ok (coordinates a
          (limitToScrollRange
             (Math_round (binary64.add (ofZ 0) (binary64.mul (ofZ 1) n))) c a)
          IGNORE_AXIS).
Proof using options_axis.
  intros Hn. unfold binary64.normalizePosition, binary64.normalizePositionForAxis.
  rewrite options_axis, singleAxis_axisName.
  cbn [mbind result_bind lib.isNumber binary64.toNumber toNumber].
  now rewrite Hn.
Qed.

Lemma binary64_normalizePosition_string (s rest : string) (sign base v : number) :
  relativePrefix (toLowerCase s) c
    (queue.newQueueWrapper scrollable (prop options "queue")) a
    (getScrollMode options) = (rest, sign, base) ->
  binary64.unitRules rest c a = Ok (VNum v) ->
  isNaN v = false ->
  binary64.normalizePosition (Primitive (VStr s)) c scrollable options =
    Ok (coordinates a
          (limitToScrollRange
             (Math_round (binary64.add base (binary64.mul sign v))) c a)
          IGNORE_AXIS).
Proof using options_axis.
  intros Hprefix Hunits Hv.
  unfold binary64.normalizePosition, binary64.normalizePositionForAxis.
  rewrite options_axis, singleAxis_axisName, Hprefix.
  unfold binary64.unitRules in Hunits.
  destruct (binary64.resolveUnits rest c a) as [p|e];
    cbn [mbind result_bind] in Hunits; [|discriminate].
  injection Hunits as Hp.
  cbn [mbind result_bind]. rewrite Hp.
  cbn [lib.isNumber binary64.toNumber toNumber]. now rewrite Hv.
Qed.

End SingleAxisInDoubles.

Lemma limitToScrollRange_Math_round (n : number) (c : Container) (a : Axis) :
  limitToScrollRange (Math_round n) c a = clampRound n (maxPosition c a).
Proof.
  destruct n as [| | |q]; cbn [Math_round clampRound].
  - unfold limitToScrollRange. now rewrite getScrollMaximum_ofZ.
  - unfold limitToScrollRange. rewrite getScrollMaximum_ofZ.
    change (Math_min PosInf (ofZ (maxPosition c a))) with (ofZ (maxPosition c a)).
    rewrite Math_max_ofZ. unfold clamp. f_equal. lia.
  - apply limitToScrollRange_NegInf.
  - apply limitToScrollRange_ofZ.
Qed.

(** C2. A string prefixed "+=" or "-=" resolves, on a single axis, to
    [clamp (round (base + sign * v), 0, max)], where [v] is the number the unit
    rules resolve the suffix to, [sign] is +1 for "+=" and -1 for "-=", and
    [base] is the live position in replace mode and, in append and merge mode,
    the last queued target of the axis if the queue defines one and the live
    position otherwise. The product and the sum are those of the language:
    each is rounded to a double. *)
Theorem relative_position_is_based_and_clamped :
  forall (plus : bool) (suffix : string) (v : number) (c : Container)
         (scrollable : queue.Scrollable) (options : gmap string value) (a : Axis),
    prop options "axis" = VStr (axisName a) ->
    binary64.unitRules (toLowerCase suffix) c a = Ok (VNum v) ->
    isNaN v = false ->
    binary64.normalizePosition (Primitive (VStr (relativeMark plus +:+ suffix)))
      c scrollable options =
      Ok (coordinates a
            (clampRound
               (binary64.add
                  (basePosition (getScrollMode options) c (snapshot scrollable options) a)
                  (binary64.mul (Fin (relativeSign plus)) v))
               (maxPosition c a))
            IGNORE_AXIS).
Proof.
  intros plus suffix v c scrollable options a Haxis Hunits Hv.
  rewrite (binary64_normalizePosition_string c scrollable options a Haxis
             (relativeMark plus +:+ suffix) (toLowerCase suffix)
             (Fin (relativeSign plus))
             (basePosition (getScrollMode options) c (snapshot scrollable options) a)
             v).
  - now rewrite limitToScrollRange_Math_round.
  - rewrite toLowerCase_mark, relativePrefix_mark.
    unfold snapshot. now rewrite getStartScrollPosition_base.
  - assumption.
  - assumption.
Qed.

Lemma relative_position_examples :
  binary64.normalizePosition (Primitive (VStr "+=50")) Sample.container
    (Sample.queued []) (Sample.axisOptions VERTICAL)
  = Ok {| horizontal := IGNORE_AXIS; vertical := ofZ 150 |}
  /\ binary64.normalizePosition (Primitive (VStr "+=50")) Sample.container
       (Sample.queued [Sample.onlyVertical 300])
       (Sample.withFlag "append" (Sample.axisOptions VERTICAL))
     = Ok {| horizontal := IGNORE_AXIS; vertical := ofZ 350 |}
  /\ binary64.normalizePosition (Primitive (VStr "+=9.2%")) Sample.scrolledBy30
       (Sample.queued []) (Sample.axisOptions VERTICAL)
     = Ok {| horizontal := IGNORE_AXIS; vertical := ofZ 65 |}.
Proof.
  split; [|split].
  - apply (relative_position_is_based_and_clamped true "50" (ofZ 50)
             Sample.container (Sample.queued []) (Sample.axisOptions VERTICAL)
             Vertical); reflexivity.
  - apply (relative_position_is_based_and_clamped true "50" (ofZ 50)
             Sample.container (Sample.queued [Sample.onlyVertical 300])
             (Sample.withFlag "append" (Sample.axisOptions VERTICAL))
             Vertical); reflexivity.
  - apply (relative_position_is_based_and_clamped true "9.2%"
             (Fin (4855443348258815 # 140737488355328))
             Sample.scrolledBy30 (Sample.queued []) (Sample.axisOptions VERTICAL)
             Vertical); reflexivity.
Defined.

(** C4. For every queue snapshot and each axis, the last queued target the
    code retrieves is the fold of the snapshot from oldest to newest that
    starts from IgnoreAxis and overwrites the running value of the axis
    exactly when an entry specifies a target for it that is neither undefined
    nor IgnoreAxis; for the snapshot [{vertical: 50}, {horizontal: 80}] it is
    50 for the vertical and 80 for the horizontal axis. *)
Theorem last_queued_target_is_the_fold :
  (forall (queueWrapper : queue.QueueWrapper) (a : Axis),
     getLastPositionInfo queueWrapper a
     = fold_left (overwrite a) (queue.getInfo queueWrapper) IGNORE_AXIS)
  /\ getLastPositionInfo
       (queue.newQueueWrapper
          (Sample.queued [Sample.onlyVertical 50; Sample.onlyHorizontal 80])
          (VStr "internal.jquery.scrollable"))
       Vertical = ofZ 50
  /\ getLastPositionInfo
       (queue.newQueueWrapper
          (Sample.queued [Sample.onlyVertical 50; Sample.onlyHorizontal 80])
          (VStr "internal.jquery.scrollable"))
       Horizontal = ofZ 80.
Proof.
  split; [|split].
  - intros queueWrapper a. apply getLastPositionInfo_fold.
  - reflexivity.
  - reflexivity.
Qed.

(** ** Axis names *)

Lemma isInArray_In (s : string) (names : list string) :
  lib.isInArray (VStr s) names = true <-> In s names.
Proof.
  unfold lib.isInArray. rewrite existsb_exists. split.
  - intros (name & Hin & Heq). cbn in Heq.
    apply String.eqb_eq in Heq. now subst.
  - intros Hin. exists s. split; [assumption|]. cbn. apply String.eqb_refl.
Qed.

Lemma isInArray_not_In (s : string) (names : list string) :
  ~ In s names -> lib.isInArray (VStr s) names = false.
Proof.
  intros Hnot. destruct (lib.isInArray (VStr s) names) eqn:E; [|reflexivity].
  apply isInArray_In in E. contradiction.
Qed.

(** Deciding a membership in a list of literal names, name by name. *)
Ltac split_names H :=
  repeat (destruct H as [H | H]; [subst; try reflexivity|]); try contradiction.

(** C7. [normalizeAxisName] maps "v", "y", "top" to vertical, "h", "x",
    "left" to horizontal and "vh", "hv", "xy", "yx", "all" to both, returns
    each of the three canonical names unchanged, and raises the invalid axis
    name error for every other string. *)
Theorem axis_name_canonicalization :
  (forall s : string, In s ["v"; "y"; "top"] ->
     normalizeAxisName (VStr s) = Ok "vertical")
  /\ (forall s : string, In s ["h"; "x"; "left"] ->
        normalizeAxisName (VStr s) = Ok "horizontal")
  /\ (forall s : string, In s ["vh"; "hv"; "xy"; "yx"; "all"] ->
        normalizeAxisName (VStr s) = Ok "both")
  /\ (forall s : string, In s ["vertical"; "horizontal"; "both"] ->
        normalizeAxisName (VStr s) = Ok s)
  /\ (forall s : string,
        ~ In s ["v"; "y"; "top"; "h"; "x"; "left"; "vh"; "hv"; "xy"; "yx"; "all";
                "vertical"; "horizontal"; "both"] ->
        normalizeAxisName (VStr s) = Err InvalidAxisName).
Proof.
  split; [|split; [|split; [|split]]]; intros s Hs.
  - split_names Hs.
  - split_names Hs.
  - split_names Hs.
  - split_names Hs.
  - unfold normalizeAxisName.
    rewrite !isInArray_not_In by (intros Hin; apply Hs; cbn in *; tauto).
    assert (Hv : String.eqb s VERTICAL = false)
      by (apply String.eqb_neq; intros ->; apply Hs; cbn; tauto).
    assert (Hh : String.eqb s HORIZONTAL = false)
      by (apply String.eqb_neq; intros ->; apply Hs; cbn; tauto).
    assert (Hb : String.eqb s BOTH_AXES = false)
      by (apply String.eqb_neq; intros ->; apply Hs; cbn; tauto).
    cbn. now rewrite Hv, Hh, Hb.
Qed.

Lemma axis_name_examples :
  normalizeAxisName (VStr "y") = Ok "vertical"
  /\ normalizeAxisName (VStr "left") = Ok "horizontal"
  /\ normalizeAxisName (VStr "all") = Ok "both"
  /\ normalizeAxisName (VStr "both") = Ok "both"
  /\ normalizeAxisName (VStr "Vertical") = Err InvalidAxisName.
Proof.
  destruct axis_name_canonicalization as (Hv & Hh & Hb & Hc & He).
  split; [|split; [|split; [|split]]].
  - apply Hv. cbn. tauto.
  - apply Hh. cbn. tauto.
  - apply Hb. cbn. tauto.
  - apply Hc. cbn. tauto.
  - apply He. cbn. intros H.
    repeat (destruct H as [H | H]; [discriminate H|]). exact H.
Defined.

(** ** Keywords and units *)

(** C8. On every container and in every mode, the string "top" or "bottom"
    (in any letter case) resolved on the horizontal axis raises the keyword
    mismatch error, and so does "left" or "right" resolved on the vertical
    axis; no coordinate pair is returned. *)
Theorem keyword_of_the_other_axis_is_rejected :
  forall (word : string) (c : Container) (scrollable : queue.Scrollable)
         (options : gmap string value) (a : Axis),
    prop options "axis" = VStr (axisName a) ->
    In (toLowerCase word) (keywords (otherAxis a)) ->
    normalizePosition (Primitive (VStr word)) c scrollable options
    = Err AxisKeywordMismatch.
Proof.
  intros word c scrollable options a Haxis Hword.
  unfold normalizePosition, normalizePositionForAxis.
  rewrite Haxis, singleAxis_axisName.
  destruct a; cbn [otherAxis keywords] in Hword;
    destruct Hword as [<- | [<- | []]]; reflexivity.
Qed.

Lemma keyword_mismatch_examples :
  normalizePosition (Primitive (VStr "top")) Sample.container (Sample.queued [])
    (Sample.axisOptions HORIZONTAL) = Err AxisKeywordMismatch
  /\ normalizePosition (Primitive (VStr "Right")) Sample.container (Sample.queued [])
       (Sample.withFlag "merge" (Sample.axisOptions VERTICAL)) = Err AxisKeywordMismatch.
Proof.
  split.
  - apply (keyword_of_the_other_axis_is_rejected "top" Sample.container
             (Sample.queued []) (Sample.axisOptions HORIZONTAL) Horizontal).
    + reflexivity.
    + cbn. tauto.
  - apply (keyword_of_the_other_axis_is_rejected "Right" Sample.container
             (Sample.queued [])
             (Sample.withFlag "merge" (Sample.axisOptions VERTICAL)) Vertical).
    + reflexivity.
    + cbn. tauto.
Defined.

Lemma representable_comp (p q : Q) (m e : Z) :
  (p == q)%Q -> binary64.representable q m e -> binary64.representable p m e.
Proof. intros E (Hm & He & Hq). repeat split; try tauto. now rewrite E. Qed.

(** Adding a double to nothing, with the sign +1, gives that double. *)
Lemma binary64_add_0_mul_1 (q : Q) (m e : Z) :
  binary64.representable q m e ->
  exists x : Q,
    binary64.add (ofZ 0) (binary64.mul (ofZ 1) (Fin q)) = Fin x /\ (x == q)%Q.
Proof.
  intros H. unfold binary64.mul, ofZ. cbn [mul binary64.rounded].
  assert (E1 : (inject_Z 1 * q == q)%Q) by ring.
  rewrite (double_exact _ m e (representable_comp _ _ m e E1 H)).
  unfold binary64.add. cbn [add binary64.rounded].
  assert (E2 : (inject_Z 0 + Qred (inject_Z 1 * q) == q)%Q)
    by (rewrite Qred_correct; ring).
  rewrite (double_exact _ m e (representable_comp _ _ m e E2 H)).
  eexists. split; [reflexivity|]. now rewrite Qred_correct.
Qed.

(** Up to 360287970189640, fifty times an integer is a double. *)
Lemma fifty_times_is_a_double (z : Z) :
  0 <= z <= 360287970189640 ->
  exists m e : Z, binary64.representable (inject_Z 50 * inject_Z z) m e.
Proof.
  intros H. destruct (Z.eq_dec z 360287970189640) as [-> | Hne].
  - exists 4503599627370500, 2. split; [|split]; [vm_compute; split; congruence | lia |].
    reflexivity.
  - exists (25 * z), 1. split; [|split]; [|lia|].
    + change (2 ^ 53) with 9007199254740992. lia.
    + rewrite inject_Z_mult. unfold binary64.pow2. rewrite Qpower_1_r.
      change (inject_Z 50) with (inject_Z 25 * inject_Z 2)%Q. ring.
Qed.

Lemma half_is_a_double (z : Z) :
  0 <= z < 2 ^ 53 -> binary64.representable ((1 # 2) * inject_Z z) z (-1).
Proof.
  intros H. split; [assumption|]. split; [lia|].
  change (binary64.pow2 (-1)) with (/ inject_Z 2)%Q.
  change (/ inject_Z 2)%Q with (1 # 2)%Q. ring.
Qed.

Lemma binary64_unitRules_percent_50 (c : Container) (a : Axis) :
  0 <= maxPosition c a <= 360287970189640 ->
  exists x : Q,
    binary64.unitRules "50%" c a = Ok (VNum (Fin x))
    /\ (x == (1 # 2) * inject_Z (maxPosition c a))%Q.
Proof.
  intros Hmax. unfold binary64.unitRules.
  change (binary64.resolveUnits "50%" c a)
    with (Ok (A := value)
            (VNum (binary64.div
                     (binary64.mul (binary64.parseFloat "50") (lib.getScrollMaximum c a))
                     (ofZ 100)))).
  replace (binary64.parseFloat "50") with (ofZ 50) by (vm_compute; reflexivity).
  rewrite getScrollMaximum_ofZ.
  destruct (fifty_times_is_a_double _ Hmax) as (m & e & Hfifty).
  unfold binary64.mul, ofZ. cbn [mul binary64.rounded].
  rewrite (double_exact _ m e Hfifty).
  unfold binary64.div. cbn [div].
  replace (Qsign (inject_Z 100)) with Gt by reflexivity. cbn [binary64.rounded].
  assert (Hhalf : binary64.representable
                    (Qred (inject_Z 50 * inject_Z (maxPosition c a)) / inject_Z 100)
                    (maxPosition c a) (-1)).
  { apply (representable_comp _ ((1 # 2) * inject_Z (maxPosition c a))).
    - rewrite Qred_correct. field.
    - apply half_is_a_double. change (2 ^ 53) with 9007199254740992. lia. }
  rewrite (double_exact _ _ _ Hhalf).
  cbn [mbind result_bind binary64.numericString].
  eexists. split; [reflexivity|].
  rewrite !Qred_correct. field.
Qed.

(** C9, up to the largest maximum it holds up to. For every container
    whose vertical maximum is an integer from 0 to 360287970189640 (the last
    one before [50 * max] needs more bits than a double has), resolving "50%"
    on the vertical axis yields the same coordinate pair as resolving the
    number [round (0.5 * max (C, vertical))] with the same options. *)
Theorem fifty_percent_round_trip :
  forall (c : Container) (scrollable : queue.Scrollable) (options : gmap string value),
    0 <= maxPosition c Vertical <= 360287970189640 ->
    prop options "axis" = VStr VERTICAL ->
    getScrollMode options = MODE_REPLACE ->
    binary64.normalizePosition (Primitive (VStr "50%")) c scrollable options
    = binary64.normalizePosition
        (Primitive (VNum (ofZ (round ((1 # 2) * inject_Z (maxPosition c Vertical))))))
        c scrollable options.
Proof.
  intros c scrollable options Hmax Haxis _.
  set (M := maxPosition c Vertical) in *.
  assert (H0 : (0 <= inject_Z M)%Q) by (apply inject_Z_nonneg; lia).
  assert (Hround : 0 <= round ((1 # 2) * inject_Z M) <= M).
  { split.
    - rewrite <- (round_inject_Z 0). apply round_monotone.
      change (inject_Z 0) with 0%Q. lra.
    - apply Z.le_trans with (round (inject_Z M)).
      + apply round_monotone. lra.
      + rewrite round_inject_Z. lia. }
  destruct (binary64_unitRules_percent_50 c Vertical Hmax) as (x & Hunits & Hx).
  fold M in Hx.
  rewrite (binary64_normalizePosition_string c scrollable options Vertical Haxis
             "50%" "50%" (ofZ 1) (ofZ 0) (Fin x) eq_refl Hunits eq_refl).
  rewrite (binary64_normalizePosition_number c scrollable options Vertical Haxis)
    by reflexivity.
  assert (Hhalf : binary64.representable x M (-1)).
  { apply (representable_comp _ _ _ _ Hx), half_is_a_double.
    change (2 ^ 53) with 9007199254740992. lia. }
  destruct (binary64_add_0_mul_1 x M (-1) Hhalf) as (y & -> & Hy).
  assert (Hinteger : binary64.representable
                       (inject_Z (round ((1 # 2) * inject_Z M)))
                       (round ((1 # 2) * inject_Z M)) 0).
  { apply representable_integer. change (2 ^ 53) with 9007199254740992. lia. }
  change (ofZ (round ((1 # 2) * inject_Z M)))
    with (Fin (inject_Z (round ((1 # 2) * inject_Z M)))).
  destruct (binary64_add_0_mul_1 _ _ _ Hinteger) as (z & -> & Hz).
  cbn [Math_round]. do 3 f_equal.
  rewrite (round_comp z _ Hz), round_inject_Z.
  f_equal. apply round_comp. now rewrite Hy, Hx.
Qed.

Lemma fifty_percent_example :
  binary64.normalizePosition (Primitive (VStr "50%")) Sample.container
    (Sample.queued []) (Sample.axisOptions VERTICAL)
  = binary64.normalizePosition (Primitive (VNum (ofZ 500))) Sample.container
      (Sample.queued []) (Sample.axisOptions VERTICAL).
Proof.
  apply (fifty_percent_round_trip Sample.container (Sample.queued [])
           (Sample.axisOptions VERTICAL)).
  - vm_compute. split; discriminate.
  - reflexivity.
  - reflexivity.
Defined.

(** C9, as it is stated, fails: at the vertical maximum 360287970189641
    the product [50 * max] is rounded to a double, and "50%" resolves to
    180143985094820 where the number [round (0.5 * max)], 180143985094821,
    resolves to itself. *)
Lemma fifty_percent_of_a_huge_range :
  0 <= maxPosition Sample.hugeContainer Vertical
  /\ prop (Sample.axisOptions VERTICAL) "axis" = VStr VERTICAL
  /\ getScrollMode (Sample.axisOptions VERTICAL) = MODE_REPLACE
  /\ binary64.normalizePosition (Primitive (VStr "50%")) Sample.hugeContainer
       (Sample.queued []) (Sample.axisOptions VERTICAL)
     = Ok {| horizontal := IGNORE_AXIS; vertical := ofZ 180143985094820 |}
  /\ binary64.normalizePosition
       (Primitive
          (VNum (ofZ (round ((1 # 2)
                             * inject_Z (maxPosition Sample.hugeContainer Vertical))))))
       Sample.hugeContainer (Sample.queued []) (Sample.axisOptions VERTICAL)
     = Ok {| horizontal := IGNORE_AXIS; vertical := ofZ 180143985094821 |}
  /\ ofZ 180143985094820 <> ofZ 180143985094821.
Proof.
  split; [|split; [|split; [|split; [|split]]]].
  - vm_compute. discriminate.
  - reflexivity.
  - reflexivity.
  - vm_compute. reflexivity.
  - vm_compute. reflexivity.
  - discriminate.
Qed.

(** ** The range of the resolved coordinates *)

Section Range.

Variable c : Container.
Hypothesis max_horizontal : 0 <= scrollMaxHorizontal c.
Hypothesis max_vertical : 0 <= scrollMaxVertical c.

Lemma maxPosition_nonneg (a : Axis) : 0 <= maxPosition c a.
Proof using max_horizontal max_vertical. now destruct a. Qed.

Lemma validSlot_IGNORE_AXIS (a : Axis) : validSlot c a IGNORE_AXIS.
Proof using Type. now left. Qed.

Lemma validSlot_clamp (a : Axis) (z : Z) :
  validSlot c a (ofZ (clamp z (maxPosition c a))).
Proof using max_horizontal max_vertical.
  right. exists (clamp z (maxPosition c a)). split; [reflexivity|].
  pose proof (maxPosition_nonneg a). unfold clamp. lia.
Qed.

(** Whatever is rounded and clamped is a valid slot, NaN apart. *)
Lemma validSlot_limitToScrollRange (a : Axis) (n : number) :
  isNaN n = false ->
  validSlot c a (limitToScrollRange (Math_round n) c a).
Proof using max_horizontal max_vertical.
  intros Hn. destruct (isNaN_false_cases n Hn) as [-> | [-> | [q ->]]]; cbn [Math_round].
  - rewrite limitToScrollRange_PosInf by apply maxPosition_nonneg.
    right. exists (maxPosition c a). pose proof (maxPosition_nonneg a). split; [reflexivity | lia].
  - rewrite limitToScrollRange_NegInf.
    right. exists 0. pose proof (maxPosition_nonneg a). split; [reflexivity | lia].
  - rewrite limitToScrollRange_ofZ. apply validSlot_clamp.
Qed.

(** The sum of an integer base and a signed number that is not NaN is not
    NaN either. *)
Lemma relative_sum_not_NaN (b : Z) (sign v : number) :
  sign = ofZ 1 \/ sign = ofZ (-1) ->
  isNaN v = false ->
  isNaN (add (ofZ b) (mul sign v)) = false.
Proof using Type.
  intros [-> | ->] Hv;
    destruct (isNaN_false_cases v Hv) as [-> | [-> | [q ->]]]; reflexivity.
Qed.

Variable queueWrapper : queue.QueueWrapper.

Lemma validSlot_overwrite (a : Axis) (entries : list queue.Info) :
  (forall info n, In info entries -> specifiedTarget a info = Some n -> validSlot c a n) ->
  forall running : number,
    validSlot c a running -> validSlot c a (fold_left (overwrite a) entries running).
Proof using Type.
  induction entries as [|info entries IH]; intros Hentries running Hrunning; cbn [fold_left].
  - assumption.
  - apply IH.
    + intros info' n Hin. apply Hentries. now right.
    + unfold overwrite. destruct (specifiedTarget a info) as [n|] eqn:E; [|assumption].
      destruct (eqb n IGNORE_AXIS); [assumption|].
      apply (Hentries info n); [now left | assumption].
Qed.

Lemma validSlot_getLastPositionInfo (a : Axis) :
  resolvedSnapshot c (queue.getInfo queueWrapper) ->
  validSlot c a (getLastPositionInfo queueWrapper a).
Proof using Type.
  intros Hsnapshot. rewrite getLastPositionInfo_fold. unfold lastQueuedTarget.
  apply validSlot_overwrite.
  - intros info n Hin Hn. now apply (Hsnapshot info a n).
  - apply validSlot_IGNORE_AXIS.
Qed.

Lemma validSlot_is_integer (a : Axis) (n : number) :
  validSlot c a n -> exists z : Z, n = ofZ z.
Proof using Type.
  intros [-> | (z & -> & _)]; [now exists (-999) | now exists z].
Qed.

(** The queue is consulted in append and merge mode only; there its targets
    are taken to be slots of [ResolvedCoordinates]. *)
Lemma getStartScrollPosition_is_integer (a : Axis) (mode : ScrollMode) :
  (mode <> MODE_REPLACE -> resolvedSnapshot c (queue.getInfo queueWrapper)) ->
  exists z : Z, getStartScrollPosition c queueWrapper a mode = ofZ z.
Proof using Type.
  intros Hsnapshot.
  unfold getStartScrollPosition. rewrite getCurrentScrollPosition_ofZ.
  destruct mode; [eauto|..];
    (destruct (validSlot_is_integer a _ (validSlot_getLastPositionInfo a
                                           (Hsnapshot ltac:(discriminate))))
       as [z ->];
     destruct (eqb (ofZ z) IGNORE_AXIS); eauto).
Qed.

Lemma relativePrefix_cases (s : string) (a : Axis) (mode : ScrollMode) :
  (mode <> MODE_REPLACE -> resolvedSnapshot c (queue.getInfo queueWrapper)) ->
  exists (rest : string) (sign : number) (b : Z),
    relativePrefix s c queueWrapper a mode = (rest, sign, ofZ b)
    /\ (sign = ofZ 1 \/ sign = ofZ (-1)).
Proof using Type.
  intros Hsnapshot. unfold relativePrefix.
  destruct (getStartScrollPosition_is_integer a mode Hsnapshot) as [z ->].
  destruct (_ || _).
  - destruct (_ =? _)%string; eauto 6.
  - exists s, (ofZ 1), 0. eauto.
Qed.

Lemma isNumber_cases (position : value) :
  lib.isNumber position = true ->
  exists v : number, position = VNum v /\ isNaN v = false.
Proof using Type.
  destruct position as [| | |v| |]; try discriminate. cbn.
  intros H. exists v. split; [reflexivity|]. now destruct (isNaN v).
Qed.

(** Both slots of a single-axis resolution are valid slots. *)
Lemma normalizePositionForAxis_valid (position : value) (options : gmap string value)
    (r : Coordinates) :
  (getScrollMode options <> MODE_REPLACE ->
   resolvedSnapshot c (queue.getInfo queueWrapper)) ->
  normalizePositionForAxis position c options queueWrapper = Ok r ->
  validSlot c Horizontal (horizontal r) /\ validSlot c Vertical (vertical r).
Proof using max_horizontal max_vertical.
  intros Hsnapshot. unfold normalizePositionForAxis.
  destruct (singleAxis (prop options "axis")) as [a|]; [|discriminate].
  intros H.
  apply bind_Ok_inv in H as ([[p sign] base] & Hfirst & H).
  apply bind_Ok_inv in H as (x & Hx & H).
  injection H as <-.
  assert (Hparts : (sign = ofZ 1 \/ sign = ofZ (-1)) /\ exists b : Z, base = ofZ b).
  { destruct position as [| |flag|n|s|];
      try (injection Hfirst as _ <- <-; split; [now left | now exists 0]).
    destruct (relativePrefix_cases (toLowerCase s) a (getScrollMode options) Hsnapshot)
      as (rest & sign' & b & Hprefix & Hsign).
    rewrite Hprefix in Hfirst. cbv beta iota zeta in Hfirst.
    apply bind_Ok_inv in Hfirst as (p' & _ & Hfirst).
    injection Hfirst as _ <- <-. split; [assumption | now exists b]. }
  destruct Hparts as (Hsign & b & ->).
  assert (Hvalid : validSlot c a x).
  { destruct (lib.isNumber p) eqn:Enum.
    - destruct (isNumber_cases p Enum) as (v & -> & Hv).
      injection Hx as <-. apply validSlot_limitToScrollRange.
      now apply relative_sum_not_NaN.
    - destruct (isUndefinedPositionValue p); [|discriminate].
      injection Hx as <-.
      destruct (getScrollMode options) eqn:Emode;
        try apply validSlot_IGNORE_AXIS.
      apply validSlot_getLastPositionInfo, Hsnapshot. discriminate. }
  destruct a; cbn; auto using validSlot_IGNORE_AXIS.
Qed.

End Range.

(** ** Position hashes *)

Lemma normalizeAxisName_alias (key : string) :
  lib.isInArray (VStr key) altAxisNames = true ->
  exists name : string, normalizeAxisName (VStr key) = Ok name.
Proof.
  intros H. apply isInArray_In in H. cbn in H.
  repeat (destruct H as [<- | H]; [eexists; reflexivity|]).
  contradiction.
Qed.

(** Canonicalizing the keys of a hash never raises an error. *)
Lemma normalizeAxisProperties_Ok (props : list (string * value)) :
  forall normalized : gmap string value,
    exists pos : gmap string value,
      normalizeAxisProperties props normalized = Ok pos.
Proof.
  induction props as [|[key v] props IH]; intros normalized; cbn [normalizeAxisProperties].
  - now exists normalized.
  - destruct (lib.isInArray (VStr key) altAxisNames) eqn:E.
    + destruct (normalizeAxisName_alias key E) as [name ->]. apply IH.
    + apply IH.
Qed.

Lemma normalizeAxisProperty_Ok (h : list (string * value)) :
  exists pos : gmap string value, normalizeAxisProperty h = Ok pos.
Proof. apply normalizeAxisProperties_Ok. Qed.

Section ExcludedAxis.

Variable c : Container.
Variable queueWrapper : queue.QueueWrapper.
Variable options : gmap string value.
Variable kept : Axis.
Hypothesis options_axis : prop options "axis" = VStr (axisName kept).

(** When the axis option names a single axis, a hash is resolved from its
    entry for that axis alone; the slot of the other axis is decided by the
    [merge] option. *)
Lemma normalizePositionForHash_single (h : list (string * value)) :
  normalizePositionForHash h c options queueWrapper =
    n ← normalizePositionForAxis (entry h kept) c
          (extend [options; {["axis" := VStr (axisName kept)]}]) queueWrapper;
    Ok (coordinates kept (coordinate kept n)
          (if truthy (prop options "merge")
           then getLastPositionInfo queueWrapper (otherAxis kept)
           else IGNORE_AXIS)).
Proof using options_axis.
  unfold normalizePositionForHash, entry, property.
  destruct (normalizeAxisProperty_Ok h) as [pos ->].
  rewrite options_axis.
  destruct kept; cbn [axisName otherAxis mbind result_bind].
  - change (strict_eq (VStr HORIZONTAL) (VStr VERTICAL)) with false.
    change (strict_eq (VStr HORIZONTAL) (VStr HORIZONTAL)) with true.
    cbv beta iota.
    now destruct (normalizePositionForAxis _ _ _ _).
  - change (strict_eq (VStr VERTICAL) (VStr VERTICAL)) with true.
    change (strict_eq (VStr VERTICAL) (VStr HORIZONTAL)) with false.
    cbv beta iota.
    now destruct (normalizePositionForAxis _ _ _ _).
Qed.

(** The slot of the axis that the axis option excludes. *)
Lemma excluded_axis_slot (h : list (string * value)) (r : Coordinates) :
  normalizePositionForHash h c options queueWrapper = Ok r ->
  coordinate (otherAxis kept) r
  = if truthy (prop options "merge")
    then getLastPositionInfo queueWrapper (otherAxis kept)
    else IGNORE_AXIS.
Proof using options_axis.
  rewrite normalizePositionForHash_single. intros H.
  apply bind_Ok_inv in H as (n & _ & H). injection H as <-.
  apply coordinate_coordinates.
Qed.

End ExcludedAxis.

Lemma merge_mode_flag (options : gmap string value) :
  getScrollMode options = MODE_MERGE -> truthy (prop options "merge") = true.
Proof.
  unfold getScrollMode.
  destruct (truthy (prop options "append")); [discriminate|].
  now destruct (truthy (prop options "merge")).
Qed.

Lemma replace_mode_flag (options : gmap string value) :
  getScrollMode options = MODE_REPLACE -> truthy (prop options "merge") = false.
Proof.
  unfold getScrollMode.
  destruct (truthy (prop options "append")); [discriminate|].
  now destruct (truthy (prop options "merge")).
Qed.

(** In merge mode the excluded axis inherits its last queued target, in
    replace mode it is ignored; in append mode it is ignored unless the
    [merge] option is set as well. *)
Lemma excluded_axis_by_mode (h : list (string * value)) (c : Container)
    (scrollable : queue.Scrollable) (options : gmap string value)
    (kept : Axis) (r : Coordinates) :
  prop options "axis" = VStr (axisName kept) ->
  normalizePosition (Hash h) c scrollable options = Ok r ->
  coordinate (otherAxis kept) r
  = match getScrollMode options with
    | MODE_MERGE => lastQueuedTarget (snapshot scrollable options) (otherAxis kept)
    | MODE_REPLACE => IGNORE_AXIS
    | MODE_APPEND =>
        if truthy (prop options "merge")
        then lastQueuedTarget (snapshot scrollable options) (otherAxis kept)
        else IGNORE_AXIS
    end.
Proof.
  intros Haxis H. cbn [normalizePosition] in H.
  rewrite (excluded_axis_slot c _ options kept Haxis h r H).
  rewrite getLastPositionInfo_fold. fold (snapshot scrollable options).
  destruct (getScrollMode options) eqn:Emode.
  - now rewrite (replace_mode_flag options Emode).
  - reflexivity.
  - now rewrite (merge_mode_flag options Emode).
Qed.

(** C3, the input on which the code departs from the claim: with both the
    [append] and the [merge] option set the scroll mode is append, yet the
    excluded horizontal axis inherits the queued target 80 instead of
    IgnoreAxis. *)
Theorem excluded_axis_inherits_in_append_mode :
  getScrollMode
    (Sample.withFlag "merge" (Sample.withFlag "append" (Sample.axisOptions VERTICAL)))
  = MODE_APPEND
  /\ normalizePosition
       (Hash [("horizontal", VNum (ofZ 10)); ("vertical", VNum (ofZ 20))])
       Sample.container (Sample.queued [Sample.onlyHorizontal 80])
       (Sample.withFlag "merge" (Sample.withFlag "append" (Sample.axisOptions VERTICAL)))
     = Ok {| horizontal := ofZ 80; vertical := ofZ 20 |}
  /\ normalizePosition (Primitive VUndefined)
       Sample.container (Sample.queued [Sample.onlyHorizontal 80])
       (Sample.withFlag "merge" (Sample.withFlag "append" (Sample.axisOptions HORIZONTAL)))
     = Ok {| horizontal := IGNORE_AXIS; vertical := IGNORE_AXIS |}.
Proof. split; [|split]; reflexivity. Qed.

Lemma otherAxis_involutive (a : Axis) : otherAxis (otherAxis a) = a.
Proof. now destruct a. Qed.

(** C10, as the code has it. In merge mode, when the axis option excludes an
    axis, a position hash whose entry for that axis is explicitly IgnoreAxis
    resolves identically to a hash that omits the axis and agrees on the other
    axis: in both the excluded axis inherits its last queued target (which is
    IgnoreAxis if the queue defines none). *)
Theorem ignored_entry_of_an_excluded_axis_is_inherited :
  forall (h1 h2 : list (string * value)) (c : Container)
         (scrollable : queue.Scrollable) (options : gmap string value) (a : Axis),
    getScrollMode options = MODE_MERGE ->
    prop options "axis" = VStr (axisName (otherAxis a)) ->
    entry h1 a = VNum IGNORE_AXIS ->
    entry h2 a = VUndefined ->
    entry h1 (otherAxis a) = entry h2 (otherAxis a) ->
    normalizePosition (Hash h1) c scrollable options
    = normalizePosition (Hash h2) c scrollable options
    /\ (forall r : Coordinates,
          normalizePosition (Hash h1) c scrollable options = Ok r ->
          coordinate a r = lastQueuedTarget (snapshot scrollable options) a).
Proof.
  intros h1 h2 c scrollable options a Hmode Haxis _ _ Hother. split.
  - cbn [normalizePosition].
    rewrite !(normalizePositionForHash_single c _ options (otherAxis a) Haxis).
    now rewrite Hother.
  - intros r Hr.
    pose proof (excluded_axis_by_mode h1 c scrollable options (otherAxis a) r Haxis Hr)
      as Hslot.
    now rewrite otherAxis_involutive, Hmode in Hslot.
Qed.

Lemma ignored_entry_example :
  normalizePosition
    (Hash [("vertical", VNum (ofZ 100)); ("horizontal", VNum IGNORE_AXIS)])
    Sample.container (Sample.queued [Sample.onlyHorizontal 80])
    (Sample.withFlag "merge" (Sample.axisOptions VERTICAL))
  = normalizePosition (Hash [("vertical", VNum (ofZ 100))])
      Sample.container (Sample.queued [Sample.onlyHorizontal 80])
      (Sample.withFlag "merge" (Sample.axisOptions VERTICAL))
  /\ (forall r : Coordinates,
        normalizePosition
          (Hash [("vertical", VNum (ofZ 100)); ("horizontal", VNum IGNORE_AXIS)])
          Sample.container (Sample.queued [Sample.onlyHorizontal 80])
          (Sample.withFlag "merge" (Sample.axisOptions VERTICAL)) = Ok r ->
        coordinate Horizontal r = ofZ 80).
Proof.
  apply (ignored_entry_of_an_excluded_axis_is_inherited
           [("vertical", VNum (ofZ 100)); ("horizontal", VNum IGNORE_AXIS)]
           [("vertical", VNum (ofZ 100))]
           Sample.container (Sample.queued [Sample.onlyHorizontal 80])
           (Sample.withFlag "merge" (Sample.axisOptions VERTICAL)) Horizontal);
    reflexivity.
Defined.

(** C10, as it is stated, fails: where the axis option does not exclude the
    axis, an entry that is explicitly IgnoreAxis is the number -999 and is
    clamped to 0, while an omitted entry inherits the last queued target.
    The options are those [normalizeOptions] derives for either hash. *)
Lemma explicit_ignore_is_clamped_not_inherited :
  normalizeOptions (Some [("merge", VBool true)]) (Hash [("vertical", VNum IGNORE_AXIS)])
  = normalizeOptions (Some [("merge", VBool true)]) (Hash [])
  /\ (options ← normalizeOptions (Some [("merge", VBool true)])
                 (Hash [("vertical", VNum IGNORE_AXIS)]);
      Ok (getScrollMode options, prop options "axis"))
     = Ok (MODE_MERGE, VStr VERTICAL)
  /\ entry [("vertical", VNum IGNORE_AXIS)] Vertical = VNum IGNORE_AXIS
  /\ entry [] Vertical = VUndefined
  /\ (options ← normalizeOptions (Some [("merge", VBool true)])
                 (Hash [("vertical", VNum IGNORE_AXIS)]);
      normalizePosition (Hash [("vertical", VNum IGNORE_AXIS)]) Sample.container
        (Sample.queued [Sample.onlyVertical 50]) options)
     = Ok {| horizontal := IGNORE_AXIS; vertical := ofZ 0 |}
  /\ (options ← normalizeOptions (Some [("merge", VBool true)]) (Hash []);
      normalizePosition (Hash []) Sample.container
        (Sample.queued [Sample.onlyVertical 50]) options)
     = Ok {| horizontal := IGNORE_AXIS; vertical := ofZ 50 |}.
Proof. repeat split; vm_compute; reflexivity. Qed.

(** ** Options *)

Lemma prop_extend1 (target src : gmap string value) (key : string) :
  prop (extend1 target src) key
  = if isDefined (prop src key) then prop src key else prop target key.
Proof.
  unfold prop, extend1. rewrite lookup_union, map_lookup_filter.
  destruct (src !! key) as [v|]; cbn.
  - destruct v; cbn; case_guard; cbn; try contradiction;
      try (exfalso; auto; fail); now destruct (target !! key).
  - now destruct (target !! key).
Qed.

Lemma hasAxis_present (h : list (string * value)) (pos : gmap string value) (a : Axis) :
  normalizeAxisProperty h = Ok pos ->
  hasAxis pos (axisName a) = present h a.
Proof.
  intros Hpos. unfold present, entry, property, hasAxis. rewrite Hpos.
  destruct (prop pos (axisName a)) as [| |[|]|n|s|]; try reflexivity.
  now destruct s.
Qed.

(** The axis of the normalized options: the [axis] option as it was given,
    if one was given, and the derived default otherwise. *)
Lemma normalizeOptions_axis (raw : option (list (string * value))) (position : Position) :
  exists options : gmap string value,
    normalizeOptions raw position = Ok options
    /\ prop options "axis"
       = let given :=
           match raw with
           | Some h => property h "axis"
           | None => VUndefined
           end in
         if isDefined given then given else VStr (derivedAxis position).
Proof.
  unfold normalizeOptions.
  assert (Hraw : exists given : gmap string value,
             match raw with
             | Some o => normalizeAxisProperty o
             | None => Ok ∅
             end = Ok given
             /\ prop given "axis"
                = match raw with
                  | Some h => property h "axis"
                  | None => VUndefined
                  end).
  { destruct raw as [h|].
    - destruct (normalizeAxisProperty_Ok h) as [given Hgiven].
      exists given. unfold property. now rewrite Hgiven.
    - now exists ∅. }
  destruct Hraw as (given & -> & <-).
  assert (Hdefault : exists d : string,
             match position with
             | Hash h =>
                 position0 ← normalizeAxisProperty h;
                 Ok (if hasAxis position0 HORIZONTAL && hasAxis position0 VERTICAL
                     then VStr BOTH_AXES
                     else if hasAxis position0 HORIZONTAL
                          then VStr HORIZONTAL else VStr VERTICAL)
             | Primitive (VStr s) =>
                 if (toLowerCase s =? "top")%string || (toLowerCase s =? "bottom")%string
                 then Ok (VStr VERTICAL)
                 else if (toLowerCase s =? "left")%string
                         || (toLowerCase s =? "right")%string
                      then Ok (VStr HORIZONTAL)
                      else Ok (prop defaults "axis")
             | Primitive _ => Ok (prop defaults "axis")
             end = Ok (VStr d)
             /\ d = derivedAxis position).
  { destruct position as [v|h].
    - destruct v; try (now exists VERTICAL).
      cbn [derivedAxis].
      destruct (_ || _); [now exists VERTICAL|].
      destruct (_ || _); [now exists HORIZONTAL | now exists VERTICAL].
    - destruct (normalizeAxisProperty_Ok h) as [pos Hpos]. rewrite Hpos.
      cbn [mbind result_bind derivedAxis].
      change HORIZONTAL with (axisName Horizontal) at 1 2.
      change VERTICAL with (axisName Vertical) at 1.
      rewrite !(hasAxis_present h pos) by assumption.
      destruct (present h Horizontal), (present h Vertical); cbn; eauto. }
  destruct Hdefault as (d & -> & <-).
  eexists. split; [reflexivity|].
  unfold extend. cbn [fold_left]. rewrite !prop_extend1.
  destruct (isDefined (prop given "axis")); reflexivity.
Qed.

(** C6, the input on which the code departs from the claim: the alias "x"
    given as the [axis] option is returned as it is, although
    [normalizeAxisName] knows it as the horizontal axis; resolving a position
    with the returned options then fails for want of a single axis. *)
Theorem axis_option_value_is_not_canonicalized :
  normalizeAxisName (VStr "x") = Ok HORIZONTAL
  /\ (options ← normalizeOptions (Some [("axis", VStr "x")]) (Primitive (VNum (ofZ 100)));
      Ok (prop options "axis"))
     = Ok (VStr "x")
  /\ (options ← normalizeOptions (Some [("axis", VStr "x")]) (Primitive (VNum (ofZ 100)));
      normalizePosition (Primitive (VNum (ofZ 100))) Sample.container
        (Sample.queued []) options)
     = Err AmbiguousAxis.
Proof. split; [|split]; vm_compute; reflexivity. Qed.

(** The default axis excludes an axis that a hash ignores or omits when the
    other axis is present: [normalizeOptions] itself sets up the exclusion
    when no axis option is given. *)
Lemma derivedAxis_excludes_ignored_entry (h : list (string * value)) (a : Axis) :
  present h (otherAxis a) = true ->
  entry h a = VNum IGNORE_AXIS \/ entry h a = VUndefined ->
  derivedAxis (Hash h) = axisName (otherAxis a).
Proof.
  intros Hother Hentry.
  assert (Ha : present h a = false)
    by (unfold present; destruct Hentry as [-> | ->]; reflexivity).
  destruct a; cbn [otherAxis derivedAxis axisName] in *; now rewrite Ha, Hother.
Qed.

(** [lib.isString] holds of the values the embedding matches as [VStr]. *)
Lemma isString_VStr (v : value) :
  lib.isString v = true <-> exists s : string, v = VStr s.
Proof.
  split.
  - destruct v; try discriminate. eauto.
  - now intros [s ->].
Qed.

(** ** Which errors arise, and when *)

Lemma bind_Err_inv {A B : Type} (m : result A) (k : A -> result B) (e : error) :
  m ≫= k = Err e -> m = Err e \/ exists a : A, m = Ok a /\ k a = Err e.
Proof. destruct m as [a|e']; cbn; intros H; [eauto | left; now injection H as ->]. Qed.

Lemma prop_singleton (key : string) (v : value) (key' : string) :
  prop ({[key := v]} : gmap string value) key'
  = if String.eqb key key' then v else VUndefined.
Proof.
  unfold prop. destruct (String.eqb_spec key key') as [<- | Hne].
  - now rewrite lookup_singleton_eq.
  - now rewrite lookup_singleton_ne.
Qed.

Lemma prop_empty (key : string) : prop (∅ : gmap string value) key = VUndefined.
Proof. unfold prop. now rewrite lookup_empty. Qed.

Lemma prop_extend1_empty (src : gmap string value) (key : string) :
  prop (extend1 ∅ src) key = prop src key.
Proof.
  rewrite prop_extend1, prop_empty. now destruct (prop src key).
Qed.

Lemma prop_pinned_axis (options : gmap string value) (a : Axis) :
  prop (pinned options a) "axis" = VStr (axisName a).
Proof.
  unfold pinned, extend. cbn [fold_left]. now rewrite prop_extend1, prop_singleton.
Qed.

Lemma prop_pinned_other (options : gmap string value) (a : Axis) (key : string) :
  key <> "axis" -> prop (pinned options a) key = prop options key.
Proof.
  intros Hkey. unfold pinned, extend. cbn [fold_left].
  rewrite prop_extend1, prop_singleton, prop_extend1_empty.
  destruct (String.eqb_spec "axis" key); [congruence | reflexivity].
Qed.

Lemma getScrollMode_pinned (options : gmap string value) (a : Axis) :
  getScrollMode (pinned options a) = getScrollMode options.
Proof.
  unfold getScrollMode. now rewrite !prop_pinned_other by discriminate.
Qed.

Lemma singleAxis_pinned (options : gmap string value) (a : Axis) :
  singleAxis (prop (pinned options a) "axis") = Some a.
Proof. rewrite prop_pinned_axis. apply singleAxis_axisName. Qed.

(** ** The range of the coordinates of a hash *)

Section RangeOfHash.

Variable c : Container.
Hypothesis max_horizontal : 0 <= maxPosition c Horizontal.
Hypothesis max_vertical : 0 <= maxPosition c Vertical.
Variable queueWrapper : queue.QueueWrapper.



End RangeOfHash.




(** What the queue is taken to be in merge mode is needed: an undefined
    position inherits the last queued target as it is. With a vertical
    maximum of 100 and the queued target [{vertical: 5000}], which is not a
    slot of [ResolvedCoordinates] for that container, the call returns 5000
    for the vertical axis. *)
Lemma inherited_target_is_not_clamped :
  normalizePosition (Primitive VUndefined) Sample.shortContainer
    (Sample.queued [Sample.onlyVertical 5000])
    (Sample.withFlag "merge" (Sample.axisOptions VERTICAL))
  = Ok {| horizontal := IGNORE_AXIS; vertical := ofZ 5000 |}
  /\ ~ resolvedSnapshot Sample.shortContainer
        (snapshot (Sample.queued [Sample.onlyVertical 5000])
           (Sample.withFlag "merge" (Sample.axisOptions VERTICAL))).
Proof.
  split; [reflexivity|].
  intros H.
  destruct (H {| queue.position := Some (Sample.onlyVertical 5000) |} Vertical (ofZ 5000))
    as [Hignore | (z & Hz & Hrange)].
  - now left.
  - reflexivity.
  - discriminate Hignore.
  - injection Hz as <-. cbn in Hrange. lia.
Qed.

Lemma resolveUnits_error (s : string) (c : Container) (a : Axis) (e : error) :
  resolveUnits s c a = Err e ->
  e = AxisKeywordMismatch /\ In s (keywords (otherAxis a)).
Proof.
  unfold resolveUnits.
  destruct (_ =? _)%string; [discriminate|].
  destruct (_ =? _)%string; [discriminate|].
  destruct a; cbn [otherAxis keywords];
    cbn [strict_eq];
    repeat (match goal with
            | |- context [String.eqb s ?w] =>
                destruct (String.eqb_spec s w); [subst|]
            end; cbn [strict_eq orb String.eqb Ascii.eqb Bool.eqb]);
    intros H; try discriminate; injection H as <-; cbn; tauto.
Qed.

(** What each error of a single-axis resolution tells about the call. *)
Lemma normalizePositionForAxis_error (position : value) (c : Container)
    (options : gmap string value) (queueWrapper : queue.QueueWrapper) (e : error) :
  normalizePositionForAxis position c options queueWrapper = Err e ->
  match e with
  | AmbiguousAxis => singleAxis (prop options "axis") = None
  | AxisKeywordMismatch =>
      exists (s : string) (a : Axis),
        position = VStr s /\ singleAxis (prop options "axis") = Some a
  | InvalidPositionValue => exists a : Axis, singleAxis (prop options "axis") = Some a
  | InvalidAxisName => False
  end.
Proof.
  unfold normalizePositionForAxis.
  destruct (singleAxis (prop options "axis")) as [a|]; [|now intros [= <-]].
  intros H. apply bind_Err_inv in H as [H | ([[p sign] base] & _ & H)].
  - destruct position as [| | | |s|]; try discriminate.
    destruct (relativePrefix _ _ _ _ _) as [[rest sign] base].
    apply bind_Err_inv in H as [H | (p & _ & H)]; [|discriminate].
    apply resolveUnits_error in H as [-> _]. eauto.
  - apply bind_Err_inv in H as [H | (x & _ & H)]; [|discriminate].
    destruct (lib.isNumber p); [discriminate|].
    destruct (isUndefinedPositionValue p); [discriminate|].
    injection H as <-. eauto.
Qed.

(** The slot of the pinned axis in a hash raises what the single-axis
    resolution raises, and that is never the ambiguous axis error. *)
Lemma pinned_error (position : value) (c : Container) (options : gmap string value)
    (queueWrapper : queue.QueueWrapper) (a : Axis) (e : error) :
  normalizePositionForAxis position c (pinned options a) queueWrapper = Err e ->
  e = AxisKeywordMismatch \/ e = InvalidPositionValue.
Proof.
  intros H. apply normalizePositionForAxis_error in H.
  destruct e; try tauto.
  now rewrite singleAxis_pinned in H.
Qed.

(** The ambiguous axis error is raised exactly for a position that is not a
    hash when the axis option is neither "horizontal" nor "vertical"; a
    hash never raises it, whatever the axis option, and no call raises the
    invalid axis name error. *)
Theorem ambiguous_axis_exactly_for_primitives :
  forall (position : Position) (c : Container) (scrollable : queue.Scrollable)
         (options : gmap string value),
    (normalizePosition position c scrollable options = Err AmbiguousAxis
     <-> (exists v : value, position = Primitive v)
         /\ singleAxis (prop options "axis") = None)
    /\ normalizePosition position c scrollable options <> Err InvalidAxisName.
Proof.
  intros position c scrollable options.
  assert (Hhash : forall (h : list (string * value)) (e : error),
             normalizePosition (Hash h) c scrollable options = Err e ->
             e = AxisKeywordMismatch \/ e = InvalidPositionValue).
  { intros h e H. cbn [normalizePosition] in H. unfold normalizePositionForHash in H.
    destruct (normalizeAxisProperty_Ok h) as [pos Hpos]. rewrite Hpos in H.
    cbn [mbind result_bind] in H.
    apply bind_Err_inv in H as [H | (x & _ & H)].
    - destruct (strict_eq _ _); [discriminate|].
      apply bind_Err_inv in H as [H | (n & _ & H)]; [|discriminate].
      exact (pinned_error _ _ _ _ Horizontal _ H).
    - apply bind_Err_inv in H as [H | (y & _ & H)]; [|discriminate].
      destruct (strict_eq _ _); [discriminate|].
      apply bind_Err_inv in H as [H | (n & _ & H)]; [|discriminate].
      exact (pinned_error _ _ _ _ Vertical _ H). }
  split; [split|].
  - intros H. destruct position as [v|h].
    + split; [eauto|]. now apply normalizePositionForAxis_error in H.
    + destruct (Hhash h _ H); discriminate.
  - intros [[v ->] Haxis]. cbn [normalizePosition].
    unfold normalizePositionForAxis. now rewrite Haxis.
  - intros H. destruct position as [v|h].
    + now apply normalizePositionForAxis_error in H.
    + destruct (Hhash h _ H); discriminate.
Qed.

Lemma ambiguous_axis_example :
  normalizePosition (Primitive (VNum (ofZ 5))) Sample.container (Sample.queued [])
    (Sample.axisOptions BOTH_AXES) = Err AmbiguousAxis
  /\ normalizePosition (Hash [("x", VNum (ofZ 5))]) Sample.container (Sample.queued [])
       (Sample.axisOptions BOTH_AXES) <> Err AmbiguousAxis.
Proof.
  split.
  - apply (ambiguous_axis_exactly_for_primitives (Primitive (VNum (ofZ 5)))
             Sample.container (Sample.queued []) (Sample.axisOptions BOTH_AXES)).
    split; [now exists (VNum (ofZ 5)) | reflexivity].
  - intros H.
    apply (ambiguous_axis_exactly_for_primitives (Hash [("x", VNum (ofZ 5))])
             Sample.container (Sample.queued []) (Sample.axisOptions BOTH_AXES)) in H.
    destruct H as [[v Hv] _]. discriminate Hv.
Defined.

(** ** Values that leave an axis alone *)

(** Each of [undefined], [null], [false] and the empty string, resolved on
    a single axis, raises no error and moves nothing: the slot of the axis
    is IgnoreAxis, or in merge mode the last queued target of the axis. *)
Theorem undefined_like_values_are_ignored_or_inherited :
  forall (v : value) (c : Container) (scrollable : queue.Scrollable)
         (options : gmap string value) (a : Axis),
    prop options "axis" = VStr (axisName a) ->
    In v [VUndefined; VNull; VBool false; VStr ""] ->
    normalizePosition (Primitive v) c scrollable options
    = Ok (coordinates a
            match getScrollMode options with
            | MODE_MERGE => lastQueuedTarget (snapshot scrollable options) a
            | _ => IGNORE_AXIS
            end
            IGNORE_AXIS).
Proof.
  intros v c scrollable options a Haxis Hv.
  unfold normalizePosition, normalizePositionForAxis, snapshot.
  rewrite Haxis, singleAxis_axisName, <- getLastPositionInfo_fold.
  destruct Hv as [<- | [<- | [<- | [<- | []]]]]; try reflexivity.
  now destruct a.
Qed.

Lemma undefined_like_example :
  normalizePosition (Primitive VNull) Sample.container
    (Sample.queued [Sample.onlyVertical 300])
    (Sample.withFlag "merge" (Sample.axisOptions VERTICAL))
  = Ok {| horizontal := IGNORE_AXIS; vertical := ofZ 300 |}.
Proof.
  apply (undefined_like_values_are_ignored_or_inherited VNull Sample.container
           (Sample.queued [Sample.onlyVertical 300])
           (Sample.withFlag "merge" (Sample.axisOptions VERTICAL)) Vertical).
  - reflexivity.
  - cbn. tauto.
Defined.

(** ** A hash is resolved axis by axis *)

Lemma singleAxis_None (axis : value) :
  singleAxis axis = None ->
  strict_eq axis (VStr HORIZONTAL) = false /\ strict_eq axis (VStr VERTICAL) = false.
Proof.
  unfold singleAxis.
  destruct (strict_eq axis (VStr HORIZONTAL)); [discriminate|].
  destruct (strict_eq axis (VStr VERTICAL)); [discriminate | auto].
Qed.

(** When the axis option names no single axis (as "both" does), a hash
    resolves to the horizontal slot of its horizontal entry resolved alone on
    the horizontal axis, and the vertical slot of its vertical entry resolved
    alone on the vertical axis, with the other options unchanged; an error of
    the horizontal entry comes first. *)
Theorem hash_is_resolved_axis_by_axis :
  forall (h : list (string * value)) (c : Container) (scrollable : queue.Scrollable)
         (options : gmap string value),
    singleAxis (prop options "axis") = None ->
    normalizePosition (Hash h) c scrollable options
    = (x ← normalizePosition (Primitive (entry h Horizontal)) c scrollable
            (pinned options Horizontal);
       y ← normalizePosition (Primitive (entry h Vertical)) c scrollable
            (pinned options Vertical);
       Ok {| horizontal := horizontal x; vertical := vertical y |}).
Proof.
  intros h c scrollable options Haxis.
  destruct (singleAxis_None _ Haxis) as [Hh Hv].
  cbn [normalizePosition]. rewrite !prop_pinned_other by discriminate.
  unfold normalizePositionForHash, entry, property.
  destruct (normalizeAxisProperty_Ok h) as [pos ->].
  cbn [mbind result_bind]. rewrite Hh, Hv.
  change (extend [options; {["axis" := VStr HORIZONTAL]}])
    with (pinned options Horizontal).
  change (extend [options; {["axis" := VStr VERTICAL]}])
    with (pinned options Vertical).
  cbn [axisName].
  destruct (normalizePositionForAxis (prop pos HORIZONTAL) _ _ _); [|reflexivity].
  cbn [mbind result_bind].
  now destruct (normalizePositionForAxis (prop pos VERTICAL) _ _ _).
Qed.

Lemma hash_axis_by_axis_example :
  normalizePosition (Hash [("x", VStr "50%"); ("y", VNum (ofZ 200))]) Sample.container
    (Sample.queued []) (Sample.axisOptions BOTH_AXES)
  = (x ← normalizePosition (Primitive (VStr "50%")) Sample.container (Sample.queued [])
          (pinned (Sample.axisOptions BOTH_AXES) Horizontal);
     y ← normalizePosition (Primitive (VNum (ofZ 200))) Sample.container (Sample.queued [])
          (pinned (Sample.axisOptions BOTH_AXES) Vertical);
     Ok {| horizontal := horizontal x; vertical := vertical y |}).
Proof.
  apply (hash_is_resolved_axis_by_axis [("x", VStr "50%"); ("y", VNum (ofZ 200))]
           Sample.container (Sample.queued []) (Sample.axisOptions BOTH_AXES)).
  reflexivity.
Defined.

(** ** What a resolution does not depend on *)

Lemma normalizePositionForAxis_replace (position : value) (c : Container)
    (options : gmap string value) (q1 q2 : queue.QueueWrapper) :
  getScrollMode options = MODE_REPLACE ->
  normalizePositionForAxis position c options q1
  = normalizePositionForAxis position c options q2.
Proof.
  intros Hmode. unfold normalizePositionForAxis. rewrite Hmode.
  destruct (singleAxis (prop options "axis")) as [a|]; reflexivity.
Qed.

(** With neither the [append] nor the [merge] option set, the queue is never
    consulted: the same call gives the same result for every content of the
    queues. *)
Theorem replace_mode_ignores_the_queue :
  forall (position : Position) (c : Container) (s1 s2 : queue.Scrollable)
         (options : gmap string value),
    truthy (prop options "append") = false ->
    truthy (prop options "merge") = false ->
    normalizePosition position c s1 options = normalizePosition position c s2 options.
Proof.
  intros position c s1 s2 options Happend Hmerge.
  assert (Hmode : getScrollMode options = MODE_REPLACE)
    by (unfold getScrollMode; now rewrite Happend, Hmerge).
  destruct position as [v|h]; cbn [normalizePosition].
  - now apply normalizePositionForAxis_replace.
  - unfold normalizePositionForHash. rewrite Hmerge.
    change (extend [options; {["axis" := VStr HORIZONTAL]}])
      with (pinned options Horizontal).
    change (extend [options; {["axis" := VStr VERTICAL]}])
      with (pinned options Vertical).
    destruct (normalizeAxisProperty h) as [pos|e]; [|reflexivity].
    cbn [mbind result_bind].
    rewrite (normalizePositionForAxis_replace (prop pos HORIZONTAL) c
               (pinned options Horizontal)
               (queue.newQueueWrapper s1 (prop options "queue"))
               (queue.newQueueWrapper s2 (prop options "queue")))
      by now rewrite getScrollMode_pinned.
    rewrite (normalizePositionForAxis_replace (prop pos VERTICAL) c
               (pinned options Vertical)
               (queue.newQueueWrapper s1 (prop options "queue"))
               (queue.newQueueWrapper s2 (prop options "queue")))
      by now rewrite getScrollMode_pinned.
    reflexivity.
Qed.

Lemma replace_mode_example :
  normalizePosition (Primitive (VStr "+=50")) Sample.container
    (Sample.queued [Sample.onlyVertical 300]) (Sample.axisOptions VERTICAL)
  = normalizePosition (Primitive (VStr "+=50")) Sample.container
      (Sample.queued []) (Sample.axisOptions VERTICAL).
Proof.
  apply (replace_mode_ignores_the_queue (Primitive (VStr "+=50")) Sample.container
           (Sample.queued [Sample.onlyVertical 300]) (Sample.queued [])
           (Sample.axisOptions VERTICAL)); reflexivity.
Defined.

(** ** Absolute position strings *)

Lemma relative_mark_prefix (c1 c2 : ascii) (s : string) :
  (slice 0 (Some 2) s =? String c1 (String c2 ""))%string
  = String.prefix (String c1 (String c2 "")) s.
Proof.
  destruct s as [|d1 [|d2 s]].
  - reflexivity.
  - change (slice 0 (Some 2) (String d1 "")) with (String d1 "").
    cbn. destruct (Ascii.eqb_spec d1 c1), (ascii_dec c1 d1).
    all: try congruence.
  - rewrite slice_first_two. cbn.
    destruct (Ascii.eqb_spec d1 c1), (ascii_dec c1 d1).
    all: try congruence.
    destruct (Ascii.eqb_spec d2 c2), (ascii_dec c2 d2).
    all: try congruence.
    all: now destruct s.
Qed.

Lemma relativePrefix_absolute (s : string) (c : Container)
    (queueWrapper : queue.QueueWrapper) (a : Axis) (mode : ScrollMode) :
  isRelative s = false ->
  relativePrefix s c queueWrapper a mode = (s, ofZ 1, ofZ 0).
Proof.
  unfold isRelative, relativePrefix. intros H.
  now rewrite !relative_mark_prefix, H.
Qed.

Lemma getScrollMaximum_sameRange (c c' : Container) (a : Axis) :
  sameRange c c' -> lib.getScrollMaximum c a = lib.getScrollMaximum c' a.
Proof. intros [Hh Hv]. destruct a; cbn; congruence. Qed.

Lemma resolveUnits_sameRange (s : string) (c c' : Container) (a : Axis) :
  sameRange c c' -> resolveUnits s c a = resolveUnits s c' a.
Proof.
  intros H. unfold resolveUnits.
  now rewrite !(getScrollMaximum_sameRange c c' _ H).
Qed.

(** A position that is not a relative string resolves without a look at
    the live scroll position: two containers with the same scroll range give
    the same result, wherever they are scrolled to. *)
Theorem absolute_position_ignores_the_live_position :
  forall (v : value) (c c' : Container) (scrollable : queue.Scrollable)
         (options : gmap string value),
    sameRange c c' ->
    (forall s : string, v = VStr s -> isRelative (toLowerCase s) = false) ->
    normalizePosition (Primitive v) c scrollable options
    = normalizePosition (Primitive v) c' scrollable options.
Proof.
  intros v c c' scrollable options Hrange Hv.
  cbn [normalizePosition]. unfold normalizePositionForAxis, limitToScrollRange.
  destruct (singleAxis (prop options "axis")) as [a|]; [|reflexivity].
  rewrite (getScrollMaximum_sameRange c c' a Hrange).
  destruct v as [| | | |s|]; try reflexivity.
  rewrite !relativePrefix_absolute by now apply Hv.
  now rewrite (resolveUnits_sameRange _ c c' a Hrange).
Qed.

Lemma absolute_position_example :
  normalizePosition (Primitive (VStr "75%")) Sample.container (Sample.queued [])
    (Sample.axisOptions VERTICAL)
  = normalizePosition (Primitive (VStr "75%"))
      {| scrollLeft := 0; scrollTop := 999;
         scrollMaxHorizontal := 500; scrollMaxVertical := 1000 |}
      (Sample.queued []) (Sample.axisOptions VERTICAL).
Proof.
  apply (absolute_position_ignores_the_live_position (VStr "75%") Sample.container
           {| scrollLeft := 0; scrollTop := 999;
              scrollMaxHorizontal := 500; scrollMaxVertical := 1000 |}
           (Sample.queued []) (Sample.axisOptions VERTICAL)).
  - split; reflexivity.
  - intros s [= <-]. reflexivity.
Defined.

(** The first keyword of an axis ("left", "top") is position 0 and the
    second ("right", "bottom") the maximum of the axis, in any letter case. *)
Theorem keywords_resolve_to_the_edges :
  forall (word : string) (c : Container) (scrollable : queue.Scrollable)
         (options : gmap string value) (a : Axis),
    prop options "axis" = VStr (axisName a) ->
    0 <= maxPosition c a ->
    (toLowerCase word = match a with Horizontal => "left" | Vertical => "top" end ->
     normalizePosition (Primitive (VStr word)) c scrollable options
     = Ok (coordinates a (ofZ 0) IGNORE_AXIS))
    /\ (toLowerCase word = match a with Horizontal => "right" | Vertical => "bottom" end ->
        normalizePosition (Primitive (VStr word)) c scrollable options
        = Ok (coordinates a (ofZ (maxPosition c a)) IGNORE_AXIS)).
Proof.
  intros word c scrollable options a Haxis Hmax. split; intros Hword.
  - rewrite (normalizePosition_string c scrollable options a Haxis word
               (toLowerCase word) (ofZ 1) (ofZ 0) (ofZ 0)).
    + cbn [ofZ add mul Math_round]. rewrite limitToScrollRange_ofZ.
      change (round (inject_Z 0 + inject_Z 1 * inject_Z 0)) with 0.
      unfold clamp. do 3 f_equal. lia.
    + rewrite Hword. now destruct a.
    + rewrite Hword. now destruct a.
    + reflexivity.
  - rewrite (normalizePosition_string c scrollable options a Haxis word
               (toLowerCase word) (ofZ 1) (ofZ 0) (ofZ (maxPosition c a))).
    + cbn [ofZ add mul Math_round]. rewrite limitToScrollRange_ofZ.
      rewrite (round_comp _ (inject_Z (maxPosition c a))) by ring.
      rewrite round_inject_Z. unfold clamp. do 3 f_equal. lia.
    + rewrite Hword. now destruct a.
    + rewrite Hword. now destruct a.
    + reflexivity.
Qed.

Lemma keyword_edges_example :
  normalizePosition (Primitive (VStr "Left")) Sample.container (Sample.queued [])
    (Sample.axisOptions HORIZONTAL)
  = Ok {| horizontal := ofZ 0; vertical := IGNORE_AXIS |}
  /\ normalizePosition (Primitive (VStr "BOTTOM")) Sample.container (Sample.queued [])
       (Sample.axisOptions VERTICAL)
     = Ok {| horizontal := IGNORE_AXIS; vertical := ofZ 1000 |}.
Proof.
  split.
  - apply (proj1 (keywords_resolve_to_the_edges "Left" Sample.container
                    (Sample.queued []) (Sample.axisOptions HORIZONTAL) Horizontal
                    eq_refl ltac:(vm_compute; discriminate))).
    reflexivity.
  - apply (proj2 (keywords_resolve_to_the_edges "BOTTOM" Sample.container
                    (Sample.queued []) (Sample.axisOptions VERTICAL) Vertical
                    eq_refl ltac:(vm_compute; discriminate))).
    reflexivity.
Defined.

(** ** Units and letter case *)

Lemma append_cons (ch : ascii) (t u : string) :
  String ch t +:+ u = String ch (t +:+ u).
Proof. reflexivity. Qed.

Lemma length_append (t u : string) :
  String.length (t +:+ u) = (String.length t + String.length u)%nat.
Proof.
  induction t as [|ch t IH]; [reflexivity|].
  rewrite append_cons. cbn [String.length]. now rewrite IH.
Qed.

Lemma substring_append_left (t u : string) :
  String.substring 0 (String.length t) (t +:+ u) = t.
Proof.
  induction t as [|ch t IH].
  - apply substring_none.
  - rewrite append_cons. cbn [String.length String.substring]. now rewrite IH.
Qed.

Lemma substring_append_right (t u : string) :
  String.substring (String.length t) (String.length u) (t +:+ u) = u.
Proof.
  induction t as [|ch t IH].
  - apply substring_whole.
  - rewrite append_cons. cbn [String.length String.substring]. exact IH.
Qed.

(** The last [n] characters, and what comes before them. *)
Lemma slice_suffix (t u : string) :
  u <> "" ->
  slice (- Z.of_nat (String.length u)) None (t +:+ u) = u
  /\ slice 0 (Some (- Z.of_nat (String.length u))) (t +:+ u) = t.
Proof.
  intros Hu.
  assert (Hlen : (0 < String.length u)%nat) by (destruct u; [congruence | cbn; lia]).
  unfold slice, sliceIndex. rewrite length_append.
  destruct (Z.ltb_spec (- Z.of_nat (String.length u)) 0) as [_ | ?]; [|lia].
  change (0 <? 0) with false. cbv beta iota.
  split.
  - replace (Z.to_nat _) with (String.length t) by lia.
    replace (Z.to_nat _) with (String.length u) by lia.
    apply substring_append_right.
  - replace (Z.to_nat (Z.min 0 _)) with 0%nat by lia.
    replace (Z.to_nat _) with (String.length t) by lia.
    apply substring_append_left.
Qed.

Lemma toLowerCase_append (t u : string) :
  toLowerCase (t +:+ u) = toLowerCase t +:+ toLowerCase u.
Proof.
  induction t as [|ch t IH]; [reflexivity|].
  rewrite append_cons. cbn [toLowerCase]. now rewrite IH.
Qed.

Lemma lowerChar_idempotent (ch : ascii) : lowerChar (lowerChar ch) = lowerChar ch.
Proof. destruct ch as [[] [] [] [] [] [] [] []]; reflexivity. Qed.

Lemma toLowerCase_idempotent (s : string) :
  toLowerCase (toLowerCase s) = toLowerCase s.
Proof.
  induction s as [|ch s IH]; [reflexivity|].
  cbn [toLowerCase]. now rewrite lowerChar_idempotent, IH.
Qed.

(** A string that is not empty ends with a last character. *)
Lemma string_last (s : string) :
  s <> "" -> exists (t : string) (ch : ascii), s = t +:+ String ch "".
Proof.
  induction s as [|c1 s IH]; [congruence|]. intros _.
  destruct s as [|c2 s].
  - now exists "", c1.
  - destruct IH as (t & ch & Ht); [discriminate|].
    exists (String c1 t), ch. rewrite append_cons. now rewrite Ht.
Qed.

Lemma append_assoc (t u w : string) : (t +:+ u) +:+ w = t +:+ (u +:+ w).
Proof.
  induction t as [|ch t IH]; [reflexivity|].
  rewrite !append_cons. now rewrite IH.
Qed.

Lemma resolveUnits_px (t : string) (c : Container) (a : Axis) :
  resolveUnits (t +:+ "px") c a = Ok (VNum (parseFloat t)).
Proof.
  unfold resolveUnits.
  destruct (slice_suffix t "px") as [Hlast Hfirst]; [discriminate|].
  change (- Z.of_nat (String.length "px")) with (-2) in Hlast, Hfirst.
  now rewrite Hlast, Hfirst.
Qed.

Lemma resolveUnits_percent (t : string) (c : Container) (a : Axis) :
  resolveUnits (t +:+ "%") c a
  = Ok (VNum (div (mul (parseFloat t) (lib.getScrollMaximum c a)) (ofZ 100))).
Proof.
  unfold resolveUnits.
  assert (Hpx : (slice (-2) None (t +:+ "%") =? "px")%string = false).
  { destruct t as [|c1 t]; [reflexivity|].
    destruct (string_last (String c1 t)) as (t0 & ch & ->); [discriminate|].
    rewrite append_assoc.
    destruct (slice_suffix t0 (String ch "%")) as [Hlast _]; [discriminate|].
    change (- Z.of_nat (String.length (String ch "%"))) with (-2) in Hlast.
    change (String ch "" +:+ "%") with (String ch "%").
    rewrite Hlast. cbn. now destruct (Ascii.eqb ch "p"). }
  rewrite Hpx.
  destruct (slice_suffix t "%") as [Hlast Hfirst]; [discriminate|].
  change (- Z.of_nat (String.length "%")) with (-1) in Hlast, Hfirst.
  now rewrite Hlast, Hfirst.
Qed.

Section Units.

Variable c : Container.
Variable scrollable : queue.Scrollable.
Variable options : gmap string value.

(** An absolute string with a unit suffix resolves as the number it stands
    for. *)
Lemma normalizePosition_unit (t unit : string) (n : number) :
  isRelative (toLowerCase (t +:+ unit)) = false ->
  (forall a : Axis,
      singleAxis (prop options "axis") = Some a ->
      resolveUnits (toLowerCase (t +:+ unit)) c a = Ok (VNum n)) ->
  normalizePosition (Primitive (VStr (t +:+ unit))) c scrollable options
  = normalizePosition (Primitive (VNum n)) c scrollable options.
Proof using Type.
  intros Habsolute Hunits.
  cbn [normalizePosition]. unfold normalizePositionForAxis.
  destruct (singleAxis (prop options "axis")) as [a|]; [|reflexivity].
  rewrite relativePrefix_absolute by assumption.
  now rewrite (Hunits a eq_refl).
Qed.

End Units.

(** A string that ends in "px" and is not relative resolves exactly as the
    number [parseFloat] reads from what precedes the suffix; if that is not
    a number (NaN), both raise the invalid position error. *)
Theorem px_string_is_its_number :
  forall (t : string) (c : Container) (scrollable : queue.Scrollable)
         (options : gmap string value),
    isRelative (toLowerCase (t +:+ "px")) = false ->
    normalizePosition (Primitive (VStr (t +:+ "px"))) c scrollable options
    = normalizePosition (Primitive (VNum (parseFloat (toLowerCase t)))) c scrollable options.
Proof.
  intros t c scrollable options Habsolute.
  apply normalizePosition_unit; [assumption|].
  intros a _. rewrite toLowerCase_append. apply resolveUnits_px.
Qed.

Lemma px_string_example :
  normalizePosition (Primitive (VStr "12.5px")) Sample.container (Sample.queued [])
    (Sample.axisOptions VERTICAL)
  = normalizePosition (Primitive (VNum (parseFloat "12.5"))) Sample.container
      (Sample.queued []) (Sample.axisOptions VERTICAL).
Proof.
  apply (px_string_is_its_number "12.5" Sample.container (Sample.queued [])
           (Sample.axisOptions VERTICAL)).
  reflexivity.
Defined.

(** A string that ends in "%" and is not relative resolves exactly as the
    number [p * max / 100], where [p] is what [parseFloat] reads from what
    precedes the sign and [max] the maximum of the axis. *)
Theorem percent_string_is_its_share_of_the_maximum :
  forall (t : string) (c : Container) (scrollable : queue.Scrollable)
         (options : gmap string value) (a : Axis),
    prop options "axis" = VStr (axisName a) ->
    isRelative (toLowerCase (t +:+ "%")) = false ->
    normalizePosition (Primitive (VStr (t +:+ "%"))) c scrollable options
    = normalizePosition
        (Primitive (VNum (div (mul (parseFloat (toLowerCase t)) (ofZ (maxPosition c a)))
                              (ofZ 100))))
        c scrollable options.
Proof.
  intros t c scrollable options a Haxis Habsolute.
  apply normalizePosition_unit; [assumption|].
  intros a'. rewrite Haxis, singleAxis_axisName. intros [= <-].
  rewrite toLowerCase_append, <- getScrollMaximum_ofZ. apply resolveUnits_percent.
Qed.

Lemma percent_string_example :
  normalizePosition (Primitive (VStr "25%")) Sample.container (Sample.queued [])
    (Sample.axisOptions VERTICAL)
  = normalizePosition
      (Primitive (VNum (div (mul (parseFloat "25") (ofZ 1000)) (ofZ 100))))
      Sample.container (Sample.queued []) (Sample.axisOptions VERTICAL).
Proof.
  exact (percent_string_is_its_share_of_the_maximum "25" Sample.container
           (Sample.queued []) (Sample.axisOptions VERTICAL) Vertical eq_refl eq_refl).
Defined.

(** Position strings are read without regard to letter case, by
    [normalizePosition] as by [normalizeOptions]. *)
Theorem position_strings_are_case_insensitive :
  forall (s : string) (c : Container) (scrollable : queue.Scrollable)
         (options : gmap string value) (raw : option (list (string * value))),
    normalizePosition (Primitive (VStr s)) c scrollable options
    = normalizePosition (Primitive (VStr (toLowerCase s))) c scrollable options
    /\ normalizeOptions raw (Primitive (VStr s))
       = normalizeOptions raw (Primitive (VStr (toLowerCase s))).
Proof.
  intros s c scrollable options raw. split.
  - cbn [normalizePosition]. unfold normalizePositionForAxis.
    now rewrite toLowerCase_idempotent.
  - unfold normalizeOptions. now rewrite toLowerCase_idempotent.
Qed.

(** ** Values that are rejected *)

(** On a single axis, [true], NaN and every value that is neither a
    primitive nor a plain object raise the invalid position error, and so does
    an absolute px string whose number part [parseFloat] cannot read: none of
    them is silently ignored. *)
Theorem unusable_values_are_rejected :
  forall (c : Container) (scrollable : queue.Scrollable)
         (options : gmap string value) (a : Axis),
    prop options "axis" = VStr (axisName a) ->
    (forall v : value, In v [VBool true; VNum NaN; VObject] ->
       normalizePosition (Primitive v) c scrollable options = Err InvalidPositionValue)
    /\ (forall t : string,
          isRelative (toLowerCase (t +:+ "px")) = false ->
          parseFloat (toLowerCase t) = NaN ->
          normalizePosition (Primitive (VStr (t +:+ "px"))) c scrollable options
          = Err InvalidPositionValue).
Proof.
  intros c scrollable options a Haxis.
  assert (Hvalues : forall v : value, In v [VBool true; VNum NaN; VObject] ->
            normalizePosition (Primitive v) c scrollable options
            = Err InvalidPositionValue).
  { intros v Hv. cbn [normalizePosition]. unfold normalizePositionForAxis.
    rewrite Haxis, singleAxis_axisName.
    destruct Hv as [<- | [<- | [<- | []]]]; reflexivity. }
  split; [exact Hvalues|].
  intros t Habsolute Hnan.
  rewrite (normalizePosition_unit c scrollable options t "px" (parseFloat (toLowerCase t)))
    by (try assumption; intros a' _; rewrite toLowerCase_append; apply resolveUnits_px).
  rewrite Hnan. apply Hvalues. cbn. tauto.
Qed.

Lemma unusable_values_example :
  normalizePosition (Primitive (VBool true)) Sample.container (Sample.queued [])
    (Sample.axisOptions VERTICAL) = Err InvalidPositionValue
  /\ normalizePosition (Primitive (VStr "widepx")) Sample.container (Sample.queued [])
       (Sample.axisOptions VERTICAL) = Err InvalidPositionValue.
Proof.
  destruct (unusable_values_are_rejected Sample.container (Sample.queued [])
              (Sample.axisOptions VERTICAL) Vertical eq_refl) as [Hvalues Hpx].
  split.
  - apply Hvalues. cbn. tauto.
  - apply (Hpx "wide"); reflexivity.
Defined.

(** ** Resolving what has been resolved *)

Lemma normalizePositionForAxis_shape (position : value) (c : Container)
    (options : gmap string value) (queueWrapper : queue.QueueWrapper)
    (a : Axis) (r : Coordinates) :
  prop options "axis" = VStr (axisName a) ->
  normalizePositionForAxis position c options queueWrapper = Ok r ->
  r = coordinates a (coordinate a r) IGNORE_AXIS.
Proof.
  intros Haxis. unfold normalizePositionForAxis.
  rewrite Haxis, singleAxis_axisName. intros H.
  apply bind_Ok_inv in H as ([[p sign] base] & _ & H).
  apply bind_Ok_inv in H as (x & _ & H).
  injection H as <-. now destruct a.
Qed.

(** Take a container whose maxima are not negative and, in append and
    merge mode, a queue whose targets are slots of [ResolvedCoordinates] for
    it. Then a coordinate that a single-axis resolution returned for its
    axis, other than IgnoreAxis, resolves to itself when it is passed in
    again as a number; IgnoreAxis passed in as a number does not: it is the
    number -999 and resolves to 0. *)
Theorem resolved_coordinate_is_a_fixed_point :
  forall (v : value) (c : Container) (scrollable : queue.Scrollable)
         (options : gmap string value) (a : Axis) (r : Coordinates),
    0 <= maxPosition c Horizontal ->
    0 <= maxPosition c Vertical ->
    (getScrollMode options <> MODE_REPLACE ->
     resolvedSnapshot c (snapshot scrollable options)) ->
    prop options "axis" = VStr (axisName a) ->
    normalizePosition (Primitive v) c scrollable options = Ok r ->
    (coordinate a r <> IGNORE_AXIS ->
     normalizePosition (Primitive (VNum (coordinate a r))) c scrollable options = Ok r)
    /\ normalizePosition (Primitive (VNum IGNORE_AXIS)) c scrollable options
       = Ok (coordinates a (ofZ 0) IGNORE_AXIS).
Proof.
  intros v c scrollable options a r Hh Hv Hsnapshot Haxis Hr.
  assert (Hmax : 0 <= maxPosition c a) by now destruct a.
  split.
  - intros Hnot. cbn [normalizePosition] in Hr.
    pose proof (normalizePositionForAxis_valid c Hh Hv _ _ _ _ Hsnapshot Hr) as [Hx Hy].
    pose proof (normalizePositionForAxis_shape _ _ _ _ a r Haxis Hr) as Hshape.
    assert (Hslot : validSlot c a (coordinate a r)) by now destruct a.
    destruct Hslot as [Hignore | (z & Hz & Hrange)]; [contradiction|].
    rewrite Hshape at 2. rewrite Hz. unfold ofZ at 1.
    rewrite (normalizePosition_finite c scrollable options a Haxis).
    rewrite round_inject_Z. unfold clamp. do 3 f_equal. lia.
  - unfold IGNORE_AXIS at 1, ofZ at 1.
    rewrite (normalizePosition_finite c scrollable options a Haxis).
    rewrite round_inject_Z. unfold clamp. do 3 f_equal. lia.
Qed.

Lemma fixed_point_example :
  (ofZ 300 <> IGNORE_AXIS ->
   normalizePosition (Primitive (VNum (ofZ 300))) Sample.container
     (Sample.queued [Sample.onlyVertical 300])
     (Sample.withFlag "merge" (Sample.axisOptions VERTICAL))
   = Ok {| horizontal := IGNORE_AXIS; vertical := ofZ 300 |})
  /\ normalizePosition (Primitive (VNum IGNORE_AXIS)) Sample.container
       (Sample.queued [Sample.onlyVertical 300])
       (Sample.withFlag "merge" (Sample.axisOptions VERTICAL))
     = Ok {| horizontal := IGNORE_AXIS; vertical := ofZ 0 |}.
Proof.
  apply (resolved_coordinate_is_a_fixed_point VNull Sample.container
           (Sample.queued [Sample.onlyVertical 300])
           (Sample.withFlag "merge" (Sample.axisOptions VERTICAL)) Vertical
           {| horizontal := IGNORE_AXIS; vertical := ofZ 300 |}).
  - vm_compute. discriminate.
  - vm_compute. discriminate.
  - intros _ info a n [<- | []] Hn.
    destruct a; cbn in Hn; [discriminate|].
    injection Hn as <-. right. exists 300. split; [reflexivity|].
    split; vm_compute; discriminate.
  - reflexivity.
  - reflexivity.
Defined.

(** ** Canonical names *)

Lemma isInArray_not_string (v : value) (names : list string) :
  (forall s : string, v <> VStr s) -> lib.isInArray v names = false.
Proof.
  intros Hv. unfold lib.isInArray.
  induction names as [|name names IH]; [reflexivity|].
  cbn [existsb]. rewrite IH.
  destruct v; try reflexivity. now destruct (Hv s).
Qed.

(** Whatever [normalizeAxisName] returns is one of the three canonical
    names, and a canonical name is returned as it is, so that the function is
    idempotent; only strings are accepted, and only in lower case. *)
Theorem normalizeAxisName_returns_canonical_names :
  forall (v : value) (name : string),
    normalizeAxisName v = Ok name ->
    In name ["vertical"; "horizontal"; "both"]
    /\ normalizeAxisName (VStr name) = Ok name
    /\ exists s : string, v = VStr s /\ toLowerCase s = s.
Proof.
  intros v name H.
  assert (Hcanonical : In name ["vertical"; "horizontal"; "both"] /\ exists s, v = VStr s /\ toLowerCase s = s).
  { destruct v as [| | | |s|];
      try (unfold normalizeAxisName in H;
           rewrite !isInArray_not_string in H by discriminate; discriminate).
    unfold normalizeAxisName in H.
    destruct (lib.isInArray (VStr s) altAxisNamesV) eqn:EV.
    { injection H as <-. apply isInArray_In in EV. split; [cbn; tauto|].
      exists s. split; [reflexivity|]. cbn in EV.
      repeat (destruct EV as [<- | EV]; [reflexivity|]). contradiction. }
    destruct (lib.isInArray (VStr s) altAxisNamesH) eqn:EH.
    { injection H as <-. apply isInArray_In in EH. split; [cbn; tauto|].
      exists s. split; [reflexivity|]. cbn in EH.
      repeat (destruct EH as [<- | EH]; [reflexivity|]). contradiction. }
    destruct (lib.isInArray (VStr s) altAxisNamesBoth) eqn:EB.
    { injection H as <-. apply isInArray_In in EB. split; [cbn; tauto|].
      exists s. split; [reflexivity|]. cbn in EB.
      repeat (destruct EB as [<- | EB]; [reflexivity|]). contradiction. }
    cbn [strict_eq] in H.
    destruct (String.eqb_spec s VERTICAL) as [-> | ?];
      [injection H as <-; split; [cbn; tauto | now exists VERTICAL]|].
    destruct (String.eqb_spec s HORIZONTAL) as [-> | ?];
      [injection H as <-; split; [cbn; tauto | now exists HORIZONTAL]|].
    destruct (String.eqb_spec s BOTH_AXES) as [-> | ?];
      [injection H as <-; split; [cbn; tauto | now exists BOTH_AXES]|].
    discriminate. }
  destruct Hcanonical as [Hin Hs]. split; [assumption|]. split; [|assumption].
  cbn in Hin. repeat (destruct Hin as [<- | Hin]; [reflexivity|]). contradiction.
Qed.

Lemma canonical_name_example :
  In "horizontal" ["vertical"; "horizontal"; "both"]
  /\ normalizeAxisName (VStr "horizontal") = Ok "horizontal"
  /\ exists s : string, VStr "x" = VStr s /\ toLowerCase s = s.
Proof.
  apply (normalizeAxisName_returns_canonical_names (VStr "x") "horizontal").
  reflexivity.
Defined.

(** ** Canonical property names *)

Lemma existsb_eqb_In (key : string) (names : list string) :
  existsb (String.eqb key) names = lib.isInArray (VStr key) names.
Proof. reflexivity. Qed.

Lemma normalizeAxisName_canonicalKey (key : string) :
  lib.isInArray (VStr key) altAxisNames = true ->
  normalizeAxisName (VStr key) = Ok (canonicalKey key).
Proof.
  intros H. apply isInArray_In in H. cbn in H.
  repeat (destruct H as [<- | H]; [reflexivity|]). contradiction.
Qed.

Lemma canonicalKey_other (key : string) :
  lib.isInArray (VStr key) altAxisNames = false -> canonicalKey key = key.
Proof.
  intros H. unfold canonicalKey. rewrite !existsb_eqb_In.
  unfold altAxisNames in H. unfold lib.isInArray in *.
  rewrite !existsb_app in H.
  apply orb_false_iff in H as [HV H]. apply orb_false_iff in H as [HH HB].
  change (existsb (fun name => strict_eq (VStr key) (VStr name)) ["v"; "y"; "top"])
    with (existsb (fun name => strict_eq (VStr key) (VStr name)) altAxisNamesV).
  change (existsb (fun name => strict_eq (VStr key) (VStr name)) ["h"; "x"; "left"])
    with (existsb (fun name => strict_eq (VStr key) (VStr name)) altAxisNamesH).
  change (existsb (fun name => strict_eq (VStr key) (VStr name))
            ["vh"; "hv"; "xy"; "yx"; "all"])
    with (existsb (fun name => strict_eq (VStr key) (VStr name)) altAxisNamesBoth).
  now rewrite HV, HH, HB.
Qed.

Lemma canonicalKey_not_alias (key : string) :
  lib.isInArray (VStr (canonicalKey key)) altAxisNames = false.
Proof.
  destruct (lib.isInArray (VStr key) altAxisNames) eqn:E.
  - apply isInArray_In in E. cbn in E.
    repeat (destruct E as [<- | E]; [reflexivity|]). contradiction.
  - now rewrite canonicalKey_other.
Qed.

Lemma canonicalKey_idempotent (key : string) :
  canonicalKey (canonicalKey key) = canonicalKey key.
Proof. apply canonicalKey_other, canonicalKey_not_alias. Qed.

Lemma normalizeAxisProperties_fold (props : list (string * value)) :
  forall normalized : gmap string value,
    normalizeAxisProperties props normalized
    = Ok (fold_left (fun m kv => <[canonicalKey kv.1 := kv.2]> m) props normalized).
Proof.
  induction props as [|[key v] props IH]; intros normalized;
    cbn [normalizeAxisProperties fold_left]; [reflexivity|].
  destruct (lib.isInArray (VStr key) altAxisNames) eqn:E.
  - rewrite (normalizeAxisName_canonicalKey key E). cbn [mbind result_bind]. apply IH.
  - rewrite IH. cbn [fst snd]. now rewrite (canonicalKey_other key E).
Qed.

Lemma fold_insert_list_to_map (l : list (string * value)) :
  forall m : gmap string value,
    fold_left (fun m kv => <[kv.1 := kv.2]> m) l m = list_to_map (rev l) ∪ m.
Proof.
  induction l as [|[k v] l IH]; intros m; cbn [fold_left rev].
  - cbn. now rewrite (left_id_L ∅ (∪)).
  - rewrite IH, list_to_map_app. cbn [list_to_map fst snd].
    rewrite <- (assoc_L (∪)). f_equal.
    change (list_to_map [(k, v)] : gmap string value) with (<[k := v]> (∅ : gmap string value)).
    rewrite insert_empty. now rewrite <- insert_union_singleton_l.
Qed.

Lemma fold_left_map {A B C : Type} (f : A -> C -> A) (g : B -> C) (l : list B) :
  forall a : A, fold_left (fun a b => f a (g b)) l a = fold_left f (map g l) a.
Proof. induction l as [|b l IH]; intros a; cbn; [reflexivity | apply IH]. Qed.

Lemma normalizeAxisProperty_list_to_map (h : list (string * value)) :
  normalizeAxisProperty h = Ok (list_to_map (canonicalProperties h)).
Proof.
  unfold normalizeAxisProperty, canonicalProperties.
  rewrite normalizeAxisProperties_fold.
  rewrite (fold_left_map (fun (m : gmap string value) kv => <[kv.1 := kv.2]> m)
             (fun kv : string * value => (canonicalKey kv.1, kv.2))).
  rewrite fold_insert_list_to_map. now rewrite (right_id_L ∅ (∪)).
Qed.

Lemma canonicalProperties_keys (h : list (string * value)) (key : string) (v : value) :
  In (key, v) (canonicalProperties h) -> canonicalKey key = key.
Proof.
  unfold canonicalProperties. rewrite <- in_rev, in_map_iff.
  intros ([k0 v0] & [= <- <-] & _). apply canonicalKey_idempotent.
Qed.

(** Canonicalizing the keys of a hash that has no property named [length]
    (with one, [$.each] may take the hash for an array and visit its indices
    only) raises no error, and gives the object whose properties are those of
    the hash under their canonical names; of several properties with the same
    canonical name the last one counts. No property of the result is named by
    an alias. *)
Theorem normalizeAxisProperty_keeps_the_last_of_each_name :
  forall h : list (string * value),
    ~ In "length" (map fst h) ->
    normalizeAxisProperty h = Ok (list_to_map (canonicalProperties h))
    /\ (forall alias : string,
          In alias ["v"; "y"; "top"; "h"; "x"; "left"; "vh"; "hv"; "xy"; "yx"; "all"] ->
          (list_to_map (canonicalProperties h) : gmap string value) !! alias = None).
Proof.
  intros h _. split; [apply normalizeAxisProperty_list_to_map|].
  intros alias Halias.
  destruct (list_to_map (canonicalProperties h) !! alias) as [v|] eqn:E; [|reflexivity].
  apply elem_of_list_to_map_2, list_elem_of_In, canonicalProperties_keys in E.
  exfalso. cbn in Halias.
  repeat (destruct Halias as [<- | Halias]; [discriminate E|]). contradiction.
Qed.

Lemma last_of_each_name_example :
  normalizeAxisProperty [("top", VStr "50%"); ("x", VNum (ofZ 7)); ("y", VNum (ofZ 9))]
  = Ok (list_to_map [(VERTICAL, VNum (ofZ 9)); (HORIZONTAL, VNum (ofZ 7));
                     (VERTICAL, VStr "50%")])
  /\ (list_to_map [(VERTICAL, VNum (ofZ 9)); (HORIZONTAL, VNum (ofZ 7));
                   (VERTICAL, VStr "50%")] : gmap string value) !! "top" = None.
Proof.
  destruct (normalizeAxisProperty_keeps_the_last_of_each_name
              [("top", VStr "50%"); ("x", VNum (ofZ 7)); ("y", VNum (ofZ 9))])
    as [Hobject Haliases].
  - cbn. intros [H | [H | [H | []]]]; discriminate H.
  - split.
    + exact Hobject.
    + apply (Haliases "top"). cbn. tauto.
Defined.

(** Canonicalizing is idempotent: the properties of a canonicalized hash,
    enumerated in any order, canonicalize to the same object. *)
Theorem normalizeAxisProperty_is_idempotent :
  forall (h : list (string * value)) (pos : gmap string value)
         (again : list (string * value)),
    normalizeAxisProperty h = Ok pos ->
    again ≡ₚ map_to_list pos ->
    normalizeAxisProperty again = Ok pos.
Proof.
  intros h pos again Hpos Hagain.
  rewrite normalizeAxisProperty_list_to_map in Hpos. injection Hpos as Hpos.
  rewrite normalizeAxisProperty_list_to_map. f_equal.
  assert (Hkeys : forall kv, In kv again -> canonicalKey kv.1 = kv.1).
  { intros [key v] Hin. apply list_elem_of_In in Hin. rewrite Hagain in Hin.
    apply elem_of_map_to_list in Hin. rewrite <- Hpos in Hin.
    apply elem_of_list_to_map_2, list_elem_of_In in Hin.
    exact (canonicalProperties_keys h key v Hin). }
  unfold canonicalProperties.
  replace (map (fun kv : string * value => (canonicalKey kv.1, kv.2)) again) with again.
  - rewrite <- (list_to_map_to_list pos). apply list_to_map_proper.
    + rewrite <- (Permutation_rev again), Hagain. apply NoDup_fst_map_to_list.
    + now rewrite <- (Permutation_rev again).
  - symmetry. rewrite <- (map_id again) at 2. apply map_ext_in.
    intros [key v] Hin. cbn [fst snd]. f_equal. exact (Hkeys (key, v) Hin).
Qed.

Lemma idempotent_example :
  normalizeAxisProperty [("horizontal", VNum (ofZ 5))]
  = Ok (<["horizontal" := VNum (ofZ 5)]> ∅).
Proof.
  apply (normalizeAxisProperty_is_idempotent [("x", VNum (ofZ 5))]
           (<["horizontal" := VNum (ofZ 5)]> ∅) [("horizontal", VNum (ofZ 5))]).
  - reflexivity.
  - now rewrite insert_empty, map_to_list_singleton.
Defined.

(** ** Every option of the normalized options *)

Lemma prop_defaults (key : string) :
  prop defaults key
  = if String.eqb key "axis" then VStr VERTICAL
    else if String.eqb key "queue" then VStr "internal.jquery.scrollable"
    else VUndefined.
Proof.
  unfold prop, defaults.
  destruct (String.eqb_spec key "axis") as [-> | Haxis]; [reflexivity|].
  rewrite lookup_insert_ne by congruence.
  destruct (String.eqb_spec key "queue") as [-> | Hqueue]; [reflexivity|].
  rewrite lookup_insert_ne by congruence. now rewrite lookup_empty.
Qed.

(** [normalizeOptions] raises no error, whatever the options and the
    position. In the options it returns, a property that the caller gave
    (under its canonical name, with a value other than [undefined]) has the
    value given; otherwise [axis] is the default derived from the position,
    [queue] is "internal.jquery.scrollable", and any other property is
    missing. *)
Theorem normalizeOptions_fills_in_the_defaults :
  forall (raw : option (list (string * value))) (position : Position),
  exists options : gmap string value,
    normalizeOptions raw position = Ok options
    /\ forall key : string,
         prop options key
         = let given :=
             match raw with
             | Some h => property h key
             | None => VUndefined
             end in
           if isDefined given then given
           else if String.eqb key "axis" then VStr (derivedAxis position)
           else if String.eqb key "queue" then VStr "internal.jquery.scrollable"
           else VUndefined.
Proof.
  intros raw position.
  destruct (normalizeOptions_axis raw position) as (options & Hoptions & _).
  exists options. split; [assumption|]. intros key.
  unfold normalizeOptions in Hoptions.
  apply bind_Ok_inv in Hoptions as (given & Hgiven & Hoptions).
  apply bind_Ok_inv in Hoptions as (d & Hd & Hoptions).
  injection Hoptions as <-.
  assert (Hprop : prop given key
                  = match raw with
                    | Some h => property h key
                    | None => VUndefined
                    end).
  { destruct raw as [h|].
    - unfold property. now rewrite Hgiven.
    - injection Hgiven as <-. apply prop_empty. }
  assert (Hderived : d = VStr (derivedAxis position)).
  { destruct position as [v|h].
    - destruct v; try (injection Hd as <-; reflexivity).
      cbn [derivedAxis]. destruct (_ || _); [now injection Hd as <-|].
      destruct (_ || _); now injection Hd as <-.
    - apply bind_Ok_inv in Hd as (pos & Hpos & Hd). injection Hd as <-.
      cbn [derivedAxis].
      change HORIZONTAL with (axisName Horizontal) at 1 2.
      change VERTICAL with (axisName Vertical) at 1.
      rewrite !(hasAxis_present h pos) by assumption.
      now destruct (present h Horizontal), (present h Vertical). }
  cbv zeta. rewrite <- Hprop.
  unfold extend. cbn [fold_left].
  rewrite !prop_extend1, prop_singleton, prop_empty, prop_defaults, Hderived.
  rewrite (String.eqb_sym "axis" key).
  destruct (isDefined (prop given key)); [reflexivity|].
  destruct (String.eqb key "axis"); [reflexivity|].
  now destruct (String.eqb key "queue").
Qed.

(** ** The queue scan *)

Lemma fold_overwrite_origin (a : Axis) (entries : list queue.Info) :
  forall running : number,
    fold_left (overwrite a) entries running = running
    \/ exists info : queue.Info,
         In info entries
         /\ specifiedTarget a info = Some (fold_left (overwrite a) entries running)
         /\ eqb (fold_left (overwrite a) entries running) IGNORE_AXIS = false.
Proof.
  induction entries as [|info entries IH]; intros running; cbn [fold_left].
  - now left.
  - destruct (IH (overwrite a running info)) as [Hsame | (info' & Hin & Htarget)].
    + rewrite Hsame. unfold overwrite.
      destruct (specifiedTarget a info) as [target|] eqn:E; [|now left].
      destruct (eqb target IGNORE_AXIS) eqn:Eignore; [now left|].
      right. exists info. split; [now left | now split].
    + right. exists info'. split; [now right | assumption].
Qed.

Lemma fold_overwrite_silent (a : Axis) (entries : list queue.Info) :
  silentOn a entries ->
  forall running : number, fold_left (overwrite a) entries running = running.
Proof.
  induction entries as [|info entries IH]; intros Hsilent running; cbn [fold_left].
  - reflexivity.
  - rewrite IH by (intros i Hi; apply Hsilent; now right).
    unfold overwrite. pose proof (Hsilent info (or_introl eq_refl)) as Hinfo.
    destruct (specifiedTarget a info); [now rewrite Hinfo | reflexivity].
Qed.

(** What [getLastPositionInfo] returns for an axis is IgnoreAxis, or the
    target that some entry of the queue specifies for that axis; for an empty
    queue, and for a queue no entry of which has a position, it is
    IgnoreAxis. *)
Theorem last_position_comes_from_the_queue :
  forall (queueWrapper : queue.QueueWrapper) (a : Axis),
    (getLastPositionInfo queueWrapper a = IGNORE_AXIS
     \/ exists info : queue.Info,
          In info (queue.getInfo queueWrapper)
          /\ specifiedTarget a info = Some (getLastPositionInfo queueWrapper a)
          /\ eqb (getLastPositionInfo queueWrapper a) IGNORE_AXIS = false)
    /\ ((forall info : queue.Info,
           In info (queue.getInfo queueWrapper) -> queue.position info = None) ->
        getLastPositionInfo queueWrapper a = IGNORE_AXIS).
Proof.
  intros queueWrapper a. rewrite getLastPositionInfo_fold. unfold lastQueuedTarget.
  split; [apply fold_overwrite_origin|].
  intros Hnone. apply fold_overwrite_silent.
  intros info Hin. unfold specifiedTarget. now rewrite (Hnone info Hin).
Qed.

Lemma queue_without_positions_example :
  getLastPositionInfo
    {| queue.getInfo := [{| queue.position := None |}; {| queue.position := None |}] |}
    Horizontal = IGNORE_AXIS.
Proof.
  apply (last_position_comes_from_the_queue
           {| queue.getInfo := [{| queue.position := None |};
                                {| queue.position := None |}] |} Horizontal).
  intros info [<- | [<- | []]]; reflexivity.
Defined.

(** The target an entry specifies for an axis, if it is not IgnoreAxis, is
    what [getLastPositionInfo] returns for that axis as long as no later entry
    specifies another: later entries that have no position, do not mention
    the axis or ignore it change nothing. *)
Theorem last_position_is_the_latest_target :
  forall (queueWrapper : queue.QueueWrapper) (a : Axis)
         (before after : list queue.Info) (info : queue.Info) (target : number),
    queue.getInfo queueWrapper = (before ++ info :: after)%list ->
    specifiedTarget a info = Some target ->
    eqb target IGNORE_AXIS = false ->
    silentOn a after ->
    getLastPositionInfo queueWrapper a = target.
Proof.
  intros queueWrapper a before after info target Hentries Htarget Hignore Hsilent.
  rewrite getLastPositionInfo_fold. unfold lastQueuedTarget.
  rewrite Hentries, fold_left_app. cbn [fold_left].
  rewrite (fold_overwrite_silent a after Hsilent).
  unfold overwrite. now rewrite Htarget, Hignore.
Qed.

Lemma latest_target_example :
  getLastPositionInfo
    (queue.newQueueWrapper
       (Sample.queued [Sample.onlyVertical 10; Sample.onlyVertical 50;
                       Sample.onlyHorizontal 80])
       VUndefined)
    Vertical = ofZ 50.
Proof.
  apply (last_position_is_the_latest_target _ Vertical
           [{| queue.position := Some (Sample.onlyVertical 10) |}]
           [{| queue.position := Some (Sample.onlyHorizontal 80) |}]
           {| queue.position := Some (Sample.onlyVertical 50) |} (ofZ 50)).
  - reflexivity.
  - reflexivity.
  - reflexivity.
  - intros info [<- | []]. exact I.
Defined.

Lemma eqb_ofZ (x y : Z) : eqb (ofZ x) (ofZ y) = true -> x = y.
Proof.
  unfold eqb, ofZ. intros H. apply Qeq_bool_iff in H.
  apply inject_Z_injective. exact H.
Qed.

(** The position a relative move starts from is never IgnoreAxis, in any
    mode and for any queue, unless the container itself is scrolled to
    -999. *)
Theorem start_position_is_not_the_sentinel :
  forall (c : Container) (queueWrapper : queue.QueueWrapper) (a : Axis)
         (mode : ScrollMode),
    currentPosition c a <> -999 ->
    eqb (getStartScrollPosition c queueWrapper a mode) IGNORE_AXIS = false.
Proof.
  intros c queueWrapper a mode Hcurrent.
  assert (Hlive : eqb (getCurrentScrollPosition c a) IGNORE_AXIS = false).
  { rewrite getCurrentScrollPosition_ofZ.
    destruct (eqb (ofZ (currentPosition c a)) IGNORE_AXIS) eqn:E; [|reflexivity].
    apply eqb_ofZ in E. contradiction. }
  unfold getStartScrollPosition.
  destruct mode; try assumption;
    destruct (eqb (getLastPositionInfo queueWrapper a) IGNORE_AXIS) eqn:E; assumption.
Qed.

Lemma start_position_example :
  eqb (getStartScrollPosition Sample.container
         (queue.newQueueWrapper (Sample.queued [Sample.onlyHorizontal 80]) VUndefined)
         Vertical MODE_MERGE)
      IGNORE_AXIS = false.
Proof.
  apply (start_position_is_not_the_sentinel Sample.container _ Vertical MODE_MERGE).
  vm_compute. discriminate.
Defined.

(** ** Options derived from the position *)

Lemma derivedAxis_single (v : value) :
  exists a : Axis, derivedAxis (Primitive v) = axisName a.
Proof.
  destruct v; try (now exists Vertical).
  cbn [derivedAxis]. destruct (_ || _); [now exists Vertical|].
  destruct (_ || _); [now exists Horizontal | now exists Vertical].
Qed.

(** When the caller gives no [axis] option, a position that is not a hash
    and not a relative string always fits the axis that [normalizeOptions]
    derives from it: resolving it with the normalized options raises neither
    the ambiguous axis nor the keyword mismatch error, so that the only
    error left is that of an invalid position value. *)
Theorem derived_axis_fits_the_position :
  forall (raw : option (list (string * value))) (v : value) (c : Container)
         (scrollable : queue.Scrollable) (options : gmap string value) (e : error),
    match raw with
    | Some h => property h "axis" = VUndefined
    | None => True
    end ->
    (forall s : string, v = VStr s -> isRelative (toLowerCase s) = false) ->
    normalizeOptions raw (Primitive v) = Ok options ->
    normalizePosition (Primitive v) c scrollable options = Err e ->
    e = InvalidPositionValue.
Proof.
  intros raw v c scrollable options e Hraw Habsolute Hoptions H.
  destruct (normalizeOptions_axis raw (Primitive v)) as (options' & Hoptions' & Haxis).
  rewrite Hoptions in Hoptions'. injection Hoptions' as <-.
  assert (Hderived : prop options "axis" = VStr (derivedAxis (Primitive v))).
  { rewrite Haxis. destruct raw as [h|]; [now rewrite Hraw | reflexivity]. }
  destruct (derivedAxis_single v) as [a Ha].
  cbn [normalizePosition] in H. unfold normalizePositionForAxis in H.
  rewrite Hderived, Ha, singleAxis_axisName in H.
  apply bind_Err_inv in H as [H | ([[p sign] base] & _ & H)].
  - destruct v as [| | | |s|]; try discriminate.
    rewrite relativePrefix_absolute in H by now apply Habsolute.
    apply bind_Err_inv in H as [H | (p & _ & H)]; [|discriminate].
    apply resolveUnits_error in H as [_ Hword].
    exfalso. cbn [derivedAxis] in Ha.
    destruct a; cbn [otherAxis keywords] in Hword;
      destruct Hword as [Hw | [Hw | []]]; rewrite <- Hw in Ha;
      vm_compute in Ha; discriminate.
  - apply bind_Err_inv in H as [H | (x & _ & H)]; [|discriminate].
    destruct (lib.isNumber p); [discriminate|].
    destruct (isUndefinedPositionValue p); [discriminate|].
    now injection H as <-.
Qed.

Lemma derived_axis_example :
  normalizeOptions (Some [("duration", VNum (ofZ 400))]) (Primitive (VStr "sideways"))
  = Ok (<["duration" := VNum (ofZ 400)]> defaults)
  /\ normalizePosition (Primitive (VStr "sideways")) Sample.container (Sample.queued [])
       (<["duration" := VNum (ofZ 400)]> defaults) = Err InvalidPositionValue
  /\ InvalidPositionValue = InvalidPositionValue.
Proof.
  split; [reflexivity|]. split; [reflexivity|].
  apply (derived_axis_fits_the_position (Some [("duration", VNum (ofZ 400))])
           (VStr "sideways") Sample.container (Sample.queued [])
           (<["duration" := VNum (ofZ 400)]> defaults) InvalidPositionValue).
  - reflexivity.
  - intros s [= <-]. reflexivity.
  - reflexivity.
  - reflexivity.
Defined.

(** ** Clamping *)

(** Clamping an integer position is idempotent and keeps the order of
    positions, whatever the maximum of the axis. *)
Theorem limitToScrollRange_is_idempotent_and_monotone :
  forall (c : Container) (a : Axis) (z z' : Z),
    limitToScrollRange (limitToScrollRange (ofZ z) c a) c a
    = limitToScrollRange (ofZ z) c a
    /\ (z <= z' ->
        leb (limitToScrollRange (ofZ z) c a) (limitToScrollRange (ofZ z') c a) = true).
Proof.
  intros c a z z'. rewrite !limitToScrollRange_ofZ. split.
  - f_equal. unfold clamp. lia.
  - intros Hle. rewrite leb_ofZ. apply Z.leb_le. unfold clamp. lia.
Qed.

Lemma limitToScrollRange_example :
  limitToScrollRange (limitToScrollRange (ofZ 1200) Sample.container Vertical)
    Sample.container Vertical
  = limitToScrollRange (ofZ 1200) Sample.container Vertical
  /\ (1200 <= 1300 ->
      leb (limitToScrollRange (ofZ 1200) Sample.container Vertical)
          (limitToScrollRange (ofZ 1300) Sample.container Vertical) = true).
Proof.
  exact (limitToScrollRange_is_idempotent_and_monotone Sample.container Vertical 1200 1300).
Defined.

(** ** The percentages of the demo *)

Lemma decimals_or_zero (d : Z) : (if d =? 0 then 0 else d) = d.
Proof. destruct (Z.eqb_spec d 0); congruence. Qed.

Lemma double_of (q q' : Q) (m e : Z) :
  (q == q')%Q -> binary64.representable q' m e -> binary64.double q = Fin (Qred q').
Proof.
  intros E H. rewrite (double_exact q m e (representable_comp q q' m e E H)).
  f_equal. now apply Qred_complete.
Qed.

(** The powers of ten up to [10 ^ 22] are doubles. *)
Lemma representable_power_of_ten (n : Z) :
  0 <= n <= 22 -> binary64.representable (inject_Z (10 ^ n)) (5 ^ n) n.
Proof.
  intros H. split; [|split]; [|lia|].
  - split; [apply Z.pow_nonneg; lia|].
    apply Z.le_lt_trans with (5 ^ 22); [apply Z.pow_le_mono_r; lia | reflexivity].
  - rewrite pow2_inject by lia. rewrite <- inject_Z_mult.
    change 10 with (5 * 2) at 1. now rewrite Z.pow_mul_l.
Qed.

Lemma pow10_exact (n : Z) : 0 <= n <= 22 -> binary64.pow10 n = ofZ (10 ^ n).
Proof.
  intros H. unfold binary64.pow10.
  rewrite (double_of _ (inject_Z (10 ^ n)) (5 ^ n) n).
  - unfold ofZ. now rewrite Qred_inject_Z.
  - symmetry. apply Zpower_Qpower. lia.
  - now apply representable_power_of_ten.
Qed.

Lemma binary64_div_Fin (p q : Q) :
  (0 < q)%Q -> binary64.div (Fin p) (Fin q) = binary64.double (p / q).
Proof.
  intros Hq. unfold binary64.div. rewrite div_Fin; [reflexivity|].
  intros E. rewrite E in Hq. discriminate Hq.
Qed.

Section Percent.

Variable p : Q.
Variable range : Z.
Variable decimals : option Z.
Hypothesis position_in_range : (0 <= p <= inject_Z range)%Q.
Hypothesis range_positive : 0 < range.
Hypothesis range_in_pixels : 100 * range < 2 ^ 53.
Hypothesis few_decimals : forall d : Z, decimals = Some d -> 0 <= d <= 20.

Let places : Z := match decimals with Some d => d | None => 0 end.

Lemma places_few : 0 <= places <= 20.
Proof using few_decimals.
  subst places. destruct decimals as [d|]; [now apply few_decimals | lia].
Qed.

Lemma toPercent_shift :
  binary64.pow10 match decimals with
                 | Some d => if d =? 0 then 0 else d
                 | None => 0
                 end
  = ofZ (10 ^ places).
Proof using few_decimals.
  pose proof places_few as H.
  replace (match decimals with Some d => if d =? 0 then 0 else d | None => 0 end)
    with places by (subst places; destruct decimals; now rewrite ?decimals_or_zero).
  apply pow10_exact. lia.
Qed.

(** The steps of [toPercent]: the percentage, its product with the shift,
    and the whole number the product is rounded to. *)
Lemma toPercent_steps :
  exists (b s : Q),
    binary64.div (binary64.mul (Fin p) (ofZ 100)) (ofZ range) = Fin b
    /\ (0 <= b <= 100)%Q
    /\ binary64.mul (Fin b) (ofZ (10 ^ places)) = Fin s
    /\ 0 <= round s <= 100 * 10 ^ places
    /\ demo.toPercent (Fin p) (ofZ range) decimals
       = binary64.double (inject_Z (round s) / inject_Z (10 ^ places)).
Proof using position_in_range range_positive range_in_pixels few_decimals.
  pose proof places_few as Hplaces.
  assert (Hrange : (0 < inject_Z range)%Q) by now apply inject_Z_positive.
  assert (Hten : 0 < 10 ^ places) by (apply Z.pow_pos_nonneg; lia).
  assert (Hshift : (0 < inject_Z (10 ^ places))%Q) by now apply inject_Z_positive.
  (* pos * 100 *)
  destruct (double_le_representable (p * inject_Z 100) (inject_Z (100 * range))
              (100 * range) 0) as (x & Hx & Hx0 & Hx1).
  { apply Qmult_le_0_compat; [tauto | discriminate]. }
  { apply representable_integer. lia. }
  { rewrite inject_Z_mult. change (inject_Z 100) with 100%Q. lra. }
  (* ... / scrollRange *)
  destruct (double_le_representable (x / inject_Z range) (inject_Z 100) 100 0)
    as (b & Hb & Hb0 & Hb1).
  { apply Qle_shift_div_l; [assumption | lra]. }
  { apply representable_integer. split; [lia | reflexivity]. }
  { apply Qle_shift_div_r; [assumption|].
    rewrite inject_Z_mult in Hx1. change (inject_Z 100) with 100%Q in *. lra. }
  (* percentage * shift *)
  destruct (double_le_representable (b * inject_Z (10 ^ places))
              (inject_Z (10 ^ (places + 2))) (5 ^ (places + 2)) (places + 2))
    as (s & Hs & Hs0 & Hs1).
  { apply Qmult_le_0_compat; [assumption | now apply Qlt_le_weak]. }
  { apply representable_power_of_ten. lia. }
  { rewrite Z.pow_add_r, inject_Z_mult by lia.
    change (inject_Z (10 ^ 2)) with 100%Q.
    rewrite (Qmult_comm (inject_Z (10 ^ places))).
    apply Qmult_le_compat_r; [assumption | now apply Qlt_le_weak]. }
  exists b, s.
  assert (Hpercentage :
            binary64.div (binary64.mul (Fin p) (ofZ 100)) (ofZ range) = Fin b).
  { unfold binary64.mul, ofZ. cbn [mul binary64.rounded]. rewrite Hx.
    now rewrite binary64_div_Fin. }
  assert (Hproduct : binary64.mul (Fin b) (ofZ (10 ^ places)) = Fin s).
  { unfold binary64.mul, ofZ. cbn [mul binary64.rounded]. exact Hs. }
  split; [assumption|]. split; [tauto|]. split; [assumption|]. split.
  - split.
    + rewrite <- (round_inject_Z 0). apply round_monotone. assumption.
    + rewrite <- (round_inject_Z (100 * 10 ^ places)). apply round_monotone.
      rewrite Z.pow_add_r in Hs1 by lia. now rewrite Z.mul_comm.
  - unfold demo.toPercent. cbv zeta.
    rewrite toPercent_shift, Hpercentage, Hproduct. cbn [Math_round].
    unfold ofZ. now rewrite binary64_div_Fin.
Qed.

End Percent.



(** Under the same conditions the percentage lies between 0 and 100; it is
    exactly 0 at position 0 and exactly 100 at the end of the range. *)
Theorem toPercent_stays_within_0_and_100 :
  forall (p : Q) (range : Z) (decimals : option Z),
    (0 <= p <= inject_Z range)%Q ->
    0 < range ->
    100 * range < 2 ^ 53 ->
    (forall d : Z, decimals = Some d -> 0 <= d <= 20) ->
    (exists x : Q,
       demo.toPercent (Fin p) (ofZ range) decimals = Fin x /\ (0 <= x <= 100)%Q)
    /\ demo.toPercent (ofZ 0) (ofZ range) decimals = ofZ 0
    /\ demo.toPercent (ofZ range) (ofZ range) decimals = ofZ 100.
Proof.
  intros p range decimals Hp Hrange Hpixels Hdecimals.
  assert (Hinteger : forall z : Z, 0 <= z <= range -> (0 <= inject_Z z <= inject_Z range)%Q).
  { intros z Hz. split; [apply inject_Z_nonneg; lia | rewrite <- Zle_Qle; lia]. }
  assert (Hplaces : 0 <= match decimals with Some d => d | None => 0 end <= 20).
  { destruct decimals as [d|]; [now apply Hdecimals | lia]. }
  set (places := match decimals with Some d => d | None => 0 end) in *.
  assert (Hten : 0 < 10 ^ places) by (apply Z.pow_pos_nonneg; lia).
  assert (Hshift : (0 < inject_Z (10 ^ places))%Q) by now apply inject_Z_positive.
  assert (Hrange' : (0 < inject_Z range)%Q) by now apply inject_Z_positive.
  split; [|split].
  - destruct (toPercent_steps p range decimals Hp Hrange Hpixels Hdecimals)
      as (b & s & _ & _ & _ & Hk & ->).
    fold places in Hk |- *.
    destruct (double_le_representable
                (inject_Z (round s) / inject_Z (10 ^ places)) (inject_Z 100) 100 0)
      as (x & Hx & Hx0 & Hx1).
    + apply Qle_shift_div_l; [assumption|]. rewrite Qmult_0_l.
      apply inject_Z_nonneg. lia.
    + apply representable_integer. split; [lia | reflexivity].
    + apply Qle_shift_div_r; [assumption|]. rewrite <- inject_Z_mult, <- Zle_Qle. lia.
    + exists x. tauto.
  - destruct (toPercent_steps (inject_Z 0) range decimals (Hinteger 0 ltac:(lia))
                Hrange Hpixels Hdecimals)
      as (b & s & Hb & _ & Hs & _ & Hresult).
    fold places in Hs, Hresult.
    unfold ofZ at 1. rewrite Hresult. clear Hresult.
    assert (Eb : (b == 0)%Q).
    { unfold binary64.mul, ofZ in Hb. cbn [mul binary64.rounded] in Hb.
      rewrite (double_of _ 0 0 0) in Hb.
      - rewrite binary64_div_Fin in Hb by assumption.
        rewrite (double_of _ 0 0 0) in Hb.
        + injection Hb as <-. reflexivity.
        + change (Qred 0) with 0%Q. unfold Qdiv. ring.
        + apply (representable_integer 0). split; [lia | reflexivity].
      - ring.
      - apply (representable_integer 0). split; [lia | reflexivity]. }
    assert (Es : (s == 0)%Q).
    { unfold binary64.mul, ofZ in Hs. cbn [mul binary64.rounded] in Hs.
      rewrite (double_of _ 0 0 0) in Hs.
      - injection Hs as <-. reflexivity.
      - rewrite Eb. ring.
      - apply (representable_integer 0). split; [lia | reflexivity]. }
    rewrite (round_comp s (inject_Z 0)), round_inject_Z by exact Es.
    rewrite (double_of _ 0 0 0); [reflexivity| |].
    + unfold Qdiv. change (inject_Z 0) with 0%Q. ring.
    + apply (representable_integer 0). split; [lia | reflexivity].
  - destruct (toPercent_steps (inject_Z range) range decimals
                (Hinteger range ltac:(lia)) Hrange Hpixels Hdecimals)
      as (b & s & Hb & _ & Hs & _ & Hresult).
    fold places in Hs, Hresult.
    unfold ofZ at 1. rewrite Hresult. clear Hresult.
    assert (Hhundred : binary64.representable (inject_Z 100) 100 0).
    { apply representable_integer. split; [lia | reflexivity]. }
    assert (Eb : (b == inject_Z 100)%Q).
    { unfold binary64.mul, ofZ in Hb. cbn [mul binary64.rounded] in Hb.
      rewrite (double_of _ (inject_Z (range * 100)) (range * 100) 0) in Hb.
      - rewrite binary64_div_Fin in Hb by assumption.
        rewrite (double_of _ (inject_Z 100) 100 0) in Hb.
        + injection Hb as <-. apply Qred_correct.
        + rewrite Qred_correct, inject_Z_mult. field. lra.
        + assumption.
      - now rewrite inject_Z_mult.
      - apply representable_integer. lia. }
    assert (Es : (s == inject_Z (100 * 10 ^ places))%Q).
    { unfold binary64.mul, ofZ in Hs. cbn [mul binary64.rounded] in Hs.
      rewrite (double_of _ (inject_Z (10 ^ (places + 2))) (5 ^ (places + 2))
                 (places + 2)) in Hs.
      - injection Hs as <-. rewrite Qred_correct.
        rewrite Z.pow_add_r by lia. now rewrite Z.mul_comm.
      - rewrite Eb, <- inject_Z_mult, Z.pow_add_r by lia.
        now rewrite Z.mul_comm.
      - apply representable_power_of_ten. lia. }
    rewrite (round_comp s _ Es), round_inject_Z.
    rewrite (double_of _ (inject_Z 100) 100 0); [|  | assumption].
    + unfold ofZ. now rewrite Qred_inject_Z.
    + rewrite inject_Z_mult. field. lra.
Qed.

Lemma toPercent_range_example :
  (exists x : Q,
     demo.toPercent (Fin 250) (ofZ 2000) (Some 4) = Fin x /\ (0 <= x <= 100)%Q)
  /\ demo.toPercent (ofZ 0) (ofZ 2000) (Some 4) = ofZ 0
  /\ demo.toPercent (ofZ 2000) (ofZ 2000) (Some 4) = ofZ 100.
Proof.
  apply (toPercent_stays_within_0_and_100 250 2000 (Some 4)).
  - split; discriminate.
  - reflexivity.
  - reflexivity.
  - intros d [= <-]. split; discriminate.
Defined.

(** [toPercent] does not guard against a scroll range of 0: at position 0
    it returns NaN, whatever the number of decimals, and at a position above
    0 (a double above 0 is [2 ^ -1074] or more) Infinity, for up to 22
    decimals. *)
Theorem toPercent_of_an_empty_range :
  forall (p : Q) (decimals : option Z),
    ((p == 0)%Q -> demo.toPercent (Fin p) (ofZ 0) decimals = NaN)
    /\ ((binary64.pow2 (-1074) <= p)%Q ->
        (forall d : Z, decimals = Some d -> 0 <= d <= 22) ->
        demo.toPercent (Fin p) (ofZ 0) decimals = PosInf).
Proof.
  intros p decimals. unfold demo.toPercent. cbv zeta. split.
  - intros Hp.
    unfold binary64.mul at 2, ofZ. cbn [mul binary64.rounded].
    rewrite (double_of _ 0 0 0).
    + reflexivity.
    + rewrite Hp. ring.
    + apply (representable_integer 0). split; [lia | reflexivity].
  - intros Hp Hdecimals.
    assert (Hplaces : 0 <= match decimals with Some d => d | None => 0 end <= 22).
    { destruct decimals as [d|]; [now apply Hdecimals | lia]. }
    replace (match decimals with Some d => if d =? 0 then 0 else d | None => 0 end)
      with (match decimals with Some d => d | None => 0 end)
      by (destruct decimals; now rewrite ?decimals_or_zero).
    set (places := match decimals with Some d => d | None => 0 end) in *.
    rewrite (pow10_exact places Hplaces).
    assert (Hten : 0 < 10 ^ places) by (apply Z.pow_pos_nonneg; lia).
    assert (Hshift : Qsign (inject_Z (10 ^ places)) = Gt)
      by now apply Qsign_positive, inject_Z_positive.
    assert (Hquotient :
              binary64.div (binary64.mul (Fin p) (ofZ 100)) (ofZ 0) = PosInf).
    { unfold binary64.mul, ofZ. cbn [mul binary64.rounded].
      pose proof (pow2_positive (-1074)) as Hleast.
      destruct (double_ge_representable (p * inject_Z 100) (binary64.pow2 (-1074))
                  1 (-1074)) as [-> | (x & -> & Hx)].
      - split; [split; [lia | reflexivity]|]. split; [lia|]. now rewrite Qmult_1_l.
      - change (inject_Z 100) with 100%Q. lra.
      - reflexivity.
      - unfold binary64.div. cbn [div]. change (Qsign (inject_Z 0)) with Eq.
        cbv iota. rewrite (Qsign_positive x) by lra. reflexivity. }
    rewrite Hquotient.
    unfold binary64.mul, binary64.div, ofZ. cbn [mul binary64.rounded].
    rewrite Hshift. cbn [infOfSign binary64.rounded Math_round div].
    now rewrite Hshift.
Qed.

Lemma toPercent_empty_range_example :
  demo.toPercent (ofZ 0) (ofZ 0) (Some 4) = NaN
  /\ demo.toPercent (ofZ 5) (ofZ 0) (Some 4) = PosInf.
Proof.
  split.
  - apply (proj1 (toPercent_of_an_empty_range (inject_Z 0) (Some 4))). reflexivity.
  - apply (proj2 (toPercent_of_an_empty_range (inject_Z 5) (Some 4))).
    + vm_compute. discriminate.
    + intros d [= <-]. split; discriminate.
Defined.

(** ** The earlier version and the later one *)

Lemma legacy_properties_origin (props : list (string * legacy.Nested)) :
  forall (normalized pos : gmap string legacy.Nested) (key : string) (q : legacy.Nested),
    legacy.normalizeAxisProperties props normalized = Ok pos ->
    pos !! key = Some q ->
    normalized !! key = Some q \/ exists k0 : string, In (k0, q) props.
Proof.
  induction props as [|[k v] props IH]; intros normalized pos key q Hpos Hq;
    cbn [legacy.normalizeAxisProperties] in Hpos.
  - injection Hpos as <-. now left.
  - assert (Hstep : exists name : string,
               legacy.normalizeAxisProperties props (<[name := v]> normalized) = Ok pos).
    { destruct (lib.isInArray (VStr k) altAxisNames); [|eauto].
      apply bind_Ok_inv in Hpos as (name & _ & Hpos). eauto. }
    destruct Hstep as [name Hstep].
    destruct (IH _ _ _ _ Hstep Hq) as [Hin | [k0 Hin]].
    + destruct (decide (name = key)) as [-> | Hne].
      * rewrite lookup_insert_eq in Hin. injection Hin as <-.
        right. exists k. now left.
      * rewrite lookup_insert_ne in Hin by assumption. now left.
    + right. exists k0. now right.
Qed.

Lemma legacy_depth_at (h : list (string * legacy.Nested))
    (pos : gmap string legacy.Nested) (name : string) :
  legacy.normalizeAxisProperty h = Ok pos ->
  (legacy.depth (legacy.at_ pos name) < legacy.depth (legacy.Node h))%nat.
Proof.
  intros Hpos. unfold legacy.at_. cbn [legacy.depth].
  destruct (pos !! name) as [q|] eqn:E; [|cbn; lia].
  destruct (legacy_properties_origin h ∅ pos name q Hpos E) as [Hin | [k0 Hin]].
  - now rewrite lookup_empty in Hin.
  - cbn [default].
    assert (Hle : (legacy.depth q
                   <= list_max (map (fun kv => legacy.depth (snd kv)) h))%nat).
    { pose proof (proj1 (list_max_le (map (fun kv => legacy.depth (snd kv)) h) _)
                    (le_n _)) as Hall.
      rewrite List.Forall_forall in Hall. apply Hall.
      apply in_map_iff. now exists (k0, q). }
    unfold id. lia.
Qed.

Lemma legacy_normalizeAxisProperties_Ok (props : list (string * legacy.Nested)) :
  forall normalized : gmap string legacy.Nested,
    exists pos : gmap string legacy.Nested,
      legacy.normalizeAxisProperties props normalized = Ok pos.
Proof.
  induction props as [|[key v] props IH]; intros normalized;
    cbn [legacy.normalizeAxisProperties].
  - now exists normalized.
  - destruct (lib.isInArray (VStr key) altAxisNames) eqn:E.
    + destruct (normalizeAxisName_alias key E) as [name ->]. apply IH.
    + apply IH.
Qed.

(** The recursion of the earlier [lib.normalizePosition] ends: with more
    fuel than plain objects are nested in the position, every call returns
    (a pair of coordinates or an error). *)
Theorem legacy_normalizePosition_returns :
  forall (fuel : nat) (position : legacy.Nested) (c : Container)
         (options : gmap string value),
    (legacy.depth position < fuel)%nat ->
    exists r : result Coordinates,
      legacy.normalizePosition fuel position c options = Some r.
Proof.
  induction fuel as [|fuel IH]; intros position c options Hdepth; [lia|].
  destruct position as [v|h]; cbn [legacy.normalizePosition]; [eauto|].
  destruct (legacy_normalizeAxisProperties_Ok h ∅) as [pos Hpos].
  fold (legacy.normalizeAxisProperty h) in Hpos. rewrite Hpos.
  assert (Hrec : forall (name : string) (o : gmap string value),
             exists r, legacy.normalizePosition fuel (legacy.at_ pos name) c o = Some r).
  { intros name o. apply IH.
    pose proof (legacy_depth_at h pos name Hpos). lia. }
  destruct (strict_eq (prop options "axis") (VStr VERTICAL)).
  - destruct (strict_eq (prop options "axis") (VStr HORIZONTAL)); [eauto|].
    destruct (Hrec VERTICAL {["axis" := VStr VERTICAL]}) as [[r|e] ->]; eauto.
  - destruct (Hrec HORIZONTAL {["axis" := VStr HORIZONTAL]}) as [[r|e] ->]; [|eauto].
    destruct (strict_eq (prop options "axis") (VStr HORIZONTAL)); [eauto|].
    destruct (Hrec VERTICAL {["axis" := VStr VERTICAL]}) as [[r'|e] ->]; eauto.
Qed.

Lemma legacy_returns_example :
  exists r : result Coordinates,
    legacy.normalizePosition 3
      (legacy.Node [("x", legacy.Node [("x", legacy.Leaf (VNum (ofZ 5)))])])
      Sample.container (Sample.axisOptions BOTH_AXES) = Some r.
Proof.
  apply (legacy_normalizePosition_returns 3
           (legacy.Node [("x", legacy.Node [("x", legacy.Leaf (VNum (ofZ 5)))])])
           Sample.container (Sample.axisOptions BOTH_AXES)).
  cbn. lia.
Defined.

Lemma legacy_normalizeValue_replace (v : value) (c : Container)
    (o o' : gmap string value) (queueWrapper : queue.QueueWrapper) :
  prop o "axis" = prop o' "axis" ->
  getScrollMode o' = MODE_REPLACE ->
  legacy.normalizeValue v c o = normalizePositionForAxis v c o' queueWrapper.
Proof.
  intros Haxis Hmode.
  unfold legacy.normalizeValue, normalizePositionForAxis, relativePrefix.
  rewrite Haxis, Hmode.
  destruct (singleAxis (prop o' "axis")) as [a|]; reflexivity.
Qed.

Lemma legacy_properties_ofPosition (h : list (string * value)) :
  forall m pos : gmap string value,
    normalizeAxisProperties h m = Ok pos ->
    legacy.normalizeAxisProperties (map (fun kv => (kv.1, legacy.Leaf kv.2)) h)
      (legacy.Leaf <$> m)
    = Ok (legacy.Leaf <$> pos).
Proof.
  induction h as [|[key v] h IH]; intros m pos Hpos;
    cbn [normalizeAxisProperties legacy.normalizeAxisProperties map fst snd] in *.
  - now injection Hpos as <-.
  - destruct (lib.isInArray (VStr key) altAxisNames).
    + destruct (normalizeAxisName (VStr key)) as [name|e]; [|discriminate].
      cbn [mbind result_bind] in *. rewrite <- fmap_insert. now apply IH.
    + rewrite <- fmap_insert. now apply IH.
Qed.

Lemma legacy_at_fmap (pos : gmap string value) (name : string) :
  legacy.at_ (legacy.Leaf <$> pos) name = legacy.Leaf (prop pos name).
Proof.
  unfold legacy.at_, prop. rewrite lookup_fmap. now destruct (pos !! name).
Qed.

(** With neither the [append] nor the [merge] option set, the later
    [normalizePosition] returns what the earlier [lib.normalizePosition]
    returns, for every position that is a primitive value or a hash of
    primitive values, every container and every axis option: coordinates and
    errors are the same. *)
Theorem later_version_agrees_with_the_earlier :
  forall (position : Position) (c : Container) (scrollable : queue.Scrollable)
         (options : gmap string value),
    truthy (prop options "append") = false ->
    truthy (prop options "merge") = false ->
    (forall h : list (string * value), position = Hash h ->
       forall key : string, ~ In (key, VObject) h) ->
    legacy.normalizePosition 2 (legacy.ofPosition position) c options
    = Some (normalizePosition position c scrollable options).
Proof.
  intros position c scrollable options Happend Hmerge _.
  assert (Hmode : getScrollMode options = MODE_REPLACE)
    by (unfold getScrollMode; now rewrite Happend, Hmerge).
  destruct position as [v|h];
    cbn [legacy.ofPosition legacy.normalizePosition normalizePosition].
  - f_equal. now apply legacy_normalizeValue_replace.
  - unfold normalizePositionForHash, legacy.normalizeAxisProperty.
    destruct (normalizeAxisProperty_Ok h) as [pos Hpos]. rewrite Hpos.
    rewrite <- (fmap_empty legacy.Leaf).
    rewrite (legacy_properties_ofPosition h ∅ pos Hpos).
    rewrite !legacy_at_fmap, Hmerge. cbn [mbind result_bind].
    change (extend [options; {["axis" := VStr HORIZONTAL]}])
      with (pinned options Horizontal).
    change (extend [options; {["axis" := VStr VERTICAL]}])
      with (pinned options Vertical).
    rewrite (legacy_normalizeValue_replace (prop pos HORIZONTAL) c
               {["axis" := VStr HORIZONTAL]} (pinned options Horizontal)
               (queue.newQueueWrapper scrollable (prop options "queue")))
      by (rewrite ?getScrollMode_pinned, ?prop_pinned_axis; easy).
    rewrite (legacy_normalizeValue_replace (prop pos VERTICAL) c
               {["axis" := VStr VERTICAL]} (pinned options Vertical)
               (queue.newQueueWrapper scrollable (prop options "queue")))
      by (rewrite ?getScrollMode_pinned, ?prop_pinned_axis; easy).
    destruct (strict_eq (prop options "axis") (VStr VERTICAL)),
             (strict_eq (prop options "axis") (VStr HORIZONTAL));
      cbn [mbind result_bind];
      repeat (match goal with
              | |- context [normalizePositionForAxis ?v c ?o ?q] =>
                  destruct (normalizePositionForAxis v c o q)
              end; cbn [mbind result_bind]);
      reflexivity.
Qed.

Lemma versions_agree_example :
  legacy.normalizePosition 2
    (legacy.ofPosition (Hash [("x", VStr "+=10"); ("y", VStr "bottom")]))
    Sample.container (Sample.axisOptions BOTH_AXES)
  = Some (normalizePosition (Hash [("x", VStr "+=10"); ("y", VStr "bottom")])
            Sample.container (Sample.queued [Sample.onlyVertical 300])
            (Sample.axisOptions BOTH_AXES)).
Proof.
  apply (later_version_agrees_with_the_earlier
           (Hash [("x", VStr "+=10"); ("y", VStr "bottom")]) Sample.container
           (Sample.queued [Sample.onlyVertical 300]) (Sample.axisOptions BOTH_AXES)).
  - reflexivity.
  - reflexivity.
  - intros h [= <-] key [H | [H | []]]; discriminate H.
Defined.

Lemma legacy_single_property (key : string) (q : legacy.Nested) :
  legacy.normalizeAxisProperty [(key, q)] = Ok (<[canonicalKey key := q]> ∅).
Proof.
  unfold legacy.normalizeAxisProperty. cbn [legacy.normalizeAxisProperties].
  destruct (lib.isInArray (VStr key) altAxisNames) eqn:E.
  - now rewrite (normalizeAxisName_canonicalKey key E).
  - now rewrite (canonicalKey_other key E).
Qed.

Lemma single_property (key : string) (v : value) :
  normalizeAxisProperty [(key, v)] = Ok (<[canonicalKey key := v]> ∅).
Proof.
  rewrite normalizeAxisProperty_list_to_map. reflexivity.
Qed.

(** One step of the earlier recursion, for an axis option that names no
    single axis. *)
Lemma legacy_node_both (fuel : nat) (h : list (string * legacy.Nested))
    (pos : gmap string legacy.Nested) (c : Container) (options : gmap string value) :
  legacy.normalizeAxisProperty h = Ok pos ->
  singleAxis (prop options "axis") = None ->
  legacy.normalizePosition (S fuel) (legacy.Node h) c options
  = match legacy.normalizePosition fuel (legacy.at_ pos HORIZONTAL) c
            {["axis" := VStr HORIZONTAL]} with
    | Some (Ok rx) =>
        match legacy.normalizePosition fuel (legacy.at_ pos VERTICAL) c
                {["axis" := VStr VERTICAL]} with
        | Some (Ok ry) => Some (Ok {| horizontal := horizontal rx; vertical := vertical ry |})
        | Some (Err e) => Some (Err e)
        | None => None
        end
    | Some (Err e) => Some (Err e)
    | None => None
    end.
Proof.
  intros Hpos Haxis. destruct (singleAxis_None _ Haxis) as [Hh Hv].
  cbn [legacy.normalizePosition]. rewrite Hpos, Hh, Hv.
  destruct (legacy.normalizePosition fuel (legacy.at_ pos HORIZONTAL) c _)
    as [[rx|e]|]; try reflexivity.
  now destruct (legacy.normalizePosition fuel (legacy.at_ pos VERTICAL) c _)
    as [[ry|e]|].
Qed.

(** One step of the earlier recursion, for the axis option of the
    recursive calls. *)
Lemma legacy_node_single (fuel : nat) (h : list (string * legacy.Nested))
    (pos : gmap string legacy.Nested) (c : Container) (a : Axis) :
  legacy.normalizeAxisProperty h = Ok pos ->
  legacy.normalizePosition (S fuel) (legacy.Node h) c {["axis" := VStr (axisName a)]}
  = match legacy.normalizePosition fuel (legacy.at_ pos (axisName a)) c
            {["axis" := VStr (axisName a)]} with
    | Some (Ok r) => Some (Ok (coordinates a (coordinate a r) IGNORE_AXIS))
    | Some (Err e) => Some (Err e)
    | None => None
    end.
Proof.
  intros Hpos. cbn [legacy.normalizePosition]. rewrite Hpos.
  change (prop {["axis" := VStr (axisName a)]} "axis") with (VStr (axisName a)).
  destruct a; cbn [axisName coordinates coordinate].
  - change (strict_eq (VStr HORIZONTAL) (VStr VERTICAL)) with false.
    change (strict_eq (VStr HORIZONTAL) (VStr HORIZONTAL)) with true.
    cbv beta iota.
    now destruct (legacy.normalizePosition fuel _ c _) as [[r|e]|].
  - change (strict_eq (VStr VERTICAL) (VStr VERTICAL)) with true.
    change (strict_eq (VStr VERTICAL) (VStr HORIZONTAL)) with false.
    cbv beta iota.
    now destruct (legacy.normalizePosition fuel _ c _) as [[r|e]|].
Qed.

(** The two versions differ on a plain object as the entry of an axis. The
    earlier version descends into it: with an axis option that names no
    single axis, a hash whose only property is such an object under a name of
    an axis resolves as that object itself resolved on that axis. The later
    version rejects it with the invalid position error. *)
Theorem earlier_version_descends_into_nested_hashes :
  forall (fuel : nat) (key : string) (a : Axis)
         (inner : list (string * legacy.Nested)) (c : Container)
         (scrollable : queue.Scrollable) (options : gmap string value),
    canonicalKey key = axisName a ->
    singleAxis (prop options "axis") = None ->
    legacy.normalizePosition (S (S fuel)) (legacy.Node [(key, legacy.Node inner)]) c options
    = legacy.normalizePosition (S fuel) (legacy.Node inner) c
        {["axis" := VStr (axisName a)]}
    /\ normalizePosition (Hash [(key, VObject)]) c scrollable options
       = Err InvalidPositionValue.
Proof.
  intros fuel key a inner c scrollable options Hkey Haxis. split.
  - rewrite (legacy_node_both _ _ _ c options (legacy_single_property key _) Haxis).
    destruct (legacy_normalizeAxisProperties_Ok inner ∅) as [pos Hpos].
    pose proof (legacy_node_single fuel inner pos c a Hpos) as Hstep.
    rewrite Hkey. unfold legacy.at_ at 1 2.
    destruct a; cbn [axisName] in *.
    + rewrite lookup_insert_eq, lookup_insert_ne by discriminate.
      rewrite lookup_empty. cbn [default]. unfold id. rewrite !Hstep.
      cbn [legacy.normalizePosition].
      destruct (legacy.normalizePosition fuel _ c _) as [[r|e]|]; reflexivity.
    + rewrite lookup_insert_eq, lookup_insert_ne by discriminate.
      rewrite lookup_empty. cbn [default]. unfold id. rewrite !Hstep.
      cbn [legacy.normalizePosition].
      destruct (legacy.normalizePosition fuel _ c _) as [[r|e]|]; reflexivity.
  - destruct (singleAxis_None _ Haxis) as [Hh Hv].
    cbn [normalizePosition]. unfold normalizePositionForHash.
    rewrite single_property, Hh, Hv. cbn [mbind result_bind].
    change (extend [options; {["axis" := VStr HORIZONTAL]}])
      with (pinned options Horizontal).
    change (extend [options; {["axis" := VStr VERTICAL]}])
      with (pinned options Vertical).
    rewrite Hkey, insert_empty, !prop_singleton.
    unfold normalizePositionForAxis. rewrite !singleAxis_pinned.
    destruct a; cbn [axisName].
    + reflexivity.
    + change (String.eqb VERTICAL HORIZONTAL) with false.
      change (String.eqb VERTICAL VERTICAL) with true.
      cbv beta iota. cbn [lib.isNumber isUndefinedPositionValue].
      now destruct (getScrollMode (pinned options Horizontal)).
Qed.

Lemma nested_hash_example :
  legacy.normalizePosition 3
    (legacy.Node [("y", legacy.Node [("top", legacy.Leaf (VNum (ofZ 40)))])])
    Sample.container (Sample.axisOptions BOTH_AXES)
  = legacy.normalizePosition 2
      (legacy.Node [("top", legacy.Leaf (VNum (ofZ 40)))])
      Sample.container {["axis" := VStr VERTICAL]}
  /\ normalizePosition (Hash [("y", VObject)]) Sample.container (Sample.queued [])
       (Sample.axisOptions BOTH_AXES) = Err InvalidPositionValue.
Proof.
  exact (earlier_version_descends_into_nested_hashes 1 "y" Vertical
           [("top", legacy.Leaf (VNum (ofZ 40)))] Sample.container (Sample.queued [])
           (Sample.axisOptions BOTH_AXES) eq_refl eq_refl).
Defined.
